(** * Highcharts option classes: serialization and coercion

    A shallow embedding of the Python classes of
    [highcharts/accessibility/screen_reader_section.py],
    [highcharts/annotations/points.py], [highcharts/series/data/bar.py],
    [highcharts/series/bar.py] and [highcharts/series/dependencywheel.py],
    and the properties of their setters, decoders and exporters.

    Python values are a small untyped universe ([PyVal]); a call that can
    raise returns a [result]; a [dict] is an association list read by its
    first binding for a key. *)

From Stdlib Require Import ZArith List String Ascii Bool Lia Floats.
From Stdlib Require Import DecimalString Uint63.
Import ListNotations.
Local Open Scope string_scope.
Local Open Scope list_scope.

(** ** Python values *)

#[warnings="-register-all"]
Inductive PyVal : Type :=
| VNone
| VEnforcedNull                                 (* constants.EnforcedNull *)
| VBool (b : bool)
| VInt (z : Z)
| VFloat (f : float)
| VStr (s : string)
| VList (l : list PyVal)                        (* list or tuple *)
| VDict (d : list (string * PyVal))
| VObj (cls : string) (attrs : list (string * PyVal)).  (* class instance *)

Definition dict : Type := list (string * PyVal).

(** ** Exceptions

    The classes of [validator_collection.errors] derive from [ValueError],
    except [CannotCoerceError], which derives from [TypeError];
    [errors.HighchartsValueError] derives from [ValueError]. *)

Inductive exn : Type :=
| ValueError
| TypeError
| AttributeError
| EmptyValueError
| CannotCoerceError
| NotAnIntegerError
| MinimumValueError
| HighchartsValueError.

Definition is_ValueError (e : exn) : bool :=
  match e with
  | ValueError | EmptyValueError | NotAnIntegerError
  | MinimumValueError | HighchartsValueError => true
  | TypeError | AttributeError | CannotCoerceError => false
  end.

Inductive result (A : Type) : Type :=
| Ok (a : A)
| Raise (e : exn).
Arguments Ok {A} a.
Arguments Raise {A} e.

Definition bind {A B : Type} (c : result A) (k : A -> result B) : result B :=
  match c with
  | Ok a => k a
  | Raise e => Raise e
  end.

Notation "x <- c ;; k" := (bind c (fun x => k))
  (at level 61, c at next level, right associativity).

(** [try: c  except ValueError: h] *)
Definition except_ValueError {A : Type} (c h : result A) : result A :=
  match c with
  | Ok a => Ok a
  | Raise e => if is_ValueError e then h else Raise e
  end.

Definition raises (A : Type) (c : result A) : bool :=
  match c with Ok _ => false | Raise _ => true end.
Arguments raises {A} c.

(** ** Dictionaries *)

Fixpoint dict_lookup (d : dict) (k : string) : option PyVal :=
  match d with
  | [] => None
  | (k', v) :: d' => if String.eqb k k' then Some v else dict_lookup d' k
  end.

Definition dict_remove (d : dict) (k : string) : dict :=
  filter (fun kv => negb (String.eqb k (fst kv))) d.

(** [d.get(k, default)] *)
Definition dict_get (d : dict) (k : string) (default : PyVal) : PyVal :=
  match dict_lookup d k with Some v => v | None => default end.

(** [d.pop(k, default)]: the value and the dictionary left behind. *)
Definition dict_pop (d : dict) (k : string) (default : PyVal) : PyVal * dict :=
  (dict_get d k default, dict_remove d k).

(** [d[k] = v]: an existing key keeps its position, a new one goes last. *)
Fixpoint dict_set (d : dict) (k : string) (v : PyVal) : dict :=
  match d with
  | [] => [(k, v)]
  | (k', v') :: d' =>
      if String.eqb k k' then (k', v) :: d' else (k', v') :: dict_set d' k v
  end.

Definition dict_keys (d : dict) : list string := map fst d.

Definition has_key (d : dict) (k : string) : bool :=
  match dict_lookup d k with Some _ => true | None => false end.

(** A dictionary literal [{k1: v1, ...}]. *)
Definition dict_literal (kvs : list (string * PyVal)) : dict :=
  fold_left (fun d kv => dict_set d (fst kv) (snd kv)) kvs [].

(** ** Truthiness, [in], [==] *)

Definition truthy (v : PyVal) : bool :=
  match v with
  | VNone => false
  | VEnforcedNull => true
  | VBool b => b
  | VInt z => negb (Z.eqb z 0)
  | VFloat f => negb (PrimFloat.eqb f 0%float)
  | VStr s => negb (String.eqb s "")
  | VList l => match l with [] => false | _ => true end
  | VDict d => match d with [] => false | _ => true end
  | VObj _ _ => true
  end.

Definition is_None (v : PyVal) : bool :=
  match v with VNone => true | _ => false end.

Definition str_contains (sub s : string) : bool :=
  match String.index 0 sub s with Some _ => true | None => false end.

(** [isinstance(value, (dict, str)) and key in value] *)
Definition dict_or_str_contains (key : string) (value : PyVal) : bool :=
  match value with
  | VDict d => has_key d key
  | VStr s => str_contains key s
  | _ => false
  end.

(** [isinstance(value, dict) and key in value] *)
Definition dict_contains (key : string) (value : PyVal) : bool :=
  match value with
  | VDict d => has_key d key
  | _ => false
  end.

(** [value == ''] *)
Definition eq_empty_str (v : PyVal) : bool :=
  match v with VStr s => String.eqb s "" | _ => false end.

(** ** Floats read exactly *)

Definition float_to_int (f : float) : option Z :=
  match Prim2SF f with
  | S754_zero _ => Some 0%Z
  | S754_finite s m e =>
      let mz := if s then Z.neg m else Z.pos m in
      if (0 <=? e)%Z then Some (mz * 2 ^ e)%Z
      else if (Z.pos m mod 2 ^ (- e) =? 0)%Z then Some (mz / 2 ^ (- e))%Z
      else None
  | S754_infinity _ | S754_nan => None
  end.

(** [f < m] for a float [f] and an integer [m], as Python compares them. *)
Definition float_lt_int (f : float) (m : Z) : bool :=
  match Prim2SF f with
  | S754_zero _ => (0 <? m)%Z
  | S754_finite s mant e =>
      let mz := if s then Z.neg mant else Z.pos mant in
      if (0 <=? e)%Z then (mz * 2 ^ e <? m)%Z
      else (mz <? m * 2 ^ (- e))%Z
  | S754_infinity s => s
  | S754_nan => false
  end.

(** ** What the runtime and the absent modules supply

    [float_] is Python's [float] on text; [json_dict] tells whether a text
    is JSON for an object (what [validators.dict] accepts besides a dict). *)

Class Runtime : Type := {
  float_ : string -> option float;
  json_dict : string -> bool
}.

(** [highcharts.constants]: the three format defaults are text. *)
Class Constants : Type := {
  DEFAULT_AFTER_CHART_FORMAT : string;
  DEFAULT_AXIS_RANGE_DATE_FORMAT : string;
  DEFAULT_BEFORE_CHART_FORMAT : string;
  SUPPORTED_DASH_STYLE_VALUES : list string
}.

(** ** validator_collection *)

Module validators.
Section Validators.
Context {RT : Runtime}.

(** [value < minimum] for a numeric [value]. *)
Definition lt_int (value : PyVal) (m : Z) : bool :=
  match value with
  | VInt z => (z <? m)%Z
  | VBool b => (Z.b2z b <? m)%Z
  | VFloat f => float_lt_int f m
  | _ => false
  end.

Definition check_minimum (value : PyVal) (minimum : option Z) : result PyVal :=
  match minimum with
  | Some m => if lt_int value m then Raise MinimumValueError else Ok value
  | None => Ok value
  end.

(** [validators.numeric(value, allow_empty, minimum)]: text is read as a
    float, a number (a bool is an int) is returned as it is. *)
Definition numeric (value : PyVal) (allow_empty : bool)
    (minimum : option Z) : result PyVal :=
  match value with
  | VNone => if allow_empty then Ok VNone else Raise EmptyValueError
  | VStr s =>
      match float_ s with
      | Some f => check_minimum (VFloat f) minimum
      | None => Raise CannotCoerceError
      end
  | VBool _ | VInt _ | VFloat _ => check_minimum value minimum
  | _ => Raise CannotCoerceError
  end.

(** [validators.integer(value)]: a numeric value that is a whole number. *)
Definition integer (value : PyVal) : result PyVal :=
  v <- numeric value false None ;;
  match v with
  | VFloat f =>
      match float_to_int f with
      | Some z => Ok (VInt z)
      | None => Raise NotAnIntegerError
      end
  | _ => Ok v
  end.

(** [validators.string(value, allow_empty)]: without coercion. *)
Definition string (value : PyVal) (allow_empty : bool) : result PyVal :=
  if negb (truthy value) then
    if allow_empty then Ok VNone else Raise EmptyValueError
  else
    match value with
    | VStr s => Ok (VStr s)
    | _ => Raise CannotCoerceError
    end.
End Validators.
End validators.

Module checkers.
Section Checkers.
Context {RT : Runtime}.

(** [checkers.is_iterable(value)]: text is a forbidden literal; a class
    instance of this package defines no iteration. *)
Definition is_iterable (value : PyVal) : bool :=
  match value with
  | VList _ | VDict _ => true
  | _ => false
  end.

Definition is_dict (value : PyVal) : bool :=
  match value with
  | VDict _ => true
  | VStr s => json_dict s
  | _ => false
  end.

(** [checkers.is_type(value, name)]: by class name. *)
Definition is_type (value : PyVal) (name : String.string) : bool :=
  match value with
  | VObj cls _ => String.eqb cls name
  | _ => false
  end.

(** [isinstance(value, constants.EnforcedNullType)] *)
Definition is_EnforcedNull (value : PyVal) : bool :=
  match value with VEnforcedNull => true | _ => false end.
End Checkers.
End checkers.

(** ** highcharts.metaclasses.HighchartsMeta *)

Module HighchartsMeta.

(** Modelled from the spec: [HighchartsMeta.trim_dict] is not among the
    sources.  "A field is omitted from the result iff its value is the
    unset sentinel; a field whose value is the explicit forced default
    sentinel is still emitted": a key whose value is [None] is dropped,
    every other key is kept with its value, in order. *)
Definition trim_dict (untrimmed : dict) : dict :=
  filter (fun kv => negb (is_None (snd kv))) untrimmed.

End HighchartsMeta.

(** ** accessibility/screen_reader_section.py *)

Module ScreenReaderSection.

Record t : Type := mk {
  after_chart_format : PyVal;
  after_chart_formatter : PyVal;
  axis_range_date_format : PyVal;
  before_chart_format : PyVal;
  before_chart_formatter : PyVal;
  on_play_as_sound_click : PyVal;
  on_view_data_table_click : PyVal
}.

Section Class.
Context {RT : Runtime} {K : Constants}.

(** The setters: each returns [self] with the one attribute assigned, or
    raises and assigns nothing. *)

(** The value stored by the [after_chart_format] and [before_chart_format]
    setters, whose bodies are the same. *)
Definition chart_format_value (value : PyVal) : result PyVal :=
  if is_None value then Ok VNone
  else if negb (truthy value) then Ok (VStr "")
  else validators.string value false.

Definition set_after_chart_format (self : t) (value : PyVal) : result t :=
  v <- chart_format_value value ;;
  Ok (mk v (after_chart_formatter self) (axis_range_date_format self)
         (before_chart_format self) (before_chart_formatter self)
         (on_play_as_sound_click self) (on_view_data_table_click self)).

Definition set_after_chart_formatter (self : t) (value : PyVal) : result t :=
  v <- validators.string value true ;;
  Ok (mk (after_chart_format self) v (axis_range_date_format self)
         (before_chart_format self) (before_chart_formatter self)
         (on_play_as_sound_click self) (on_view_data_table_click self)).

Definition set_axis_range_date_format (self : t) (value : PyVal) : result t :=
  v <- validators.string value true ;;
  Ok (mk (after_chart_format self) (after_chart_formatter self) v
         (before_chart_format self) (before_chart_formatter self)
         (on_play_as_sound_click self) (on_view_data_table_click self)).

Definition set_before_chart_format (self : t) (value : PyVal) : result t :=
  v <- chart_format_value value ;;
  Ok (mk (after_chart_format self) (after_chart_formatter self)
         (axis_range_date_format self) v (before_chart_formatter self)
         (on_play_as_sound_click self) (on_view_data_table_click self)).

Definition set_before_chart_formatter (self : t) (value : PyVal) : result t :=
  v <- validators.string value true ;;
  Ok (mk (after_chart_format self) (after_chart_formatter self)
         (axis_range_date_format self) (before_chart_format self) v
         (on_play_as_sound_click self) (on_view_data_table_click self)).

Definition set_on_play_as_sound_click (self : t) (value : PyVal) : result t :=
  v <- validators.string value true ;;
  Ok (mk (after_chart_format self) (after_chart_formatter self)
         (axis_range_date_format self) (before_chart_format self)
         (before_chart_formatter self) v (on_view_data_table_click self)).

Definition set_on_view_data_table_click (self : t) (value : PyVal) : result t :=
  v <- validators.string value true ;;
  Ok (mk (after_chart_format self) (after_chart_formatter self)
         (axis_range_date_format self) (before_chart_format self)
         (before_chart_formatter self) (on_play_as_sound_click self) v).

(** [__init__(self, **kwargs)] *)
Definition init (kwargs : dict) : result t :=
  let self := mk (VStr DEFAULT_AFTER_CHART_FORMAT) VNone
                 (VStr DEFAULT_AXIS_RANGE_DATE_FORMAT)
                 (VStr DEFAULT_BEFORE_CHART_FORMAT) VNone VNone VNone in
  let '(v, kwargs) := dict_pop kwargs "after_chart_format"
                        (VStr DEFAULT_AFTER_CHART_FORMAT) in
  self <- set_after_chart_format self v ;;
  let '(v, kwargs) := dict_pop kwargs "after_chart_formatter" VNone in
  self <- set_after_chart_formatter self v ;;
  let '(v, kwargs) := dict_pop kwargs "axis_range_date_format"
                        (VStr DEFAULT_AXIS_RANGE_DATE_FORMAT) in
  self <- set_axis_range_date_format self v ;;
  let '(v, kwargs) := dict_pop kwargs "before_chart_format"
                        (VStr DEFAULT_BEFORE_CHART_FORMAT) in
  self <- set_before_chart_format self v ;;
  let '(v, kwargs) := dict_pop kwargs "before_chart_formatter" VNone in
  self <- set_before_chart_formatter self v ;;
  let '(v, kwargs) := dict_pop kwargs "on_play_as_sound_click" VNone in
  self <- set_on_play_as_sound_click self v ;;
  let '(v, kwargs) := dict_pop kwargs "on_view_data_table_click" VNone in
  set_on_view_data_table_click self v.

(** [from_dict(cls, as_dict)] *)
Definition from_dict (as_dict : dict) : result t :=
  let '(v1, as_dict) := dict_pop as_dict "afterChartFormat"
                          (VStr DEFAULT_AFTER_CHART_FORMAT) in
  let '(v2, as_dict) := dict_pop as_dict "afterChartFormatter" VNone in
  let '(v3, as_dict) := dict_pop as_dict "axisRangeDateFormat"
                          (VStr DEFAULT_AXIS_RANGE_DATE_FORMAT) in
  let '(v4, as_dict) := dict_pop as_dict "beforeChartFormat"
                          (VStr DEFAULT_BEFORE_CHART_FORMAT) in
  let '(v5, as_dict) := dict_pop as_dict "beforeChartFormatter" VNone in
  let '(v6, as_dict) := dict_pop as_dict "onPlayAsSoundClick" VNone in
  let '(v7, as_dict) := dict_pop as_dict "onViewDataTableClick" VNone in
  init (dict_literal
          [("after_chart_format", v1); ("after_chart_formatter", v2);
           ("axis_range_date_format", v3); ("before_chart_format", v4);
           ("before_chart_formatter", v5); ("on_play_as_sound_click", v6);
           ("on_view_data_table_click", v7)]).

Definition untrimmed (self : t) : dict :=
  dict_literal
    [("afterChartFormat", after_chart_format self);
     ("afterChartFormatter", after_chart_formatter self);
     ("axisRangeDateFormat", axis_range_date_format self);
     ("beforeChartFormat", before_chart_format self);
     ("beforeChartFormatter", before_chart_formatter self);
     ("onPlayAsSoundClick", on_play_as_sound_click self);
     ("onViewDataTableClick", on_view_data_table_click self)].

(** [to_json(self)] *)
Definition to_json (self : t) : dict :=
  HighchartsMeta.trim_dict (untrimmed self).

End Class.
End ScreenReaderSection.

(** ** annotations/points.py *)

Module AnnotationPoint.

Record t : Type := mk {
  x : PyVal;
  x_axis : PyVal;
  y : PyVal;
  y_axis : PyVal
}.

Section Class.
Context {RT : Runtime}.

(** The body shared by the [x_axis] and [y_axis] setters. *)
Definition axis_value (value : PyVal) : result PyVal :=
  if is_None value || eq_empty_str value then Ok VNone
  else
    except_ValueError
      (except_ValueError (validators.integer value)
                         (validators.string value false))
      (Raise HighchartsValueError).

Definition set_x (self : t) (value : PyVal) : result t :=
  v <- validators.numeric value true None ;;
  Ok (mk v (x_axis self) (y self) (y_axis self)).

Definition set_x_axis (self : t) (value : PyVal) : result t :=
  v <- axis_value value ;;
  Ok (mk (x self) v (y self) (y_axis self)).

Definition set_y (self : t) (value : PyVal) : result t :=
  v <- validators.numeric value true None ;;
  Ok (mk (x self) (x_axis self) v (y_axis self)).

Definition set_y_axis (self : t) (value : PyVal) : result t :=
  v <- axis_value value ;;
  Ok (mk (x self) (x_axis self) (y self) v).

(** [__init__(self, **kwargs)] *)
Definition init (kwargs : dict) : result t :=
  let self := mk VNone VNone VNone VNone in
  let '(v, kwargs) := dict_pop kwargs "x" VNone in
  self <- set_x self v ;;
  let '(v, kwargs) := dict_pop kwargs "x_axis" VNone in
  self <- set_x_axis self v ;;
  let '(v, kwargs) := dict_pop kwargs "y" VNone in
  self <- set_y self v ;;
  let '(v, kwargs) := dict_pop kwargs "y_axis" VNone in
  set_y_axis self v.

(** [from_dict(cls, as_dict)] *)
Definition from_dict (as_dict : dict) : result t :=
  let '(v1, as_dict) := dict_pop as_dict "x" VNone in
  let '(v2, as_dict) := dict_pop as_dict "xAxis" VNone in
  let '(v3, as_dict) := dict_pop as_dict "y" VNone in
  let '(v4, as_dict) := dict_pop as_dict "yAxis" VNone in
  init (dict_literal
          [("x", v1); ("x_axis", v2); ("y", v3); ("y_axis", v4)]).

(** [to_dict(self)] *)
Definition to_dict (self : t) : dict :=
  dict_literal
    [("x", x self); ("xAxis", x_axis self);
     ("y", y self); ("yAxis", y_axis self)].

End Class.
End AnnotationPoint.

(** ** The absent collaborators of the data point and series classes

    [utility_classes.gradients], [utility_classes.patterns],
    [series.data.cartesian] and [series.data.connections] are not among
    the sources: their decoders and constructors are taken as they come.
    A parent's part of an instance is the dictionary of the attributes
    its [__init__] assigns. *)

Class Collaborators : Type := {
  Gradient_from_json : PyVal -> result PyVal;
  Gradient_from_dict : dict -> result PyVal;
  Gradient_init : dict -> result PyVal;
  Pattern_from_json : PyVal -> result PyVal;
  Pattern_from_dict : dict -> result PyVal;
  Pattern_init : dict -> result PyVal;
  (* CartesianData.__init__ on the remaining kwargs, CartesianData.to_dict() *)
  CartesianData_init : dict -> result dict;
  CartesianData_to_dict : dict -> option dict;
  (* cls.from_dict on JSON text, by class name *)
  from_dict_text : string -> string -> result PyVal;
  (* XRangeData.from_dict *)
  XRangeData_from_dict : PyVal -> result PyVal;
  (* the from_setter of the point classes defined elsewhere *)
  BarData_from_setter : PyVal -> result PyVal;
  CartesianData_from_setter : PyVal -> result PyVal;
  Cartesian3DData_from_setter : PyVal -> result PyVal;
  RangeData_from_setter : PyVal -> result PyVal;
  WaterfallData_from_setter : PyVal -> result PyVal;
  WeightedConnectionData_from_setter : PyVal -> result PyVal
}.

(** [_get_kwargs_from_dict]: a dictionary display of
    [internal: as_dict.pop(external, default)] entries, evaluated in
    order on the one [as_dict]. *)
Fixpoint pop_entries (table : list (string * string * PyVal))
    (as_dict kwargs : dict) : dict :=
  match table with
  | [] => kwargs
  | (internal, external, default) :: rest =>
      let '(v, as_dict) := dict_pop as_dict external default in
      pop_entries rest as_dict (dict_set kwargs internal v)
  end.

(** [for key in src: dst[key] = src[key]] *)
Definition dict_update (dst src : dict) : dict :=
  fold_left (fun d kv => dict_set d (fst kv) (snd kv)) src dst.

(** ** series/data/bar.py *)

Module BarData.

Record t : Type := mk {
  border_color : PyVal;
  border_width : PyVal;
  dash_style : PyVal;
  point_width : PyVal;
  base : dict                  (* the CartesianData part *)
}.

Section Class.
Context {RT : Runtime} {K : Constants} {C : Collaborators}.

(** [isinstance(value, (Gradient, Pattern))] *)
Definition is_Gradient_or_Pattern (value : PyVal) : bool :=
  match value with
  | VObj cls _ => String.eqb cls "Gradient" || String.eqb cls "Pattern"
  | _ => false
  end.

(** The keyword arguments of [Gradient] called on an unpacked dict [value] *)
Definition kwargs_of (value : PyVal) : dict :=
  match value with VDict d => d | _ => [] end.

(** The value the [border_color] setter stores. *)
Definition border_color_value (value : PyVal) : result PyVal :=
  if negb (truthy value) then Ok VNone
  else if is_Gradient_or_Pattern value then Ok value
  else if dict_or_str_contains "linearGradient" value then
    except_ValueError (Gradient_from_json value)
      (match value with
       | VDict d => Gradient_from_dict d
       | _ => validators.string value false
       end)
  else if dict_contains "linear_gradient" value then
    Gradient_init (kwargs_of value)
  else if dict_or_str_contains "patternOptions" value then
    except_ValueError (Pattern_from_json value)
      (match value with
       | VDict d => Pattern_from_dict d
       | _ => validators.string value false
       end)
  else if dict_contains "pattern_options" value then
    Pattern_init (kwargs_of value)
  else Raise HighchartsValueError.

Definition set_border_color (self : t) (value : PyVal) : result t :=
  v <- border_color_value value ;;
  Ok (mk v (border_width self) (dash_style self) (point_width self)
         (base self)).

Definition set_border_width (self : t) (value : PyVal) : result t :=
  v <- validators.numeric value true (Some 0%Z) ;;
  Ok (mk (border_color self) v (dash_style self) (point_width self)
         (base self)).

(** The value the [dash_style] setter stores. *)
Definition dash_style_value (value : PyVal) : result PyVal :=
  if negb (truthy value) then Ok VNone
  else
    v <- validators.string value false ;;
    match v with
    | VStr s =>
        if existsb (String.eqb s) SUPPORTED_DASH_STYLE_VALUES
        then Ok v else Raise HighchartsValueError
    | _ => Raise HighchartsValueError
    end.

Definition set_dash_style (self : t) (value : PyVal) : result t :=
  v <- dash_style_value value ;;
  Ok (mk (border_color self) (border_width self) v (point_width self)
         (base self)).

Definition set_point_width (self : t) (value : PyVal) : result t :=
  v <- validators.numeric value true None ;;
  Ok (mk (border_color self) (border_width self) (dash_style self) v
         (base self)).

(** [__init__(self, **kwargs)] *)
Definition init (kwargs : dict) : result t :=
  let self := mk VNone VNone VNone VNone [] in
  let '(v, kwargs) := dict_pop kwargs "border_color" VNone in
  self <- set_border_color self v ;;
  let '(v, kwargs) := dict_pop kwargs "border_width" VNone in
  self <- set_border_width self v ;;
  let '(v, kwargs) := dict_pop kwargs "dash_style" VNone in
  self <- set_dash_style self v ;;
  let '(v, kwargs) := dict_pop kwargs "point_width" VNone in
  self <- set_point_width self v ;;
  b <- CartesianData_init kwargs ;;
  Ok (mk (border_color self) (border_width self) (dash_style self)
         (point_width self) b).

Definition own_untrimmed (self : t) : dict :=
  dict_literal
    [("borderColor", border_color self);
     ("borderWidth", border_width self);
     ("dashStyle", dash_style self);
     ("pointWidth", point_width self)].

(** [super().to_dict() or {}] *)
Definition parent_as_dict (self : t) : dict :=
  match CartesianData_to_dict (base self) with
  | Some d => d
  | None => []
  end.

Definition untrimmed (self : t) : dict :=
  dict_update (own_untrimmed self) (parent_as_dict self).

(** [to_dict(self)] *)
Definition to_dict (self : t) : dict :=
  HighchartsMeta.trim_dict (untrimmed self).

End Class.
End BarData.

(** [for item in value]: a list yields its members, a dict its keys. *)
Definition iterate (value : PyVal) : list PyVal :=
  match value with
  | VList l => l
  | VDict d => map VStr (dict_keys d)
  | _ => []
  end.

(** [for item in value: collection.append(body(item))] *)
Fixpoint collect (body : PyVal -> result PyVal) (items : list PyVal)
    : result (list PyVal) :=
  match items with
  | [] => Ok []
  | item :: rest =>
      as_obj <- body item ;;
      collection <- collect body rest ;;
      Ok (as_obj :: collection)
  end.

(** The prologue and loop shared by the [from_setter] class methods. *)
Definition from_setter_with {RT : Runtime} (body : PyVal -> result PyVal)
    (value : PyVal) : result (list PyVal) :=
  if negb (truthy value) then Ok []
  else
    let value := if negb (checkers.is_iterable value) then [value]
                 else iterate value in
    collect body value.

Module WindBarbData.
Section Class.
Context {RT : Runtime} {C : Collaborators}.

Definition kwargs_table : list (string * string * PyVal) :=
  [
   ("accessibility", "accessibility", VNone);
   ("class_name", "className", VNone);
   ("color", "color", VNone);
   ("color_index", "colorIndex", VNone);
   ("custom", "custom", VNone);
   ("description", "description", VNone);
   ("events", "events", VNone);
   ("id", "id", VNone);
   ("label_rank", "labelrank", VNone);
   ("name", "name", VNone);
   ("selected", "selected", VNone);
   ("data_labels", "dataLabels", VNone);
   ("drag_drop", "dragDrop", VNone);
   ("drilldown", "drilldown", VNone);
   ("marker", "marker", VNone);
   ("x", "x", VNone);
   ("y", "y", VNone);
   ("direction", "direction", VNone);
   ("value", "value", VNone)
  ].

Definition _get_kwargs_from_dict (as_dict : dict) : dict :=
  pop_entries kwargs_table as_dict [].

(** [__init__(self, **kwargs)]: the instance is its class name and the
    attributes assigned, the parent's last. *)
Definition init (kwargs : dict) : result PyVal :=
  let '(v, kwargs) := dict_pop kwargs "direction" VNone in
  direction <- validators.numeric v true None ;;
  let '(v, kwargs) := dict_pop kwargs "value" VNone in
  value <- validators.numeric v true None ;;
  b <- CartesianData_init kwargs ;;
  Ok (VObj "WindBarbData"
           (("_direction", direction) :: ("_value", value) :: b)).

(** Modelled from the spec: [HighchartsMeta.from_dict] is not among the
    sources.  "Renames each known external key to its internal name,
    substitutes the type's schema default when a key is absent, then
    delegates to from_fields": the class's [_get_kwargs_from_dict], then
    its constructor.  What it does with JSON text is left to
    [from_dict_text]. *)
Definition from_dict (as_dict : PyVal) : result PyVal :=
  match as_dict with
  | VDict d => init (_get_kwargs_from_dict d)
  | VStr s => from_dict_text "WindBarbData" s
  | _ => Raise AttributeError
  end.

(** The body of the loop of [from_setter]: the object appended for
    [item]. *)
Definition coerce (item : PyVal) : result PyVal :=
  if checkers.is_type item "WindBarbData" then Ok item
  else if checkers.is_dict item then from_dict item
  else if is_None item || checkers.is_EnforcedNull item then
    init (dict_literal [("x", VNone); ("value", VNone);
                        ("direction", VNone); ("y", VNone)])
  else if checkers.is_iterable item then
    match item with
    | VList [i0; i1; i2; i3] =>
        from_dict (VDict (dict_literal
          [("x", i0); ("value", i1); ("direction", i2); ("y", i3)]))
    | VList [i0; i1; i2] =>
        from_dict (VDict (dict_literal
          [("x", i0); ("value", i1); ("direction", i2)]))
    | _ => Raise HighchartsValueError
    end
  else Raise HighchartsValueError.

(** [WindBarbData.from_setter(cls, value)] *)
Definition from_setter (value : PyVal) : result (list PyVal) :=
  from_setter_with coerce value.

End Class.
End WindBarbData.


Module XRangeData.
Section Class.
Context {RT : Runtime} {C : Collaborators}.

Definition coerce (item : PyVal) : result PyVal :=
  if checkers.is_type item "XRangeData" then Ok item
  else if checkers.is_dict item then XRangeData_from_dict item
  else if is_None item || checkers.is_EnforcedNull item then Ok VNone
  else Raise HighchartsValueError.

(** [XRangeData.from_setter(cls, value)] *)
Definition from_setter (value : PyVal) : result (list PyVal) :=
  from_setter_with coerce value.

End Class.
End XRangeData.

(** ** highcharts.utility_functions *)

Module utility_functions.

(** Modelled from the spec: [mro_to_dict] is not among the sources.
    "Export likewise merges every parent's to_external output into one
    dictionary via the same precedence" (a later-declared parent
    overrides an earlier one): the parents' untrimmed dictionaries, in
    declaration order, each written over what came before. *)
Definition mro_to_dict (parents : list dict) : dict :=
  fold_left dict_update parents [].

End utility_functions.

(** ** series/bar.py and series/dependencywheel.py

    A series is read through its [_data] attribute and, for export, the
    untrimmed dictionaries of the option sets it inherits from. *)

Definition as_list (r : result (list PyVal)) : result PyVal :=
  l <- r ;; Ok (VList l).

(** [self.data = value] when [_data] holds [old]: a setter that raises
    assigns nothing. *)
Definition assign (setter : PyVal -> result PyVal) (old value : PyVal)
    : PyVal :=
  match setter value with
  | Ok v => v
  | Raise _ => old
  end.

Module BaseBarSeries.
Section Class.
Context {RT : Runtime} {C : Collaborators}.

Definition set_data (value : PyVal) : result PyVal :=
  if negb (truthy value) then Ok VNone else BarData_from_setter value.

(** [to_dict(self)], for a series whose parents export [parents]. *)
Definition to_dict (parents : list dict) : dict :=
  HighchartsMeta.trim_dict (utility_functions.mro_to_dict parents).

End Class.
End BaseBarSeries.

Module BarSeries.

#[warnings="-inexact-float"]
Definition kwargs_table : list (string * string * PyVal) :=
  [
   ("accessibility", "accessibility", VNone);
   ("allow_point_select", "allowPointSelect", VNone);
   ("animation", "animation", VNone);
   ("class_name", "className", VNone);
   ("clip", "clip", VNone);
   ("color", "color", VNone);
   ("cursor", "cursor", VNone);
   ("custom", "custom", VNone);
   ("dash_style", "dashStyle", VNone);
   ("data_labels", "dataLabels", VNone);
   ("description", "description", VNone);
   ("enable_mouse_tracking", "enableMouseTracking", VNone);
   ("events", "events", VNone);
   ("include_in_data_export", "includeInDataExport", VNone);
   ("keys", "keys", VNone);
   ("label", "label", VNone);
   ("linked_to", "linkedTo", VNone);
   ("marker", "marker", VNone);
   ("on_point", "onPoint", VNone);
   ("opacity", "opacity", VNone);
   ("point", "point", VNone);
   ("point_description_formatter", "pointDescriptionFormatter", VNone);
   ("selected", "selected", VNone);
   ("show_checkbox", "showCheckbox", VNone);
   ("show_in_legend", "showInLegend", VNone);
   ("skip_keyboard_navigation", "skipKeyboardNavigation", VNone);
   ("states", "states", VNone);
   ("threshold", "threshold", VNone);
   ("tooltip", "tooltip", VNone);
   ("turbo_threshold", "turboThreshold", VNone);
   ("visible", "visible", VNone);
   ("animation_limit", "animationLimit", VNone);
   ("boost_blending", "boostBlending", VNone);
   ("boost_threshold", "boostThreshold", VNone);
   ("color_axis", "colorAxis", VNone);
   ("color_index", "colorIndex", VNone);
   ("color_key", "colorKey", VNone);
   ("connect_ends", "connectEnds", VNone);
   ("connect_nulls", "connectNulls", VNone);
   ("crisp", "crisp", VNone);
   ("crop_threshold", "cropThreshold", VNone);
   ("data_sorting", "dataSorting", VNone);
   ("drag_drop", "dragDrop", VNone);
   ("fill_color", "fillColor", VNone);
   ("fill_opacity", "fillOpacity", VNone);
   ("find_nearest_point_by", "findNearestPointBy", VNone);
   ("get_extremes_for_all", "getExtremesForAll", VNone);
   ("linecap", "linecap", VNone);
   ("line_color", "lineColor", VNone);
   ("line_width", "lineWidth", VNone);
   ("negative_color", "negativeColor", VNone);
   ("negative_fill_color", "negativeFillColor", VNone);
   ("point_interval", "pointInterval", VNone);
   ("point_interval_unit", "pointIntervalUnit", VNone);
   ("point_placement", "pointPlacement", VNone);
   ("point_start", "pointStart", VNone);
   ("relative_x_value", "relativeXValue", VNone);
   ("shadow", "shadow", VNone);
   ("soft_threshold", "softThreshold", VNone);
   ("stacking", "stacking", VNone);
   ("step", "step", VNone);
   ("track_by_area", "trackByArea", VNone);
   ("zone_axis", "zoneAxis", VNone);
   ("zones", "zones", VNone);
   ("border_color", "borderColor", VStr "#ffffff");
   ("border_radius", "borderRadius", VInt 0);
   ("border_width", "borderWidth", VNone);
   ("center_in_category", "centerInCategory", VBool false);
   ("color_by_point", "colorByPoint", VBool false);
   ("colors", "colors", VNone);
   ("grouping", "grouping", VBool true);
   ("group_padding", "groupPadding", VFloat 0.2);
   ("max_point_width", "maxPointWidth", VNone);
   ("min_point_length", "minPointLength", VInt 0);
   ("point_padding", "pointPadding", VFloat 0.1);
   ("point_range", "pointRange", VEnforcedNull);
   ("point_width", "pointWidth", VNone);
   ("depth", "depth", VInt 25);
   ("edge_color", "edgeColor", VNone);
   ("edge_width", "edgeWidth", VInt 1);
   ("group_z_padding", "groupZPadding", VInt 1);
   ("data", "data", VNone);
   ("id", "id", VNone);
   ("index", "index", VNone);
   ("legend_index", "legendIndex", VNone);
   ("name", "name", VNone);
   ("stack", "stack", VNone);
   ("x_axis", "xAxis", VNone);
   ("y_axis", "yAxis", VNone);
   ("z_index", "zIndex", VNone)
  ].

Definition _get_kwargs_from_dict (as_dict : dict) : dict :=
  pop_entries kwargs_table as_dict [].

Definition to_dict (parents : list dict) : dict :=
  HighchartsMeta.trim_dict (utility_functions.mro_to_dict parents).

End BarSeries.

Module ColumnPyramidSeries.
Definition set_data {C : Collaborators} (value : PyVal) : result PyVal :=
  if negb (truthy value) then Ok VNone else CartesianData_from_setter value.
End ColumnPyramidSeries.

Module ColumnRangeSeries.
Definition set_data {C : Collaborators} (value : PyVal) : result PyVal :=
  if negb (truthy value) then Ok VNone else RangeData_from_setter value.
End ColumnRangeSeries.

Module VariwideSeries.
Definition set_data {C : Collaborators} (value : PyVal) : result PyVal :=
  if negb (truthy value) then Ok VNone else Cartesian3DData_from_setter value.
End VariwideSeries.

Module WaterfallSeries.
Definition set_data {C : Collaborators} (value : PyVal) : result PyVal :=
  if negb (truthy value) then Ok VNone else WaterfallData_from_setter value.
End WaterfallSeries.

Module WindBarbSeries.
Definition set_data {RT : Runtime} {C : Collaborators} (value : PyVal)
    : result PyVal :=
  if negb (truthy value) then Ok VNone
  else as_list (WindBarbData.from_setter value).
End WindBarbSeries.

Module XRangeSeries.
Definition set_data {RT : Runtime} {C : Collaborators} (value : PyVal)
    : result PyVal :=
  if negb (truthy value) then Ok VNone
  else as_list (XRangeData.from_setter value).
End XRangeSeries.

Module DependencyWheelSeries.
Definition set_data {C : Collaborators} (value : PyVal) : result PyVal :=
  if negb (truthy value) then Ok VNone
  else WeightedConnectionData_from_setter value.

(** [_to_untrimmed_dict(self)] *)
Definition _to_untrimmed_dict (parents : list dict) (nodes : PyVal) : dict :=
  dict_set (utility_functions.mro_to_dict parents) "nodes" nodes.
End DependencyWheelSeries.

(** ** Auxiliary readings used in the statements *)

(** What trimming leaves of a binding. *)
Definition keep (o : option PyVal) : option PyVal :=
  match o with
  | Some v => if is_None v then None else Some v
  | None => None
  end.

(** A number, as [validators.numeric] returns one. *)
Definition is_number (v : PyVal) : bool :=
  match v with
  | VBool _ | VInt _ | VFloat _ => true
  | _ => false
  end.

Definition is_str (v : PyVal) : bool :=
  match v with VStr _ => true | _ => false end.

(** Text, or a value that counts as empty. *)
Definition text_or_empty (v : PyVal) : bool :=
  is_str v || negb (truthy v).

(** No text occurs twice in a list. *)
Fixpoint nodupb (l : list string) : bool :=
  match l with
  | [] => true
  | x :: r => negb (existsb (String.eqb x) r) && nodupb r
  end.

Definition internal_names (table : list (string * string * PyVal)) : list string :=
  map (fun e => fst (fst e)) table.

Definition external_names (table : list (string * string * PyVal)) : list string :=
  map (fun e => snd (fst e)) table.

(** ** Sample instances, to run the definitions on concrete inputs

    The sample runtime reads unsigned decimal numerals as floats and takes
    no text for JSON; the sample constants are the library's documented
    defaults; the sample collaborators keep a point's [x] and [y]. *)

Definition sample_runtime : Runtime := {|
  float_ := fun s =>
    match NilEmpty.uint_of_string s with
    | Some u => Some (PrimFloat.of_uint63 (Uint63.of_Z (Z.of_uint u)))
    | None => None
    end;
  json_dict := fun _ => false
|}.

Definition sample_constants : Constants := {|
  DEFAULT_AFTER_CHART_FORMAT := "{endOfChartMarker}";
  DEFAULT_AXIS_RANGE_DATE_FORMAT := "%Y-%m-%d %H:%M:%S";
  DEFAULT_BEFORE_CHART_FORMAT :=
    "<{headingTagName}>{chartTitle}</{headingTagName}><div>{typeDescription}</div>";
  SUPPORTED_DASH_STYLE_VALUES :=
    ["Dash"; "DashDot"; "Dot"; "LongDash"; "LongDashDot"; "LongDashDotDot";
     "ShortDash"; "ShortDashDot"; "ShortDashDotDot"; "ShortDot"; "Solid"]
|}.

Definition sample_collaborators : Collaborators := {|
  Gradient_from_json := fun _ => Raise ValueError;
  Gradient_from_dict := fun d => Ok (VObj "Gradient" d);
  Gradient_init := fun d => Ok (VObj "Gradient" d);
  Pattern_from_json := fun _ => Raise ValueError;
  Pattern_from_dict := fun d => Ok (VObj "Pattern" d);
  Pattern_init := fun d => Ok (VObj "Pattern" d);
  CartesianData_init := fun kwargs =>
    Ok [("_x", dict_get kwargs "x" VNone); ("_y", dict_get kwargs "y" VNone)];
  CartesianData_to_dict := fun attrs =>
    Some [("x", dict_get attrs "_x" VNone); ("y", dict_get attrs "_y" VNone)];
  from_dict_text := fun _ _ => Raise ValueError;
  XRangeData_from_dict := fun v =>
    Ok (VObj "XRangeData" (match v with VDict d => d | _ => [] end));
  BarData_from_setter := fun v => Ok v;
  CartesianData_from_setter := fun v => Ok v;
  Cartesian3DData_from_setter := fun v => Ok v;
  RangeData_from_setter := fun v => Ok v;
  WaterfallData_from_setter := fun v => Ok v;
  WeightedConnectionData_from_setter := fun v => Ok v
|}.

(** ** The other decoders and classes of the same files *)

(** [series/data/bar.py]: the [_get_kwargs_from_dict] of [BarData],
    [WaterfallData] and [XRangeData] (that of [WindBarbData] is above). *)

Definition BarData_kwargs_table : list (string * string * PyVal) :=
  [
   ("accessibility", "accessibility", VNone);
   ("class_name", "className", VNone);
   ("color", "color", VNone);
   ("color_index", "colorIndex", VNone);
   ("custom", "custom", VNone);
   ("description", "description", VNone);
   ("events", "events", VNone);
   ("id", "id", VNone);
   ("label_rank", "labelrank", VNone);
   ("name", "name", VNone);
   ("selected", "selected", VNone);
   ("data_labels", "dataLabels", VNone);
   ("drag_drop", "dragDrop", VNone);
   ("drilldown", "drilldown", VNone);
   ("marker", "marker", VNone);
   ("x", "x", VNone);
   ("y", "y", VNone);
   ("border_color", "borderColor", VNone);
   ("border_width", "borderWidth", VNone);
   ("dash_style", "dashStyle", VNone);
   ("point_width", "pointWidth", VNone)
  ].

Definition BarData_get_kwargs_from_dict (as_dict : dict) : dict :=
  pop_entries BarData_kwargs_table as_dict [].

Definition WaterfallData_kwargs_table : list (string * string * PyVal) :=
  [
   ("accessibility", "accessibility", VNone);
   ("class_name", "className", VNone);
   ("color", "color", VNone);
   ("color_index", "colorIndex", VNone);
   ("custom", "custom", VNone);
   ("description", "description", VNone);
   ("events", "events", VNone);
   ("id", "id", VNone);
   ("label_rank", "labelrank", VNone);
   ("name", "name", VNone);
   ("selected", "selected", VNone);
   ("data_labels", "dataLabels", VNone);
   ("drag_drop", "dragDrop", VNone);
   ("drilldown", "drilldown", VNone);
   ("marker", "marker", VNone);
   ("x", "x", VNone);
   ("y", "y", VNone);
   ("is_intermediate_sum", "isIntermediateSum", VNone);
   ("is_sum", "isSum", VNone)
  ].

Definition WaterfallData_get_kwargs_from_dict (as_dict : dict) : dict :=
  pop_entries WaterfallData_kwargs_table as_dict [].

Definition XRangeData_kwargs_table : list (string * string * PyVal) :=
  [
   ("accessibility", "accessibility", VNone);
   ("class_name", "className", VNone);
   ("color", "color", VNone);
   ("color_index", "colorIndex", VNone);
   ("custom", "custom", VNone);
   ("description", "description", VNone);
   ("events", "events", VNone);
   ("id", "id", VNone);
   ("label_rank", "labelrank", VNone);
   ("name", "name", VNone);
   ("selected", "selected", VNone);
   ("data_labels", "dataLabels", VNone);
   ("drag_drop", "dragDrop", VNone);
   ("drilldown", "drilldown", VNone);
   ("marker", "marker", VNone);
   ("x", "x", VNone);
   ("y", "y", VNone);
   ("partial_fill", "partialFill", VNone);
   ("x2", "x2", VNone)
  ].

Definition XRangeData_get_kwargs_from_dict (as_dict : dict) : dict :=
  pop_entries XRangeData_kwargs_table as_dict [].

(** [series/bar.py] and [series/dependencywheel.py]: the
    [_get_kwargs_from_dict] of the series classes other than [BarSeries]. *)

#[warnings="-inexact-float"]
Definition BaseBarSeries_kwargs_table : list (string * string * PyVal) :=
  [
   ("accessibility", "accessibility", VNone);
   ("allow_point_select", "allowPointSelect", VNone);
   ("animation", "animation", VNone);
   ("class_name", "className", VNone);
   ("clip", "clip", VNone);
   ("color", "color", VNone);
   ("cursor", "cursor", VNone);
   ("custom", "custom", VNone);
   ("dash_style", "dashStyle", VNone);
   ("data_labels", "dataLabels", VNone);
   ("description", "description", VNone);
   ("enable_mouse_tracking", "enableMouseTracking", VNone);
   ("events", "events", VNone);
   ("include_in_data_export", "includeInDataExport", VNone);
   ("keys", "keys", VNone);
   ("label", "label", VNone);
   ("linked_to", "linkedTo", VNone);
   ("marker", "marker", VNone);
   ("on_point", "onPoint", VNone);
   ("opacity", "opacity", VNone);
   ("point", "point", VNone);
   ("point_description_formatter", "pointDescriptionFormatter", VNone);
   ("selected", "selected", VNone);
   ("show_checkbox", "showCheckbox", VNone);
   ("show_in_legend", "showInLegend", VNone);
   ("skip_keyboard_navigation", "skipKeyboardNavigation", VNone);
   ("states", "states", VNone);
   ("threshold", "threshold", VNone);
   ("tooltip", "tooltip", VNone);
   ("turbo_threshold", "turboThreshold", VNone);
   ("visible", "visible", VNone);
   ("animation_limit", "animationLimit", VNone);
   ("boost_blending", "boostBlending", VNone);
   ("boost_threshold", "boostThreshold", VNone);
   ("color_axis", "colorAxis", VNone);
   ("color_index", "colorIndex", VNone);
   ("color_key", "colorKey", VNone);
   ("connect_ends", "connectEnds", VNone);
   ("connect_nulls", "connectNulls", VNone);
   ("crisp", "crisp", VNone);
   ("crop_threshold", "cropThreshold", VNone);
   ("data_sorting", "dataSorting", VNone);
   ("drag_drop", "dragDrop", VNone);
   ("fill_color", "fillColor", VNone);
   ("fill_opacity", "fillOpacity", VNone);
   ("find_nearest_point_by", "findNearestPointBy", VNone);
   ("get_extremes_for_all", "getExtremesForAll", VNone);
   ("linecap", "linecap", VNone);
   ("line_color", "lineColor", VNone);
   ("line_width", "lineWidth", VNone);
   ("negative_color", "negativeColor", VNone);
   ("negative_fill_color", "negativeFillColor", VNone);
   ("point_interval", "pointInterval", VNone);
   ("point_interval_unit", "pointIntervalUnit", VNone);
   ("point_placement", "pointPlacement", VNone);
   ("point_start", "pointStart", VNone);
   ("relative_x_value", "relativeXValue", VNone);
   ("shadow", "shadow", VNone);
   ("soft_threshold", "softThreshold", VNone);
   ("stacking", "stacking", VNone);
   ("step", "step", VNone);
   ("track_by_area", "trackByArea", VNone);
   ("zone_axis", "zoneAxis", VNone);
   ("zones", "zones", VNone);
   ("border_color", "borderColor", VStr "#ffffff");
   ("border_radius", "borderRadius", VInt 0);
   ("border_width", "borderWidth", VNone);
   ("center_in_category", "centerInCategory", VBool false);
   ("color_by_point", "colorByPoint", VBool false);
   ("colors", "colors", VNone);
   ("grouping", "grouping", VBool true);
   ("group_padding", "groupPadding", VFloat 0.2);
   ("max_point_width", "maxPointWidth", VNone);
   ("min_point_length", "minPointLength", VInt 0);
   ("point_padding", "pointPadding", VFloat 0.1);
   ("point_range", "pointRange", VEnforcedNull);
   ("point_width", "pointWidth", VNone);
   ("data", "data", VNone);
   ("id", "id", VNone);
   ("index", "index", VNone);
   ("legend_index", "legendIndex", VNone);
   ("name", "name", VNone);
   ("stack", "stack", VNone);
   ("x_axis", "xAxis", VNone);
   ("y_axis", "yAxis", VNone);
   ("z_index", "zIndex", VNone)
  ].

Definition BaseBarSeries_get_kwargs_from_dict (as_dict : dict) : dict :=
  pop_entries BaseBarSeries_kwargs_table as_dict [].

#[warnings="-inexact-float"]
Definition WaterfallSeries_kwargs_table : list (string * string * PyVal) :=
  [
   ("accessibility", "accessibility", VNone);
   ("allow_point_select", "allowPointSelect", VNone);
   ("animation", "animation", VNone);
   ("class_name", "className", VNone);
   ("clip", "clip", VNone);
   ("color", "color", VNone);
   ("cursor", "cursor", VNone);
   ("custom", "custom", VNone);
   ("dash_style", "dashStyle", VNone);
   ("data_labels", "dataLabels", VNone);
   ("description", "description", VNone);
   ("enable_mouse_tracking", "enableMouseTracking", VNone);
   ("events", "events", VNone);
   ("include_in_data_export", "includeInDataExport", VNone);
   ("keys", "keys", VNone);
   ("label", "label", VNone);
   ("linked_to", "linkedTo", VNone);
   ("marker", "marker", VNone);
   ("on_point", "onPoint", VNone);
   ("opacity", "opacity", VNone);
   ("point", "point", VNone);
   ("point_description_formatter", "pointDescriptionFormatter", VNone);
   ("selected", "selected", VNone);
   ("show_checkbox", "showCheckbox", VNone);
   ("show_in_legend", "showInLegend", VNone);
   ("skip_keyboard_navigation", "skipKeyboardNavigation", VNone);
   ("states", "states", VNone);
   ("threshold", "threshold", VNone);
   ("tooltip", "tooltip", VNone);
   ("turbo_threshold", "turboThreshold", VNone);
   ("visible", "visible", VNone);
   ("animation_limit", "animationLimit", VNone);
   ("boost_blending", "boostBlending", VNone);
   ("boost_threshold", "boostThreshold", VNone);
   ("color_axis", "colorAxis", VNone);
   ("color_index", "colorIndex", VNone);
   ("color_key", "colorKey", VNone);
   ("connect_ends", "connectEnds", VNone);
   ("connect_nulls", "connectNulls", VNone);
   ("crisp", "crisp", VNone);
   ("crop_threshold", "cropThreshold", VNone);
   ("data_sorting", "dataSorting", VNone);
   ("drag_drop", "dragDrop", VNone);
   ("fill_color", "fillColor", VNone);
   ("fill_opacity", "fillOpacity", VNone);
   ("find_nearest_point_by", "findNearestPointBy", VNone);
   ("get_extremes_for_all", "getExtremesForAll", VNone);
   ("linecap", "linecap", VNone);
   ("line_color", "lineColor", VNone);
   ("line_width", "lineWidth", VNone);
   ("negative_color", "negativeColor", VNone);
   ("negative_fill_color", "negativeFillColor", VNone);
   ("point_interval", "pointInterval", VNone);
   ("point_interval_unit", "pointIntervalUnit", VNone);
   ("point_placement", "pointPlacement", VNone);
   ("point_start", "pointStart", VNone);
   ("relative_x_value", "relativeXValue", VNone);
   ("shadow", "shadow", VNone);
   ("soft_threshold", "softThreshold", VNone);
   ("stacking", "stacking", VNone);
   ("step", "step", VNone);
   ("track_by_area", "trackByArea", VNone);
   ("zone_axis", "zoneAxis", VNone);
   ("zones", "zones", VNone);
   ("border_color", "borderColor", VStr "#ffffff");
   ("border_radius", "borderRadius", VInt 0);
   ("border_width", "borderWidth", VNone);
   ("center_in_category", "centerInCategory", VBool false);
   ("color_by_point", "colorByPoint", VBool false);
   ("colors", "colors", VNone);
   ("grouping", "grouping", VBool true);
   ("group_padding", "groupPadding", VFloat 0.2);
   ("max_point_width", "maxPointWidth", VNone);
   ("min_point_length", "minPointLength", VInt 0);
   ("point_padding", "pointPadding", VFloat 0.1);
   ("point_range", "pointRange", VEnforcedNull);
   ("point_width", "pointWidth", VNone);
   ("depth", "depth", VInt 25);
   ("edge_color", "edgeColor", VNone);
   ("edge_width", "edgeWidth", VInt 1);
   ("group_z_padding", "groupZPadding", VInt 1);
   ("up_color", "upColor", VNone);
   ("data", "data", VNone);
   ("id", "id", VNone);
   ("index", "index", VNone);
   ("legend_index", "legendIndex", VNone);
   ("name", "name", VNone);
   ("stack", "stack", VNone);
   ("x_axis", "xAxis", VNone);
   ("y_axis", "yAxis", VNone);
   ("z_index", "zIndex", VNone)
  ].

Definition WaterfallSeries_get_kwargs_from_dict (as_dict : dict) : dict :=
  pop_entries WaterfallSeries_kwargs_table as_dict [].

#[warnings="-inexact-float"]
Definition WindBarbSeries_kwargs_table : list (string * string * PyVal) :=
  [
   ("accessibility", "accessibility", VNone);
   ("allow_point_select", "allowPointSelect", VBool false);
   ("animation", "animation", VNone);
   ("class_name", "className", VNone);
   ("clip", "clip", VBool true);
   ("color", "color", VNone);
   ("cursor", "cursor", VNone);
   ("custom", "custom", VNone);
   ("dash_style", "dashStyle", VNone);
   ("data_labels", "dataLabels", VNone);
   ("description", "description", VNone);
   ("enable_mouse_tracking", "enableMouseTracking", VBool true);
   ("events", "events", VNone);
   ("include_in_data_export", "includeInDataExport", VNone);
   ("keys", "keys", VNone);
   ("label", "label", VNone);
   ("linked_to", "linkedTo", VNone);
   ("marker", "marker", VNone);
   ("on_point", "onPoint", VNone);
   ("opacity", "opacity", VNone);
   ("point", "point", VNone);
   ("point_description_formatter", "pointDescriptionFormatter", VNone);
   ("selected", "selected", VBool false);
   ("show_checkbox", "showCheckbox", VBool false);
   ("show_in_legend", "showInLegend", VNone);
   ("skip_keyboard_navigation", "skipKeyboardNavigation", VNone);
   ("states", "states", VNone);
   ("threshold", "threshold", VNone);
   ("tooltip", "tooltip", VNone);
   ("turbo_threshold", "turboThreshold", VNone);
   ("visible", "visible", VBool true);
   ("animation_limit", "animationLimit", VNone);
   ("boost_blending", "boostBlending", VNone);
   ("boost_threshold", "boostThreshold", VInt 5000);
   ("color_axis", "colorAxis", VNone);
   ("color_index", "colorIndex", VNone);
   ("color_key", "colorKey", VNone);
   ("connect_ends", "connectEnds", VNone);
   ("connect_nulls", "connectNulls", VBool false);
   ("crisp", "crisp", VBool true);
   ("crop_threshold", "cropThreshold", VInt 300);
   ("data_sorting", "dataSorting", VNone);
   ("drag_drop", "dragDrop", VNone);
   ("find_nearest_point_by", "findNearestPointBy", VNone);
   ("get_extremes_for_all", "getExtremesForAll", VBool false);
   ("linecap", "linecap", VStr "round");
   ("line_width", "lineWidth", VInt 2);
   ("negative_color", "negativeColor", VNone);
   ("point_interval", "pointInterval", VInt 1);
   ("point_interval_unit", "pointIntervalUnit", VNone);
   ("point_placement", "pointPlacement", VNone);
   ("point_start", "pointStart", VInt 0);
   ("relative_x_value", "relativeXValue", VBool false);
   ("shadow", "shadow", VBool false);
   ("soft_threshold", "softThreshold", VBool true);
   ("stacking", "stacking", VNone);
   ("step", "step", VNone);
   ("zone_axis", "zoneAxis", VStr "y");
   ("zones", "zones", VNone);
   ("border_color", "borderColor", VStr "#ffffff");
   ("border_radius", "borderRadius", VInt 0);
   ("border_width", "borderWidth", VNone);
   ("center_in_category", "centerInCategory", VBool false);
   ("color_by_point", "colorByPoint", VBool false);
   ("colors", "colors", VNone);
   ("grouping", "grouping", VBool true);
   ("group_padding", "groupPadding", VFloat 0.2);
   ("max_point_width", "maxPointWidth", VNone);
   ("min_point_length", "minPointLength", VInt 0);
   ("point_padding", "pointPadding", VFloat 0.1);
   ("point_range", "pointRange", VEnforcedNull);
   ("point_width", "pointWidth", VNone);
   ("depth", "depth", VNone);
   ("edge_color", "edgeColor", VNone);
   ("edge_width", "edgeWidth", VNone);
   ("group_z_padding", "groupZPadding", VNone);
   ("data_grouping", "dataGrouping", VNone);
   ("on_series", "onSeries", VNone);
   ("vector_length", "vectorLength", VNone);
   ("x_offset", "xOffset", VNone);
   ("y_offset", "yOffset", VNone);
   ("data", "data", VNone);
   ("id", "id", VNone);
   ("index", "index", VNone);
   ("legend_index", "legendIndex", VNone);
   ("name", "name", VNone);
   ("stack", "stack", VNone);
   ("x_axis", "xAxis", VNone);
   ("y_axis", "yAxis", VNone);
   ("z_index", "zIndex", VNone)
  ].

Definition WindBarbSeries_get_kwargs_from_dict (as_dict : dict) : dict :=
  pop_entries WindBarbSeries_kwargs_table as_dict [].

#[warnings="-inexact-float"]
Definition XRangeSeries_kwargs_table : list (string * string * PyVal) :=
  [
   ("accessibility", "accessibility", VNone);
   ("allow_point_select", "allowPointSelect", VNone);
   ("animation", "animation", VNone);
   ("class_name", "className", VNone);
   ("clip", "clip", VNone);
   ("color", "color", VNone);
   ("cursor", "cursor", VNone);
   ("custom", "custom", VNone);
   ("dash_style", "dashStyle", VNone);
   ("data_labels", "dataLabels", VNone);
   ("description", "description", VNone);
   ("enable_mouse_tracking", "enableMouseTracking", VNone);
   ("events", "events", VNone);
   ("include_in_data_export", "includeInDataExport", VNone);
   ("keys", "keys", VNone);
   ("label", "label", VNone);
   ("linked_to", "linkedTo", VNone);
   ("marker", "marker", VNone);
   ("on_point", "onPoint", VNone);
   ("opacity", "opacity", VNone);
   ("point", "point", VNone);
   ("point_description_formatter", "pointDescriptionFormatter", VNone);
   ("selected", "selected", VNone);
   ("show_checkbox", "showCheckbox", VNone);
   ("show_in_legend", "showInLegend", VNone);
   ("skip_keyboard_navigation", "skipKeyboardNavigation", VNone);
   ("states", "states", VNone);
   ("threshold", "threshold", VNone);
   ("tooltip", "tooltip", VNone);
   ("turbo_threshold", "turboThreshold", VNone);
   ("visible", "visible", VNone);
   ("animation_limit", "animationLimit", VNone);
   ("boost_blending", "boostBlending", VNone);
   ("boost_threshold", "boostThreshold", VNone);
   ("color_axis", "colorAxis", VNone);
   ("color_index", "colorIndex", VNone);
   ("color_key", "colorKey", VNone);
   ("connect_ends", "connectEnds", VNone);
   ("connect_nulls", "connectNulls", VNone);
   ("crisp", "crisp", VNone);
   ("crop_threshold", "cropThreshold", VNone);
   ("data_sorting", "dataSorting", VNone);
   ("drag_drop", "dragDrop", VNone);
   ("fill_color", "fillColor", VNone);
   ("fill_opacity", "fillOpacity", VNone);
   ("find_nearest_point_by", "findNearestPointBy", VNone);
   ("get_extremes_for_all", "getExtremesForAll", VNone);
   ("linecap", "linecap", VNone);
   ("line_color", "lineColor", VNone);
   ("line_width", "lineWidth", VNone);
   ("negative_color", "negativeColor", VNone);
   ("negative_fill_color", "negativeFillColor", VNone);
   ("point_interval", "pointInterval", VNone);
   ("point_interval_unit", "pointIntervalUnit", VNone);
   ("point_placement", "pointPlacement", VNone);
   ("point_start", "pointStart", VNone);
   ("relative_x_value", "relativeXValue", VNone);
   ("shadow", "shadow", VNone);
   ("soft_threshold", "softThreshold", VNone);
   ("stacking", "stacking", VNone);
   ("step", "step", VNone);
   ("track_by_area", "trackByArea", VNone);
   ("zone_axis", "zoneAxis", VNone);
   ("zones", "zones", VNone);
   ("border_color", "borderColor", VStr "#ffffff");
   ("border_radius", "borderRadius", VInt 0);
   ("border_width", "borderWidth", VNone);
   ("center_in_category", "centerInCategory", VBool false);
   ("color_by_point", "colorByPoint", VBool false);
   ("colors", "colors", VNone);
   ("grouping", "grouping", VBool true);
   ("group_padding", "groupPadding", VFloat 0.2);
   ("max_point_width", "maxPointWidth", VNone);
   ("min_point_length", "minPointLength", VInt 0);
   ("point_padding", "pointPadding", VFloat 0.1);
   ("point_range", "pointRange", VEnforcedNull);
   ("point_width", "pointWidth", VNone);
   ("group_z_padding", "groupZPadding", VNone);
   ("partial_fill", "partialFill", VNone);
   ("data", "data", VNone);
   ("id", "id", VNone);
   ("index", "index", VNone);
   ("legend_index", "legendIndex", VNone);
   ("name", "name", VNone);
   ("stack", "stack", VNone);
   ("x_axis", "xAxis", VNone);
   ("y_axis", "yAxis", VNone);
   ("z_index", "zIndex", VNone)
  ].

Definition XRangeSeries_get_kwargs_from_dict (as_dict : dict) : dict :=
  pop_entries XRangeSeries_kwargs_table as_dict [].

Definition DependencyWheelSeries_kwargs_table : list (string * string * PyVal) :=
  [
   ("accessibility", "accessibility", VNone);
   ("allow_point_select", "allowPointSelect", VNone);
   ("animation", "animation", VNone);
   ("class_name", "className", VNone);
   ("clip", "clip", VNone);
   ("color", "color", VNone);
   ("cursor", "cursor", VNone);
   ("custom", "custom", VNone);
   ("dash_style", "dashStyle", VNone);
   ("data_labels", "dataLabels", VNone);
   ("description", "description", VNone);
   ("enable_mouse_tracking", "enableMouseTracking", VNone);
   ("events", "events", VNone);
   ("include_in_data_export", "includeInDataExport", VNone);
   ("keys", "keys", VNone);
   ("label", "label", VNone);
   ("linked_to", "linkedTo", VNone);
   ("marker", "marker", VNone);
   ("on_point", "onPoint", VNone);
   ("opacity", "opacity", VNone);
   ("point", "point", VNone);
   ("point_description_formatter", "pointDescriptionFormatter", VNone);
   ("selected", "selected", VNone);
   ("show_checkbox", "showCheckbox", VNone);
   ("show_in_legend", "showInLegend", VNone);
   ("skip_keyboard_navigation", "skipKeyboardNavigation", VNone);
   ("states", "states", VNone);
   ("threshold", "threshold", VNone);
   ("tooltip", "tooltip", VNone);
   ("turbo_threshold", "turboThreshold", VNone);
   ("visible", "visible", VNone);
   ("animation_limit", "animationLimit", VNone);
   ("boost_blending", "boostBlending", VNone);
   ("boost_threshold", "boostThreshold", VNone);
   ("color_axis", "colorAxis", VNone);
   ("color_index", "colorIndex", VNone);
   ("color_key", "colorKey", VNone);
   ("connect_ends", "connectEnds", VNone);
   ("connect_nulls", "connectNulls", VNone);
   ("crisp", "crisp", VNone);
   ("crop_threshold", "cropThreshold", VNone);
   ("data_sorting", "dataSorting", VNone);
   ("drag_drop", "dragDrop", VNone);
   ("find_nearest_point_by", "findNearestPointBy", VNone);
   ("get_extremes_for_all", "getExtremesForAll", VNone);
   ("linecap", "linecap", VNone);
   ("line_width", "lineWidth", VNone);
   ("negative_color", "negativeColor", VNone);
   ("point_interval", "pointInterval", VNone);
   ("point_interval_unit", "pointIntervalUnit", VNone);
   ("point_placement", "pointPlacement", VNone);
   ("point_start", "pointStart", VNone);
   ("relative_x_value", "relativeXValue", VNone);
   ("shadow", "shadow", VNone);
   ("soft_threshold", "softThreshold", VNone);
   ("stacking", "stacking", VNone);
   ("step", "step", VNone);
   ("zone_axis", "zoneAxis", VNone);
   ("zones", "zones", VNone);
   ("data", "data", VNone);
   ("id", "id", VNone);
   ("index", "index", VNone);
   ("legend_index", "legendIndex", VNone);
   ("name", "name", VNone);
   ("stack", "stack", VNone);
   ("x_axis", "xAxis", VNone);
   ("y_axis", "yAxis", VNone);
   ("z_index", "zIndex", VNone);
   ("border_color", "borderColor", VNone);
   ("border_width", "borderWidth", VNone);
   ("center", "center", VNone);
   ("center_in_category", "centerInCategory", VNone);
   ("color_by_point", "colorByPoint", VNone);
   ("colors", "colors", VNone);
   ("curve_factor", "curveFactor", VNone);
   ("levels", "levels", VNone);
   ("link_opacity", "linkOpacity", VNone);
   ("min_link_width", "minLinkWidth", VNone);
   ("node_padding", "nodePadding", VNone);
   ("node_width", "nodeWidth", VNone);
   ("start_angle", "startAngle", VNone);
   ("nodes", "nodes", VNone)
  ].

Definition DependencyWheelSeries_get_kwargs_from_dict (as_dict : dict) : dict :=
  pop_entries DependencyWheelSeries_kwargs_table as_dict [].

(** [WaterfallData] of [series/data/bar.py]. *)

Module WaterfallData.

Record t : Type := mk {
  is_intermediate_sum : PyVal;
  is_sum : PyVal;
  base : dict                  (* the CartesianData part *)
}.

Section Class.
Context {C : Collaborators}.

(** The value the [is_intermediate_sum] and [is_sum] setters store:
    [None], or [bool(value)]. *)
Definition flag_value (value : PyVal) : PyVal :=
  if is_None value then VNone else VBool (truthy value).

Definition set_is_intermediate_sum (self : t) (value : PyVal) : result t :=
  Ok (mk (flag_value value) (is_sum self) (base self)).

Definition set_is_sum (self : t) (value : PyVal) : result t :=
  Ok (mk (is_intermediate_sum self) (flag_value value) (base self)).

(** [__init__(self, **kwargs)] *)
Definition init (kwargs : dict) : result t :=
  let self := mk VNone VNone [] in
  let '(v, kwargs) := dict_pop kwargs "is_intermediate_sum" VNone in
  self <- set_is_intermediate_sum self v ;;
  let '(v, kwargs) := dict_pop kwargs "is_sum" VNone in
  self <- set_is_sum self v ;;
  b <- CartesianData_init kwargs ;;
  Ok (mk (is_intermediate_sum self) (is_sum self) b).

Definition own_untrimmed (self : t) : dict :=
  dict_literal
    [("isIntermediateSum", is_intermediate_sum self);
     ("isSum", is_sum self)].

(** [super().to_dict() or {}] *)
Definition parent_as_dict (self : t) : dict :=
  match CartesianData_to_dict (base self) with
  | Some d => d
  | None => []
  end.

Definition untrimmed (self : t) : dict :=
  dict_update (own_untrimmed self) (parent_as_dict self).

(** [to_dict(self)] *)
Definition to_dict (self : t) : dict :=
  HighchartsMeta.trim_dict (untrimmed self).

End Class.
End WaterfallData.

(** ** Shapes of stored values *)

Definition text_or_None (v : PyVal) : bool :=
  match v with VNone | VStr _ => true | _ => false end.

Definition nonempty_text_or_None (v : PyVal) : bool :=
  match v with
  | VNone => true
  | VStr s => negb (String.eqb s "")
  | _ => false
  end.

Definition number_or_None (v : PyVal) : bool :=
  is_None v || is_number v.

(** [None], an index, or an id that is not empty. *)
Definition axis_reference (v : PyVal) : bool :=
  match v with
  | VNone | VInt _ | VBool _ => true
  | VStr s => negb (String.eqb s "")
  | _ => false
  end.

Definition flag_or_None (v : PyVal) : bool :=
  match v with VNone | VBool _ => true | _ => false end.

(** [None], or a number that is not below zero. *)
Definition nonnegative_or_None (v : PyVal) : bool :=
  is_None v || (is_number v && negb (validators.lt_int v 0)).

(** [None], or one of the texts of [values]. *)
Definition one_of_or_None (values : list string) (v : PyVal) : bool :=
  match v with
  | VNone => true
  | VStr s => existsb (String.eqb s) values
  | _ => false
  end.

Definition ScreenReaderSection_stored (self : ScreenReaderSection.t) : bool :=
  text_or_None (ScreenReaderSection.after_chart_format self) &&
  nonempty_text_or_None (ScreenReaderSection.after_chart_formatter self) &&
  nonempty_text_or_None (ScreenReaderSection.axis_range_date_format self) &&
  text_or_None (ScreenReaderSection.before_chart_format self) &&
  nonempty_text_or_None (ScreenReaderSection.before_chart_formatter self) &&
  nonempty_text_or_None (ScreenReaderSection.on_play_as_sound_click self) &&
  nonempty_text_or_None (ScreenReaderSection.on_view_data_table_click self).

Definition AnnotationPoint_stored (p : AnnotationPoint.t) : bool :=
  number_or_None (AnnotationPoint.x p) &&
  axis_reference (AnnotationPoint.x_axis p) &&
  number_or_None (AnnotationPoint.y p) &&
  axis_reference (AnnotationPoint.y_axis p).

(** The names by which the classes read their dictionaries. *)

Definition ScreenReaderSection_internal_names : list string :=
  ["after_chart_format"; "after_chart_formatter"; "axis_range_date_format";
   "before_chart_format"; "before_chart_formatter"; "on_play_as_sound_click";
   "on_view_data_table_click"].

Definition ScreenReaderSection_external_names : list string :=
  ["afterChartFormat"; "afterChartFormatter"; "axisRangeDateFormat";
   "beforeChartFormat"; "beforeChartFormatter"; "onPlayAsSoundClick";
   "onViewDataTableClick"].

(** Two dictionaries that hold the same under every key of [names]. *)
Definition agree_on (names : list string) (d d' : dict) : Prop :=
  forall k, In k names -> dict_lookup d k = dict_lookup d' k.

(** snake_case to camelCase. *)
Definition upper (c : ascii) : ascii :=
  let n := nat_of_ascii c in
  if (97 <=? n)%nat && (n <=? 122)%nat then ascii_of_nat (n - 32) else c.

Fixpoint snake_to_camel (s : string) : string :=
  match s with
  | EmptyString => EmptyString
  | String c r =>
      if Ascii.eqb c "_" then
        match r with
        | EmptyString => EmptyString
        | String c' r' => String (upper c') (snake_to_camel r')
        end
      else String c (snake_to_camel r)
  end.

Definition camel_named (table : list (string * string * PyVal)) : bool :=
  forallb (fun e => String.eqb (snake_to_camel (fst (fst e))) (snd (fst e))) table.

Definition AnnotationPoint_internal_names : list string :=
  ["x"; "x_axis"; "y"; "y_axis"].

Definition AnnotationPoint_external_names : list string :=
  ["x"; "xAxis"; "y"; "yAxis"].

(** The seven values the constructor of [ScreenReaderSection] reads. *)
Definition ScreenReaderSection_arguments {K : Constants} (kwargs : dict)
    : list PyVal :=
  [dict_get kwargs "after_chart_format" (VStr DEFAULT_AFTER_CHART_FORMAT);
   dict_get kwargs "after_chart_formatter" VNone;
   dict_get kwargs "axis_range_date_format" (VStr DEFAULT_AXIS_RANGE_DATE_FORMAT);
   dict_get kwargs "before_chart_format" (VStr DEFAULT_BEFORE_CHART_FORMAT);
   dict_get kwargs "before_chart_formatter" VNone;
   dict_get kwargs "on_play_as_sound_click" VNone;
   dict_get kwargs "on_view_data_table_click" VNone].

(** What a chart format field holds for an accepted [value]. *)
Definition chart_format_stored (value : PyVal) : PyVal :=
  if is_None value then VNone
  else if truthy value then value else VStr "".

(** What one of the five other fields holds for an accepted [value]. *)
Definition text_stored (value : PyVal) : PyVal :=
  if truthy value then value else VNone.

(** A dictionary after its [names] were popped, one after the other. *)
Definition dict_without (d : dict) (names : list string) : dict :=
  fold_left dict_remove names d.

(** [get_kwargs] builds exactly the keyword names of [table], each from
    its external key of the dictionary given or from its default. *)
Definition decodes_by (get_kwargs : dict -> dict)
    (table : list (string * string * PyVal)) : Prop :=
  forall as_dict,
    dict_keys (get_kwargs as_dict) = internal_names table /\
    forall i e d, In (i, e, d) table ->
      dict_lookup (get_kwargs as_dict) i = Some (dict_get as_dict e d).

(** Two decoders give the same value under every keyword name of [table]. *)
Definition same_on (table : list (string * string * PyVal))
    (get_kwargs get_kwargs' : dict -> dict) : Prop :=
  forall as_dict i e d, In (i, e, d) table ->
    dict_lookup (get_kwargs as_dict) i = dict_lookup (get_kwargs' as_dict) i.

(** The entry of [table] with the keyword name of [entry], if there is one. *)
Fixpoint index_of (k : string) (names : list string) : nat :=
  match names with
  | [] => 0
  | n :: r => if String.eqb k n then 0 else S (index_of k r)
  end.

Definition found_in (table : list (string * string * PyVal))
    (entry : string * string * PyVal) : option (string * string * PyVal) :=
  nth_error table (index_of (fst (fst entry)) (internal_names table)).

(** ** Attributes that may hold None

    A property of a class [T], as Python's [property(fget, fset)]: the
    keyword name the constructor reads it from, the key it is exported
    under, its getter and its setter. *)

Record attribute (T : Type) : Type := mk_attribute {
  keyword : string;
  external : string;
  fget : T -> PyVal;
  fset : T -> PyVal -> result T
}.
Arguments mk_attribute {T} _ _ _ _.
Arguments keyword {T} _.
Arguments external {T} _.
Arguments fget {T} _ _.
Arguments fset {T} _ _ _.

(** The attributes whose constructor default is [None]. *)

Definition BarData_attributes {RT : Runtime} {K : Constants}
    {C : Collaborators} : list (attribute BarData.t) :=
  [mk_attribute "border_color" "borderColor"
     BarData.border_color BarData.set_border_color;
   mk_attribute "border_width" "borderWidth"
     BarData.border_width BarData.set_border_width;
   mk_attribute "dash_style" "dashStyle"
     BarData.dash_style BarData.set_dash_style;
   mk_attribute "point_width" "pointWidth"
     BarData.point_width BarData.set_point_width].

Definition WaterfallData_attributes : list (attribute WaterfallData.t) :=
  [mk_attribute "is_intermediate_sum" "isIntermediateSum"
     WaterfallData.is_intermediate_sum WaterfallData.set_is_intermediate_sum;
   mk_attribute "is_sum" "isSum"
     WaterfallData.is_sum WaterfallData.set_is_sum].

Definition AnnotationPoint_attributes {RT : Runtime}
    : list (attribute AnnotationPoint.t) :=
  [mk_attribute "x" "x" AnnotationPoint.x AnnotationPoint.set_x;
   mk_attribute "x_axis" "xAxis" AnnotationPoint.x_axis AnnotationPoint.set_x_axis;
   mk_attribute "y" "y" AnnotationPoint.y AnnotationPoint.set_y;
   mk_attribute "y_axis" "yAxis" AnnotationPoint.y_axis AnnotationPoint.set_y_axis].

(** Of the seven attributes of [ScreenReaderSection], the four that are
    not read with a format default. *)
Definition ScreenReaderSection_attributes
    : list (attribute ScreenReaderSection.t) :=
  [mk_attribute "after_chart_formatter" "afterChartFormatter"
     ScreenReaderSection.after_chart_formatter
     ScreenReaderSection.set_after_chart_formatter;
   mk_attribute "before_chart_formatter" "beforeChartFormatter"
     ScreenReaderSection.before_chart_formatter
     ScreenReaderSection.set_before_chart_formatter;
   mk_attribute "on_play_as_sound_click" "onPlayAsSoundClick"
     ScreenReaderSection.on_play_as_sound_click
     ScreenReaderSection.set_on_play_as_sound_click;
   mk_attribute "on_view_data_table_click" "onViewDataTableClick"
     ScreenReaderSection.on_view_data_table_click
     ScreenReaderSection.set_on_view_data_table_click].

(** Assigning [None] to [a] gives the entity that was never given [a]:
    the constructor [init] stores [None] when the keyword is not among
    its arguments; the setter stores [None] for [None], whatever was held,
    and does not raise; and on an entity built without the keyword the
    assignment returns the entity itself, so that [export] gives the same
    for both. *)
Definition None_is_unset {T : Type} (init : dict -> result T)
    (export : T -> dict) (a : attribute T) : Prop :=
  (forall kwargs self,
     init kwargs = Ok self -> dict_lookup kwargs (keyword a) = None ->
     fget a self = VNone) /\
  (forall self, exists self',
     fset a self VNone = Ok self' /\ fget a self' = VNone) /\
  (forall kwargs self self',
     init kwargs = Ok self -> dict_lookup kwargs (keyword a) = None ->
     fset a self VNone = Ok self' ->
     self' = self /\ export self' = export self).

(** [export] holds no [None]: no key of it is an explicit null. *)
Definition exports_no_None {T : Type} (export : T -> dict) : Prop :=
  forall self k v, dict_lookup (export self) k = Some v -> is_None v = false.

(** [export] holds the key of [a] exactly when [a] does not hold [None],
    and then with the value held, unless the parent's dictionary [parent]
    writes that key itself. *)
Definition exported_unless_None {T : Type} (export parent : T -> dict)
    (a : attribute T) : Prop :=
  forall self,
    dict_lookup (parent self) (external a) = None ->
    dict_lookup (export self) (external a) =
    if is_None (fget a self) then None else Some (fget a self).

(** ** Decoding a screen reader section

    The dictionary display of [ScreenReaderSection.from_dict]: keyword
    name, external key, default. *)
Definition ScreenReaderSection_kwargs_table {K : Constants}
    : list (string * string * PyVal) :=
  [("after_chart_format", "afterChartFormat", VStr DEFAULT_AFTER_CHART_FORMAT);
   ("after_chart_formatter", "afterChartFormatter", VNone);
   ("axis_range_date_format", "axisRangeDateFormat",
    VStr DEFAULT_AXIS_RANGE_DATE_FORMAT);
   ("before_chart_format", "beforeChartFormat", VStr DEFAULT_BEFORE_CHART_FORMAT);
   ("before_chart_formatter", "beforeChartFormatter", VNone);
   ("on_play_as_sound_click", "onPlayAsSoundClick", VNone);
   ("on_view_data_table_click", "onViewDataTableClick", VNone)].

(** The values [from_dict] reads: each external key of [as_dict], or its
    default. *)
Definition external_values (table : list (string * string * PyVal))
    (as_dict : dict) : list PyVal :=
  map (fun e => dict_get as_dict (snd (fst e)) (snd e)) table.

(** [kwargs] holds under each keyword name what [as_dict] holds under its
    external key. *)
Definition renamed_by (table : list (string * string * PyVal))
    (as_dict kwargs : dict) : Prop :=
  forall i e d, In (i, e, d) table ->
    dict_get kwargs i d = dict_get as_dict e d.

(** * Properties *)

(** ** Dictionaries *)

Lemma dict_lookup_set_eq (d : dict) (k : string) (v : PyVal) :
  dict_lookup (dict_set d k v) k = Some v.
Proof.
  induction d as [|[k' v'] d IH]; simpl.
  - now rewrite String.eqb_refl.
  - destruct (String.eqb k k') eqn:E; simpl; rewrite E; auto.
Qed.

Lemma dict_lookup_set_neq (d : dict) (k k' : string) (v : PyVal) :
  String.eqb k k' = false ->
  dict_lookup (dict_set d k' v) k = dict_lookup d k.
Proof.
  intros N. induction d as [|[k0 v0] d IH]; simpl.
  - now rewrite N.
  - destruct (String.eqb k' k0) eqn:E; simpl.
    + apply String.eqb_eq in E; subst k0. now rewrite N.
    + destruct (String.eqb k k0); auto.
Qed.

Lemma dict_lookup_remove_neq (d : dict) (k k' : string) :
  String.eqb k k' = false ->
  dict_lookup (dict_remove d k') k = dict_lookup d k.
Proof.
  intros N. induction d as [|[k0 v0] d IH]; simpl; auto.
  destruct (String.eqb k' k0) eqn:E; simpl.
  - apply String.eqb_eq in E; subst k0. now rewrite N.
  - destruct (String.eqb k k0); auto.
Qed.

Lemma dict_lookup_In (d : dict) (k : string) (v : PyVal) :
  dict_lookup d k = Some v -> In (k, v) d.
Proof.
  induction d as [|[k' v'] d IH]; simpl; [discriminate|].
  destruct (String.eqb k k') eqn:E.
  - apply String.eqb_eq in E; subst. intros [= ->]. now left.
  - intros H. right. auto.
Qed.

Lemma dict_lookup_None (d : dict) (k : string) :
  dict_lookup d k = None <-> ~ In k (dict_keys d).
Proof.
  induction d as [|[k' v'] d IH]; simpl.
  - tauto.
  - destruct (String.eqb k k') eqn:E.
    + apply String.eqb_eq in E; subst. split; [discriminate | tauto].
    + apply String.eqb_neq in E. rewrite IH. intuition congruence.
Qed.


Lemma dict_keys_set (d : dict) (k : string) (v : PyVal) :
  dict_keys (dict_set d k v) =
  if has_key d k then dict_keys d else dict_keys d ++ [k].
Proof.
  unfold has_key. induction d as [|[k' v'] d IH]; simpl; auto.
  destruct (String.eqb k k') eqn:E; simpl; auto.
  rewrite IH. now destruct (dict_lookup d k).
Qed.

Lemma dict_set_NoDup (d : dict) (k : string) (v : PyVal) :
  NoDup (dict_keys d) -> NoDup (dict_keys (dict_set d k v)).
Proof.
  intros ND. rewrite dict_keys_set. unfold has_key.
  destruct (dict_lookup d k) eqn:L; auto.
  apply dict_lookup_None in L.
  apply NoDup_app; auto.
  - repeat constructor. intros [].
  - intros a Ha [<-|[]]. auto.
Qed.

Lemma dict_update_NoDup (src dst : dict) :
  NoDup (dict_keys dst) -> NoDup (dict_keys (dict_update dst src)).
Proof.
  unfold dict_update. revert dst.
  induction src as [|[k v] src IH]; simpl; intros dst ND; auto.
  apply IH. now apply dict_set_NoDup.
Qed.


Lemma dict_literal_NoDup (kvs : list (string * PyVal)) :
  NoDup (dict_keys (dict_literal kvs)).
Proof.
  apply (dict_update_NoDup kvs []). constructor.
Qed.


(** A key of a trimmed dictionary never holds [None]. *)
Lemma trim_dict_not_None (d : dict) (k : string) (v : PyVal) :
  In (k, v) (HighchartsMeta.trim_dict d) -> is_None v = false.
Proof.
  unfold HighchartsMeta.trim_dict. intros I.
  apply filter_In in I as [_ H]. simpl in H.
  now destruct (is_None v).
Qed.

Lemma trim_dict_lookup (d : dict) (k : string) :
  NoDup (dict_keys d) ->
  dict_lookup (HighchartsMeta.trim_dict d) k = keep (dict_lookup d k).
Proof.
  unfold HighchartsMeta.trim_dict.
  induction d as [|[k' v'] d IH]; simpl; intros ND; auto.
  inversion ND as [|? ? NI ND']; subst.
  destruct (String.eqb k k') eqn:E.
  - apply String.eqb_eq in E; subst k'.
    unfold keep. destruct (is_None v') eqn:N; simpl.
    + rewrite IH by assumption.
      apply dict_lookup_None in NI. now rewrite NI.
    + now rewrite String.eqb_refl.
  - destruct (is_None v'); simpl; [|rewrite E]; auto.
Qed.

Lemma dict_get_remove_neq (d : dict) (k k' : string) (default : PyVal) :
  String.eqb k k' = false ->
  dict_get (dict_remove d k') k default = dict_get d k default.
Proof. intros N. unfold dict_get. now rewrite dict_lookup_remove_neq. Qed.

(** ** Validators *)
Section ValidatorFacts.
Context {RT : Runtime}.

Lemma numeric_shape (v r : PyVal) (m : option Z) :
  validators.numeric v true m = Ok r -> r = VNone \/ is_number r = true.
Proof.
  unfold validators.numeric, validators.check_minimum.
  destruct v; try discriminate; try (intros [= <-]; auto);
    repeat match goal with
    | |- context [match ?x with _ => _ end] => destruct x
    end; try discriminate; intros [= <-]; auto.
Qed.

Lemma numeric_number (r : PyVal) :
  is_number r = true -> validators.numeric r true None = Ok r.
Proof. destruct r; try discriminate; reflexivity. Qed.

Lemma numeric_idem (v r : PyVal) :
  validators.numeric v true None = Ok r -> validators.numeric r true None = Ok r.
Proof.
  intros H. apply numeric_shape in H as [->|H]; [reflexivity|].
  now apply numeric_number.
Qed.

Lemma string_shape (v r : PyVal) (allow_empty : bool) :
  validators.string v allow_empty = Ok r ->
  (allow_empty = true /\ r = VNone) \/ (r = v /\ is_str r = true /\ truthy r = true).
Proof.
  unfold validators.string. destruct (truthy v) eqn:T; simpl.
  - destruct v; try discriminate. intros [= <-]. auto.
  - destruct allow_empty; try discriminate. intros [= <-]. auto.
Qed.

Lemma string_idem (v r : PyVal) :
  validators.string v true = Ok r -> validators.string r true = Ok r.
Proof.
  intros H. destruct (string_shape _ _ _ H) as [[_ ->]|[-> _]]; auto.
Qed.

Lemma integer_shape (v r : PyVal) :
  validators.integer v = Ok r ->
  exists n, r = VInt n \/ (r = VBool (Z.odd n) /\ v = r).
Proof.
  unfold validators.integer, validators.numeric, validators.check_minimum.
  destruct v; simpl; try discriminate.
  - intros [= <-]. exists (Z.b2z b). right. now destruct b.
  - intros [= <-]. eauto.
  - destruct (float_to_int f); try discriminate. intros [= <-]. eauto.
  - destruct (float_ s); simpl; try discriminate.
    destruct (float_to_int f); try discriminate. intros [= <-]. eauto.
Qed.

Lemma integer_idem (v r : PyVal) :
  validators.integer v = Ok r -> validators.integer r = Ok r.
Proof.
  intros H. apply integer_shape in H as [n [->|[-> _]]]; reflexivity.
Qed.
End ValidatorFacts.

(** ** AnnotationPoint *)

Section AnnotationPointFacts.
Context {RT : Runtime}.
Import AnnotationPoint.

Lemma axis_value_idem (v r : PyVal) :
  axis_value v = Ok r -> axis_value r = Ok r.
Proof.
  unfold axis_value.
  destruct (is_None v || eq_empty_str v) eqn:E.
  - intros [= <-]. reflexivity.
  - destruct (validators.integer v) as [r'|e] eqn:I; simpl.
    + intros [= <-].
      pose proof (integer_idem _ _ I) as I'.
      apply integer_shape in I as [n [->|[-> _]]]; simpl in *; now rewrite ?I'.
    + destruct (is_ValueError e) eqn:V; simpl; rewrite ?V; [|discriminate].
      destruct (validators.string v false) as [r'|e'] eqn:S; simpl.
      * intros [= <-].
        destruct (string_shape _ _ _ S) as [[? _]|[-> _]]; [discriminate|].
        rewrite E, I. simpl. rewrite V, S. reflexivity.
      * destruct (is_ValueError e'); discriminate.
Qed.

Lemma AnnotationPoint_init_spec (kwargs : dict) :
  init kwargs =
  (a <- validators.numeric (dict_get kwargs "x" VNone) true None ;;
   b <- axis_value (dict_get kwargs "x_axis" VNone) ;;
   c <- validators.numeric (dict_get kwargs "y" VNone) true None ;;
   d <- axis_value (dict_get kwargs "y_axis" VNone) ;;
   Ok (mk a b c d)).
Proof.
  unfold init, dict_pop, set_x, set_x_axis, set_y, set_y_axis.
  rewrite !dict_get_remove_neq by reflexivity.
  destruct (validators.numeric (dict_get kwargs "x" VNone) true None); cbn; [|reflexivity].
  destruct (axis_value (dict_get kwargs "x_axis" VNone)); cbn; [|reflexivity].
  destruct (validators.numeric (dict_get kwargs "y" VNone) true None); cbn; [|reflexivity].
  destruct (axis_value (dict_get kwargs "y_axis" VNone)); cbn; reflexivity.
Qed.

Lemma AnnotationPoint_from_dict_spec (as_dict : dict) :
  from_dict as_dict =
  init (dict_literal
          [("x", dict_get as_dict "x" VNone);
           ("x_axis", dict_get as_dict "xAxis" VNone);
           ("y", dict_get as_dict "y" VNone);
           ("y_axis", dict_get as_dict "yAxis" VNone)]).
Proof.
  unfold from_dict, dict_pop.
  rewrite !dict_get_remove_neq by reflexivity.
  reflexivity.
Qed.

Lemma AnnotationPoint_from_dict_to_dict (p : t) :
  from_dict (to_dict p) =
  (a <- validators.numeric (x p) true None ;;
   b <- axis_value (x_axis p) ;;
   c <- validators.numeric (y p) true None ;;
   d <- axis_value (y_axis p) ;;
   Ok (mk a b c d)).
Proof.
  rewrite AnnotationPoint_from_dict_spec, AnnotationPoint_init_spec. reflexivity.
Qed.

Lemma AnnotationPoint_roundtrip (kwargs : dict) (p : t) :
  init kwargs = Ok p -> from_dict (to_dict p) = Ok p.
Proof.
  rewrite AnnotationPoint_init_spec, AnnotationPoint_from_dict_to_dict.
  destruct (validators.numeric (dict_get kwargs "x" VNone) true None) as [a|] eqn:A; [|discriminate].
  destruct (axis_value (dict_get kwargs "x_axis" VNone)) as [b|] eqn:B; [|discriminate].
  destruct (validators.numeric (dict_get kwargs "y" VNone) true None) as [c|] eqn:Cc; [|discriminate].
  destruct (axis_value (dict_get kwargs "y_axis" VNone)) as [d|] eqn:D; [|discriminate].
  cbn. intros [= <-]. cbn.
  rewrite (numeric_idem _ _ A), (axis_value_idem _ _ B),
          (numeric_idem _ _ Cc), (axis_value_idem _ _ D).
  reflexivity.
Qed.
End AnnotationPointFacts.

(** ** ScreenReaderSection *)

Section ScreenReaderSectionFacts.
Context {RT : Runtime} {K : Constants}.
Import ScreenReaderSection.

Lemma chart_format_value_shape (v r : PyVal) :
  chart_format_value v = Ok r -> r = VNone \/ is_str r = true.
Proof.
  unfold chart_format_value.
  destruct (is_None v); [intros [= <-]; auto|].
  destruct (truthy v); simpl; [|intros [= <-]; auto].
  intros H. destruct (string_shape _ _ _ H) as [[? _]|[_ [? _]]]; auto; discriminate.
Qed.

Lemma chart_format_value_str (s : string) :
  chart_format_value (VStr s) = Ok (VStr s).
Proof.
  unfold chart_format_value, validators.string. simpl.
  destruct (String.eqb s "") eqn:E; simpl; auto.
  apply String.eqb_eq in E. now subst.
Qed.

Lemma chart_format_value_idem (v r : PyVal) :
  chart_format_value v = Ok r -> chart_format_value r = Ok r.
Proof.
  intros H. apply chart_format_value_shape in H as [->|H]; [reflexivity|].
  destruct r; try discriminate. apply chart_format_value_str.
Qed.

Lemma ScreenReaderSection_init_spec (kwargs : dict) :
  init kwargs =
  (a <- chart_format_value
          (dict_get kwargs "after_chart_format" (VStr DEFAULT_AFTER_CHART_FORMAT)) ;;
   b <- validators.string (dict_get kwargs "after_chart_formatter" VNone) true ;;
   c <- validators.string
          (dict_get kwargs "axis_range_date_format"
                    (VStr DEFAULT_AXIS_RANGE_DATE_FORMAT)) true ;;
   d <- chart_format_value
          (dict_get kwargs "before_chart_format" (VStr DEFAULT_BEFORE_CHART_FORMAT)) ;;
   e <- validators.string (dict_get kwargs "before_chart_formatter" VNone) true ;;
   f <- validators.string (dict_get kwargs "on_play_as_sound_click" VNone) true ;;
   g <- validators.string (dict_get kwargs "on_view_data_table_click" VNone) true ;;
   Ok (mk a b c d e f g)).
Proof.
  unfold init, dict_pop,
    set_after_chart_format, set_after_chart_formatter, set_axis_range_date_format,
    set_before_chart_format, set_before_chart_formatter, set_on_play_as_sound_click,
    set_on_view_data_table_click.
  rewrite !dict_get_remove_neq by reflexivity.
  repeat match goal with
  | |- context [bind ?c _] =>
      lazymatch c with
      | bind _ _ => fail
      | _ => destruct c; cbn; [|reflexivity]
      end
  end.
  reflexivity.
Qed.

Lemma ScreenReaderSection_init_literal (v1 v2 v3 v4 v5 v6 v7 : PyVal) :
  init (dict_literal
          [("after_chart_format", v1); ("after_chart_formatter", v2);
           ("axis_range_date_format", v3); ("before_chart_format", v4);
           ("before_chart_formatter", v5); ("on_play_as_sound_click", v6);
           ("on_view_data_table_click", v7)]) =
  (a <- chart_format_value v1 ;;
   b <- validators.string v2 true ;;
   c <- validators.string v3 true ;;
   d <- chart_format_value v4 ;;
   e <- validators.string v5 true ;;
   f <- validators.string v6 true ;;
   g <- validators.string v7 true ;;
   Ok (mk a b c d e f g)).
Proof. rewrite ScreenReaderSection_init_spec. reflexivity. Qed.

Lemma ScreenReaderSection_from_dict_spec (as_dict : dict) :
  from_dict as_dict =
  init (dict_literal
    [("after_chart_format",
      dict_get as_dict "afterChartFormat" (VStr DEFAULT_AFTER_CHART_FORMAT));
     ("after_chart_formatter", dict_get as_dict "afterChartFormatter" VNone);
     ("axis_range_date_format",
      dict_get as_dict "axisRangeDateFormat" (VStr DEFAULT_AXIS_RANGE_DATE_FORMAT));
     ("before_chart_format",
      dict_get as_dict "beforeChartFormat" (VStr DEFAULT_BEFORE_CHART_FORMAT));
     ("before_chart_formatter", dict_get as_dict "beforeChartFormatter" VNone);
     ("on_play_as_sound_click", dict_get as_dict "onPlayAsSoundClick" VNone);
     ("on_view_data_table_click", dict_get as_dict "onViewDataTableClick" VNone)]).
Proof.
  unfold from_dict, dict_pop.
  rewrite !dict_get_remove_neq by reflexivity.
  reflexivity.
Qed.

Lemma to_json_lookup (self : t) (k : string) :
  dict_lookup (to_json self) k = keep (dict_lookup (untrimmed self) k).
Proof.
  unfold to_json. apply trim_dict_lookup. apply dict_literal_NoDup.
Qed.

Lemma dict_get_keep_None (d : dict) (k : string) (v : PyVal) :
  keep (Some v) = dict_lookup d k -> dict_get d k VNone = v.
Proof.
  unfold dict_get, keep. intros <-. now destruct v.
Qed.

Lemma dict_get_keep_default (d : dict) (k : string) (v default : PyVal) :
  is_None v = false ->
  keep (Some v) = dict_lookup d k -> dict_get d k default = v.
Proof.
  unfold dict_get, keep. intros N <-. now rewrite N.
Qed.

Lemma ScreenReaderSection_roundtrip (kwargs : dict) (self : t) :
  init kwargs = Ok self ->
  is_None (after_chart_format self) = false ->
  is_None (axis_range_date_format self) = false ->
  is_None (before_chart_format self) = false ->
  from_dict (to_json self) = Ok self.
Proof.
  intros H. rewrite ScreenReaderSection_init_spec in H.
  destruct (chart_format_value _) as [a|] eqn:A in H; [|discriminate]; cbn [bind] in H.
  destruct (validators.string _ _) as [b|] eqn:B in H; [|discriminate]; cbn [bind] in H.
  destruct (validators.string _ _) as [c|] eqn:Cc in H; [|discriminate]; cbn [bind] in H.
  destruct (chart_format_value _) as [d|] eqn:D in H; [|discriminate]; cbn [bind] in H.
  destruct (validators.string _ _) as [e|] eqn:E in H; [|discriminate]; cbn [bind] in H.
  destruct (validators.string _ _) as [f|] eqn:F in H; [|discriminate]; cbn [bind] in H.
  destruct (validators.string _ _) as [g|] eqn:G in H; [|discriminate]; cbn [bind] in H.
  injection H as <-. cbn [after_chart_format axis_range_date_format before_chart_format].
  intros Na Nc Nd.
  rewrite ScreenReaderSection_from_dict_spec.
  rewrite (dict_get_keep_default _ "afterChartFormat" a) by (auto; now rewrite to_json_lookup).
  rewrite (dict_get_keep_None _ "afterChartFormatter" b) by (now rewrite to_json_lookup).
  rewrite (dict_get_keep_default _ "axisRangeDateFormat" c) by (auto; now rewrite to_json_lookup).
  rewrite (dict_get_keep_default _ "beforeChartFormat" d) by (auto; now rewrite to_json_lookup).
  rewrite (dict_get_keep_None _ "beforeChartFormatter" e) by (now rewrite to_json_lookup).
  rewrite (dict_get_keep_None _ "onPlayAsSoundClick" f) by (now rewrite to_json_lookup).
  rewrite (dict_get_keep_None _ "onViewDataTableClick" g) by (now rewrite to_json_lookup).
  rewrite ScreenReaderSection_init_literal.
  rewrite (chart_format_value_idem _ _ A), (string_idem _ _ B), (string_idem _ _ Cc),
    (chart_format_value_idem _ _ D), (string_idem _ _ E), (string_idem _ _ F),
    (string_idem _ _ G).
  reflexivity.
Qed.

End ScreenReaderSectionFacts.

(** ** Reading a table of [pop] entries *)

Lemma nodupb_sound (l : list string) : nodupb l = true -> NoDup l.
Proof.
  induction l as [|x r IH]; simpl; [constructor|].
  intros H. apply andb_true_iff in H as [H1 H2].
  constructor; auto.
  intros I. apply negb_true_iff in H1.
  assert (existsb (String.eqb x) r = true) as E; [|congruence].
  apply existsb_exists. exists x. split; auto. apply String.eqb_refl.
Qed.

Lemma pop_entries_unlisted (table : list (string * string * PyVal))
    (as_dict kwargs : dict) (i : string) :
  ~ In i (internal_names table) ->
  dict_lookup (pop_entries table as_dict kwargs) i = dict_lookup kwargs i.
Proof.
  revert as_dict kwargs.
  induction table as [|[[i' e'] d'] table IH]; simpl; intros as_dict kwargs NI; auto.
  rewrite IH by tauto.
  apply dict_lookup_set_neq. apply String.eqb_neq. intros ->. tauto.
Qed.

Lemma pop_entries_lookup_from (table : list (string * string * PyVal))
    (as_dict0 as_dict kwargs : dict) (i e : string) (d : PyVal) :
  NoDup (internal_names table) ->
  NoDup (external_names table) ->
  (forall e', In e' (external_names table) ->
              dict_lookup as_dict e' = dict_lookup as_dict0 e') ->
  In (i, e, d) table ->
  dict_lookup (pop_entries table as_dict kwargs) i = Some (dict_get as_dict0 e d).
Proof.
  revert as_dict kwargs.
  induction table as [|[[i' e'] d'] table IH]; simpl;
    intros as_dict kwargs NDi NDe Agree I.
  - destruct I.
  - inversion NDi as [|? ? NIi NDi']; subst.
    inversion NDe as [|? ? NIe NDe']; subst.
    destruct I as [E|I].
    + injection E as -> -> ->.
      rewrite pop_entries_unlisted by assumption.
      rewrite dict_lookup_set_eq. unfold dict_get.
      now rewrite Agree by auto.
    + apply IH; auto.
      intros e0 I0. rewrite dict_lookup_remove_neq; auto.
      apply String.eqb_neq. intros ->. tauto.
Qed.

(** Each entry of a table without repeated names reads its external key
    from the dictionary given, or takes its default. *)
Lemma pop_entries_lookup (table : list (string * string * PyVal))
    (as_dict : dict) (i e : string) (d : PyVal) :
  nodupb (internal_names table) = true ->
  nodupb (external_names table) = true ->
  In (i, e, d) table ->
  dict_lookup (pop_entries table as_dict []) i = Some (dict_get as_dict e d).
Proof.
  intros Hi He I.
  apply pop_entries_lookup_from; auto using nodupb_sound.
Qed.

Lemma BarSeries_kwargs (as_dict : dict) (i e : string) (d : PyVal) :
  In (i, e, d) BarSeries.kwargs_table ->
  dict_lookup (BarSeries._get_kwargs_from_dict as_dict) i =
  Some (dict_get as_dict e d).
Proof.
  apply pop_entries_lookup; vm_compute; reflexivity.
Qed.

Ltac in_table :=
  cbv [BarSeries.kwargs_table WindBarbData.kwargs_table];
  repeat (first [left; reflexivity | right]).

Lemma BarSeries_border_color_default (as_dict : dict) :
  dict_lookup as_dict "borderColor" = None ->
  dict_lookup (BarSeries._get_kwargs_from_dict as_dict) "border_color" =
  Some (VStr "#ffffff").
Proof.
  intros H.
  rewrite (BarSeries_kwargs as_dict "border_color" "borderColor" (VStr "#ffffff")).
  - unfold dict_get. now rewrite H.
  - in_table.
Qed.

Section FromExternal.
Context {RT : Runtime} {K : Constants}.
Import ScreenReaderSection.

(** Decoding a dictionary without ['afterChartFormat']. *)
Lemma ScreenReaderSection_from_dict_default (as_dict : dict) :
  dict_lookup as_dict "afterChartFormat" = None ->
  from_dict as_dict =
  (b <- validators.string (dict_get as_dict "afterChartFormatter" VNone) true ;;
   c <- validators.string
          (dict_get as_dict "axisRangeDateFormat"
                    (VStr DEFAULT_AXIS_RANGE_DATE_FORMAT)) true ;;
   d <- chart_format_value
          (dict_get as_dict "beforeChartFormat"
                    (VStr DEFAULT_BEFORE_CHART_FORMAT)) ;;
   e <- validators.string (dict_get as_dict "beforeChartFormatter" VNone) true ;;
   f <- validators.string (dict_get as_dict "onPlayAsSoundClick" VNone) true ;;
   g <- validators.string (dict_get as_dict "onViewDataTableClick" VNone) true ;;
   Ok (mk (VStr DEFAULT_AFTER_CHART_FORMAT) b c d e f g)).
Proof.
  intros H.
  rewrite ScreenReaderSection_from_dict_spec, ScreenReaderSection_init_literal.
  unfold dict_get at 1. rewrite H, chart_format_value_str. reflexivity.
Qed.

Lemma ScreenReaderSection_from_dict_default_field (as_dict : dict) (self : t) :
  dict_lookup as_dict "afterChartFormat" = None ->
  from_dict as_dict = Ok self ->
  after_chart_format self = VStr DEFAULT_AFTER_CHART_FORMAT.
Proof.
  intros H. rewrite (ScreenReaderSection_from_dict_default as_dict H).
  repeat match goal with
  | |- context [bind ?c _] =>
      lazymatch c with
      | bind _ _ => fail
      | _ => destruct c; cbn [bind]; [|discriminate]
      end
  end.
  now intros [= <-].
Qed.

End FromExternal.

(** ** Round trip *)

Section RoundTrip.
Context {RT : Runtime} {K : Constants}.

(** C2. Decoding what an entity exports gives the entity back: for every
    [AnnotationPoint] the constructor builds, [from_dict (to_dict p)] is
    [p]; for every [ScreenReaderSection] the constructor builds,
    [from_dict (to_json self)] is [self], the lossy defaults apart: a
    format field that holds [None] is trimmed from the export and comes
    back as its schema default. *)
Theorem from_dict_of_export (akw skw : dict) (p : AnnotationPoint.t)
    (self : ScreenReaderSection.t) :
  AnnotationPoint.init akw = Ok p ->
  ScreenReaderSection.init skw = Ok self ->
  is_None (ScreenReaderSection.after_chart_format self) = false ->
  is_None (ScreenReaderSection.axis_range_date_format self) = false ->
  is_None (ScreenReaderSection.before_chart_format self) = false ->
  AnnotationPoint.from_dict (AnnotationPoint.to_dict p) = Ok p /\
  ScreenReaderSection.from_dict (ScreenReaderSection.to_json self) = Ok self.
Proof.
  intros Hp Hs Na Nc Nd. split.
  - eapply AnnotationPoint_roundtrip; eauto.
  - eapply ScreenReaderSection_roundtrip; eauto.
Qed.

(** The lossy default: an [after_chart_format] of [None] comes back as
    the schema default. *)
Lemma after_chart_format_None_is_lossy (self self' : ScreenReaderSection.t) :
  ScreenReaderSection.after_chart_format self = VNone ->
  ScreenReaderSection.from_dict (ScreenReaderSection.to_json self) = Ok self' ->
  ScreenReaderSection.after_chart_format self' = VStr DEFAULT_AFTER_CHART_FORMAT.
Proof.
  intros N. apply ScreenReaderSection_from_dict_default_field.
  rewrite to_json_lookup. simpl. now rewrite N.
Qed.
End RoundTrip.

Lemma from_dict_of_export_witness :
  exists p self,
    AnnotationPoint.init (RT := sample_runtime)
      [("x", VInt 3); ("x_axis", VInt 0); ("y", VStr "12")] = Ok p /\
    ScreenReaderSection.init (K := sample_constants)
      [("before_chart_format", VStr ""); ("after_chart_formatter", VNone)] = Ok self /\
    AnnotationPoint.from_dict (RT := sample_runtime) (AnnotationPoint.to_dict p) = Ok p /\
    ScreenReaderSection.from_dict (K := sample_constants)
      (ScreenReaderSection.to_json self) = Ok self.
Proof.
  eexists. eexists.
  split; [vm_compute; reflexivity|].
  split; [vm_compute; reflexivity|].
  apply (@from_dict_of_export sample_runtime sample_constants
           [("x", VInt 3); ("x_axis", VInt 0); ("y", VStr "12")]
           [("before_chart_format", VStr ""); ("after_chart_formatter", VNone)]);
    vm_compute; reflexivity.
Defined.

(** ** The format setters of ScreenReaderSection *)

Section ChartFormat.
Context {K : Constants}.
Import ScreenReaderSection.

(** C10. The [after_chart_format] and [before_chart_format] setters:
    [None] stores [None]; any other falsy input stores the empty text;
    truthy input is stored only when [validators.string] accepts it as
    non-empty text; so empty text and [None] store different values, and
    falsy input never raises. *)
Theorem chart_format_setters (self : t) (value : PyVal) :
  (set_after_chart_format self VNone =
     Ok (mk VNone (after_chart_formatter self) (axis_range_date_format self)
            (before_chart_format self) (before_chart_formatter self)
            (on_play_as_sound_click self) (on_view_data_table_click self)) /\
   set_before_chart_format self VNone =
     Ok (mk (after_chart_format self) (after_chart_formatter self)
            (axis_range_date_format self) VNone (before_chart_formatter self)
            (on_play_as_sound_click self) (on_view_data_table_click self))) /\
  (is_None value = false -> truthy value = false ->
   set_after_chart_format self value =
     Ok (mk (VStr "") (after_chart_formatter self) (axis_range_date_format self)
            (before_chart_format self) (before_chart_formatter self)
            (on_play_as_sound_click self) (on_view_data_table_click self)) /\
   set_before_chart_format self value =
     Ok (mk (after_chart_format self) (after_chart_formatter self)
            (axis_range_date_format self) (VStr "") (before_chart_formatter self)
            (on_play_as_sound_click self) (on_view_data_table_click self))) /\
  (truthy value = true ->
   set_after_chart_format self value =
     (v <- validators.string value false ;;
      Ok (mk v (after_chart_formatter self) (axis_range_date_format self)
             (before_chart_format self) (before_chart_formatter self)
             (on_play_as_sound_click self) (on_view_data_table_click self))) /\
   set_before_chart_format self value =
     (v <- validators.string value false ;;
      Ok (mk (after_chart_format self) (after_chart_formatter self)
             (axis_range_date_format self) v (before_chart_formatter self)
             (on_play_as_sound_click self) (on_view_data_table_click self))) /\
   (validators.string value false = Ok value \/
    validators.string value false = Raise CannotCoerceError)) /\
  (truthy value = false ->
   raises (set_after_chart_format self value) = false /\
   raises (set_before_chart_format self value) = false) /\
  (forall a b, set_after_chart_format self (VStr "") = Ok a ->
               set_after_chart_format self VNone = Ok b ->
               after_chart_format a = VStr "" /\ after_chart_format b = VNone) /\
  (forall a b, set_before_chart_format self (VStr "") = Ok a ->
               set_before_chart_format self VNone = Ok b ->
               before_chart_format a = VStr "" /\ before_chart_format b = VNone).
Proof.
  unfold set_after_chart_format, set_before_chart_format, chart_format_value.
  split; [split; reflexivity|].
  split; [intros N T; rewrite N, T; split; reflexivity|].
  split.
  { intros T.
    assert (is_None value = false) as N by (destruct value; auto; discriminate).
    rewrite N, T. simpl. split; [reflexivity|]. split; [reflexivity|].
    unfold validators.string. rewrite T. simpl. destruct value; auto. }
  split; [intros T; rewrite T; destruct (is_None value); split; reflexivity|].
  split; simpl; intros a b [= <-] [= <-]; split; reflexivity.
Qed.
End ChartFormat.

(** The falsy inputs [0] and [[]], and the truthy text ['<p>done</p>']. *)
Lemma chart_format_setters_witness :
  let self := ScreenReaderSection.mk (VStr "{endOfChartMarker}") VNone VNone
                                     (VStr "before") VNone VNone VNone in
  ScreenReaderSection.set_after_chart_format self (VInt 0) =
    Ok (ScreenReaderSection.mk (VStr "") VNone VNone (VStr "before") VNone VNone VNone) /\
  ScreenReaderSection.set_before_chart_format self (VList []) =
    Ok (ScreenReaderSection.mk (VStr "{endOfChartMarker}") VNone VNone (VStr "")
                               VNone VNone VNone) /\
  ScreenReaderSection.set_after_chart_format self (VStr "<p>done</p>") =
    Ok (ScreenReaderSection.mk (VStr "<p>done</p>") VNone VNone (VStr "before")
                               VNone VNone VNone) /\
  raises (ScreenReaderSection.set_after_chart_format self (VInt 0)) = false.
Proof.
  intros self.
  pose proof (chart_format_setters self (VInt 0)) as (_ & H0 & _ & R0 & _).
  pose proof (chart_format_setters self (VList [])) as (_ & H1 & _).
  pose proof (chart_format_setters self (VStr "<p>done</p>")) as (_ & _ & H2 & _).
  split; [apply H0; reflexivity|].
  split; [apply H1; reflexivity|].
  split; [rewrite (proj1 (H2 eq_refl)); reflexivity|].
  apply R0; reflexivity.
Defined.

(** ** Trimming on export *)

Section Trim.
Context {RT : Runtime} {K : Constants}.

(** [ScreenReaderSection.to_json] keeps exactly the keys whose attribute
    is not [None]. *)
Lemma to_json_trim_law (self : ScreenReaderSection.t) (k : string) (v : PyVal) :
  dict_lookup (ScreenReaderSection.to_json self) k = Some v <->
  dict_lookup (ScreenReaderSection.untrimmed self) k = Some v /\ is_None v = false.
Proof.
  rewrite to_json_lookup. unfold keep.
  destruct (dict_lookup (ScreenReaderSection.untrimmed self) k) as [w|].
  - destruct (is_None w) eqn:N; split.
    + discriminate.
    + intros [[= ->] N']. congruence.
    + intros [= ->]. auto.
    + intros [[= ->] _]. reflexivity.
  - split; [discriminate | intros [? _]; discriminate].
Qed.

(** C3. [AnnotationPoint.to_dict] is not trimmed: it holds the four keys
    whatever the attributes are, and for the point built without
    arguments every one of them holds [None]. *)
Theorem AnnotationPoint_to_dict_keeps_unset (p : AnnotationPoint.t) :
  AnnotationPoint.init [] = Ok (AnnotationPoint.mk VNone VNone VNone VNone) /\
  AnnotationPoint.to_dict (AnnotationPoint.mk VNone VNone VNone VNone) =
    [("x", VNone); ("xAxis", VNone); ("y", VNone); ("yAxis", VNone)] /\
  dict_keys (AnnotationPoint.to_dict p) = ["x"; "xAxis"; "y"; "yAxis"].
Proof. repeat split. Qed.
End Trim.

(** ** The constructor of a bar point *)

Section Unset.
Context {RT : Runtime} {K : Constants} {C : Collaborators}.

Lemma BarData_init_spec (kwargs : dict) :
  BarData.init kwargs =
  (a <- BarData.border_color_value (dict_get kwargs "border_color" VNone) ;;
   b <- validators.numeric (dict_get kwargs "border_width" VNone) true (Some 0%Z) ;;
   c <- BarData.dash_style_value (dict_get kwargs "dash_style" VNone) ;;
   d <- validators.numeric (dict_get kwargs "point_width" VNone) true None ;;
   e <- CartesianData_init
          (dict_remove (dict_remove (dict_remove (dict_remove kwargs
             "border_color") "border_width") "dash_style") "point_width") ;;
   Ok (BarData.mk a b c d e)).
Proof.
  unfold BarData.init, dict_pop, BarData.set_border_color, BarData.set_border_width,
    BarData.set_dash_style, BarData.set_point_width.
  rewrite !dict_get_remove_neq by reflexivity.
  repeat match goal with
  | |- context [bind ?c _] =>
      lazymatch c with
      | bind _ _ => fail
      | _ => destruct c; cbn; [|reflexivity]
      end
  end.
  reflexivity.
Qed.

End Unset.

(** ** The border colour of a bar *)

Section BorderColor.
Context {C : Collaborators}.

(** A dict with a [linearGradient] key goes to the Gradient decoders. *)
Lemma border_color_linearGradient (d : dict) :
  has_key d "linearGradient" = true ->
  BarData.border_color_value (VDict d) =
  except_ValueError (Gradient_from_json (VDict d)) (Gradient_from_dict d).
Proof.
  intros H. unfold BarData.border_color_value. simpl. rewrite H.
  destruct d; [discriminate|reflexivity].
Qed.

Lemma border_color_Gradient_variant (d : dict) (g : PyVal) :
  has_key d "linearGradient" = true ->
  Gradient_from_json (VDict d) = Ok g \/
  (Gradient_from_json (VDict d) = Raise ValueError /\ Gradient_from_dict d = Ok g) ->
  BarData.border_color_value (VDict d) = Ok g.
Proof.
  intros H G. rewrite border_color_linearGradient by assumption.
  destruct G as [->|[-> ->]]; reflexivity.
Qed.

(** A non-empty dict with none of the four keys is refused. *)
Lemma border_color_unrecognized_dict (d : dict) :
  d <> [] ->
  has_key d "linearGradient" = false ->
  has_key d "linear_gradient" = false ->
  has_key d "patternOptions" = false ->
  has_key d "pattern_options" = false ->
  BarData.border_color_value (VDict d) = Raise HighchartsValueError.
Proof.
  intros N H1 H2 H3 H4. unfold BarData.border_color_value. simpl.
  rewrite H1, H2, H3, H4. destruct d; [contradiction|reflexivity].
Qed.

(** Text is refused unless it holds one of the two camelCase key names. *)
Lemma border_color_text (s : string) :
  str_contains "linearGradient" s = false ->
  str_contains "patternOptions" s = false ->
  BarData.border_color_value (VStr s) =
  if String.eqb s "" then Ok VNone else Raise HighchartsValueError.
Proof.
  intros H1 H2. unfold BarData.border_color_value. simpl.
  rewrite H1, H2. now destruct (String.eqb s "").
Qed.

(** C1. The colour text ['#ffffff'] is not resolved to a plain string:
    the [border_color] setter raises [HighchartsValueError] on it and
    assigns nothing. *)
Theorem border_color_plain_text_raises (self : BarData.t) :
  BarData.border_color_value (VStr "#ffffff") = Raise HighchartsValueError /\
  BarData.set_border_color self (VStr "#ffffff") = Raise HighchartsValueError.
Proof. split; reflexivity. Qed.
End BorderColor.

(** ** Merging the parents' exports *)





Section Merge.
Context {C : Collaborators}.

Lemma BarData_untrimmed_NoDup (self : BarData.t) :
  NoDup (dict_keys (BarData.untrimmed self)).
Proof.
  unfold BarData.untrimmed. apply dict_update_NoDup.
  apply dict_literal_NoDup.
Qed.

End Merge.


(** ** Coercing the members of a collection *)


Lemma collect_length (body : PyVal -> result PyVal) (items out : list PyVal) :
  collect body items = Ok out -> List.length out = List.length items.
Proof.
  revert out. induction items as [|item items IH]; simpl; intros out.
  - now intros [= <-].
  - destruct (body item); simpl; [|discriminate].
    destruct (collect body items) as [rest|]; simpl; [|discriminate].
    intros [= <-]. simpl. f_equal. now apply IH.
Qed.

Lemma collect_nth (body : PyVal -> result PyVal) (items out : list PyVal)
    (n : nat) (item : PyVal) :
  collect body items = Ok out ->
  nth_error items n = Some item ->
  exists as_obj, body item = Ok as_obj /\ nth_error out n = Some as_obj.
Proof.
  revert out n. induction items as [|i items IH]; simpl; intros out n.
  - destruct n; discriminate.
  - destruct (body i) as [o|] eqn:B; simpl; [|discriminate].
    destruct (collect body items) as [rest|]; simpl; [|discriminate].
    intros [= <-]. destruct n; simpl.
    + intros [= <-]. eauto.
    + intros H. now apply IH.
Qed.

Section FromSetter.
Context {RT : Runtime} {C : Collaborators}.

Lemma from_setter_with_list (body : PyVal -> result PyVal) (items : list PyVal) :
  from_setter_with body (VList items) = collect body items.
Proof. now destruct items. Qed.

Lemma WindBarbData_init_spec (kwargs : dict) :
  WindBarbData.init kwargs =
  (direction <- validators.numeric (dict_get kwargs "direction" VNone) true None ;;
   value <- validators.numeric (dict_get kwargs "value" VNone) true None ;;
   b <- CartesianData_init (dict_remove (dict_remove kwargs "direction") "value") ;;
   Ok (VObj "WindBarbData" (("_direction", direction) :: ("_value", value) :: b))).
Proof.
  unfold WindBarbData.init, dict_pop.
  rewrite !dict_get_remove_neq by reflexivity.
  destruct (validators.numeric (dict_get kwargs "direction" VNone) true None);
    reflexivity.
Qed.


(** A null member of [WindBarbData.from_setter] becomes a point whose
    [direction] and [value] are [None], built from [x = None], [y = None]. *)
Lemma WindBarbData_coerce_null (item : PyVal) :
  is_None item || checkers.is_EnforcedNull item = true ->
  WindBarbData.coerce item =
  (b <- CartesianData_init [("x", VNone); ("y", VNone)] ;;
   Ok (VObj "WindBarbData" (("_direction", VNone) :: ("_value", VNone) :: b))).
Proof.
  destruct item; try discriminate; intros _; reflexivity.
Qed.

(** C6. [XRangeData.from_setter] keeps a null member's slot, but what it
    puts there is [None], not a point: the list for [[None]] (and for the
    enforced null) is [[None]]. *)
Theorem XRangeData_from_setter_null_slot :
  XRangeData.from_setter (VList [VNone]) = Ok [VNone] /\
  XRangeData.from_setter (VList [VEnforcedNull]) = Ok [VNone] /\
  checkers.is_type VNone "XRangeData" = false.
Proof. repeat split. Qed.

Lemma XRangeData_from_setter_length (items out : list PyVal) :
  XRangeData.from_setter (VList items) = Ok out ->
  List.length out = List.length items.
Proof.
  unfold XRangeData.from_setter. rewrite from_setter_with_list.
  apply collect_length.
Qed.

(** ** The data of a series *)

(** Every [data] setter stores [None] for a falsy value. *)
Lemma data_setters_falsy (value : PyVal) :
  truthy value = false ->
  BaseBarSeries.set_data value = Ok VNone /\
  ColumnPyramidSeries.set_data value = Ok VNone /\
  ColumnRangeSeries.set_data value = Ok VNone /\
  VariwideSeries.set_data value = Ok VNone /\
  WaterfallSeries.set_data value = Ok VNone /\
  WindBarbSeries.set_data value = Ok VNone /\
  XRangeSeries.set_data value = Ok VNone /\
  DependencyWheelSeries.set_data value = Ok VNone.
Proof.
  intros T.
  unfold BaseBarSeries.set_data, ColumnPyramidSeries.set_data,
    ColumnRangeSeries.set_data, VariwideSeries.set_data, WaterfallSeries.set_data,
    WindBarbSeries.set_data, XRangeSeries.set_data, DependencyWheelSeries.set_data.
  rewrite T. repeat split.
Qed.

(** What [WindBarbSeries.data] holds after an assignment of a list: [None],
    or a list with one object per member. *)
Lemma WindBarbSeries_data_list (items : list PyVal) (stored : PyVal) :
  WindBarbSeries.set_data (VList items) = Ok stored ->
  (items = [] /\ stored = VNone) \/
  (items <> [] /\ exists out, stored = VList out /\
     List.length out = List.length items).
Proof.
  unfold WindBarbSeries.set_data, as_list. destruct items as [|i items].
  - intros [= <-]. auto.
  - cbn [truthy negb]. unfold WindBarbData.from_setter.
    rewrite from_setter_with_list.
    destruct (collect _ _) as [out|] eqn:E; simpl; [|discriminate].
    intros [= <-]. right. split; [discriminate|]. exists out. split; auto.
    now apply collect_length in E.
Qed.

(** C9. Assigning [[None]] to [XRangeSeries.data] stores the list
    [[None]], whose member is not an [XRangeData]. *)
Theorem XRangeSeries_data_holds_None (old : PyVal) :
  XRangeSeries.set_data (VList [VNone]) = Ok (VList [VNone]) /\
  assign XRangeSeries.set_data old (VList [VNone]) = VList [VNone] /\
  checkers.is_type VNone "XRangeData" = false.
Proof. repeat split. Qed.
End FromSetter.



(** * Further properties *)

(** ** ScreenReaderSection: what the constructor and the setters keep *)

Section ScreenReaderSectionStored.
Context {K : Constants}.
Import ScreenReaderSection.

Lemma string_allow_empty_closed (v : PyVal) :
  validators.string v true =
  if text_or_empty v then Ok (text_stored v) else Raise CannotCoerceError.
Proof.
  unfold validators.string, text_or_empty, text_stored.
  destruct (truthy v) eqn:T; simpl.
  - rewrite orb_false_r. now destruct v.
  - now rewrite orb_true_r.
Qed.

Lemma chart_format_value_closed (v : PyVal) :
  chart_format_value v =
  if text_or_empty v then Ok (chart_format_stored v) else Raise CannotCoerceError.
Proof.
  unfold chart_format_value, validators.string, text_or_empty, chart_format_stored.
  destruct (is_None v) eqn:N.
  - destruct v; try discriminate. reflexivity.
  - destruct (truthy v) eqn:T; simpl.
    + rewrite orb_false_r. now destruct v.
    + now rewrite orb_true_r.
Qed.

Lemma text_stored_shape (v : PyVal) :
  text_or_empty v = true -> nonempty_text_or_None (text_stored v) = true.
Proof.
  unfold text_or_empty, text_stored. destruct (truthy v) eqn:T; auto.
  rewrite orb_false_r. destruct v; try discriminate. simpl in *. auto.
Qed.

Lemma chart_format_stored_shape (v : PyVal) :
  text_or_empty v = true -> text_or_None (chart_format_stored v) = true.
Proof.
  unfold text_or_empty, chart_format_stored.
  destruct (is_None v); auto. destruct (truthy v) eqn:T; auto.
  rewrite orb_false_r. destruct v; try discriminate. auto.
Qed.

Lemma string_allow_empty_stored (v r : PyVal) :
  validators.string v true = Ok r -> nonempty_text_or_None r = true.
Proof.
  rewrite string_allow_empty_closed.
  destruct (text_or_empty v) eqn:E; [|discriminate].
  intros [= <-]. now apply text_stored_shape.
Qed.

Lemma chart_format_value_stored (v r : PyVal) :
  chart_format_value v = Ok r -> text_or_None r = true.
Proof.
  rewrite chart_format_value_closed.
  destruct (text_or_empty v) eqn:E; [|discriminate].
  intros [= <-]. now apply chart_format_stored_shape.
Qed.

(** X2. The constructor in closed form: it succeeds exactly when each of
    the seven values it reads is text or empty, it then holds each value
    normalised, and otherwise it raises [CannotCoerceError]. *)
Theorem ScreenReaderSection_init_closed (kwargs : dict) :
  init kwargs =
  if forallb text_or_empty (ScreenReaderSection_arguments kwargs) then
    Ok (mk (chart_format_stored
              (dict_get kwargs "after_chart_format" (VStr DEFAULT_AFTER_CHART_FORMAT)))
           (text_stored (dict_get kwargs "after_chart_formatter" VNone))
           (text_stored
              (dict_get kwargs "axis_range_date_format"
                        (VStr DEFAULT_AXIS_RANGE_DATE_FORMAT)))
           (chart_format_stored
              (dict_get kwargs "before_chart_format" (VStr DEFAULT_BEFORE_CHART_FORMAT)))
           (text_stored (dict_get kwargs "before_chart_formatter" VNone))
           (text_stored (dict_get kwargs "on_play_as_sound_click" VNone))
           (text_stored (dict_get kwargs "on_view_data_table_click" VNone)))
  else Raise CannotCoerceError.
Proof.
  rewrite ScreenReaderSection_init_spec.
  rewrite !string_allow_empty_closed, !chart_format_value_closed.
  unfold ScreenReaderSection_arguments. cbn [forallb].
  repeat match goal with
  | |- context [text_or_empty ?v] => destruct (text_or_empty v); cbn [bind andb]
  end; reflexivity.
Qed.

(** X1. Every section the constructor builds holds [None] or text in its
    two chart formats and [None] or text that is not empty in its other
    five fields, and every setter that succeeds keeps it so. *)
Theorem ScreenReaderSection_stored_invariant (kwargs : dict)
    (self self' : t) (value : PyVal) :
  (init kwargs = Ok self -> ScreenReaderSection_stored self = true) /\
  (ScreenReaderSection_stored self = true ->
   (set_after_chart_format self value = Ok self' \/
    set_after_chart_formatter self value = Ok self' \/
    set_axis_range_date_format self value = Ok self' \/
    set_before_chart_format self value = Ok self' \/
    set_before_chart_formatter self value = Ok self' \/
    set_on_play_as_sound_click self value = Ok self' \/
    set_on_view_data_table_click self value = Ok self') ->
   ScreenReaderSection_stored self' = true).
Proof.
  split.
  - rewrite ScreenReaderSection_init_closed. unfold ScreenReaderSection_arguments.
    cbn [forallb].
    destruct (text_or_empty _) eqn:E1; cbn [andb]; [|discriminate].
    destruct (text_or_empty _) eqn:E2 in |- *; cbn [andb]; [|discriminate].
    destruct (text_or_empty _) eqn:E3 in |- *; cbn [andb]; [|discriminate].
    destruct (text_or_empty _) eqn:E4 in |- *; cbn [andb]; [|discriminate].
    destruct (text_or_empty _) eqn:E5 in |- *; cbn [andb]; [|discriminate].
    destruct (text_or_empty _) eqn:E6 in |- *; cbn [andb]; [|discriminate].
    destruct (text_or_empty _) eqn:E7 in |- *; cbn [andb]; [|discriminate].
    intros [= <-]. unfold ScreenReaderSection_stored. cbn.
    now rewrite !chart_format_stored_shape, !text_stored_shape by assumption.
  - unfold ScreenReaderSection_stored.
    intros S.
    repeat (apply andb_true_iff in S as [S ?]).
    unfold set_after_chart_format, set_after_chart_formatter,
      set_axis_range_date_format, set_before_chart_format,
      set_before_chart_formatter, set_on_play_as_sound_click,
      set_on_view_data_table_click.
    intros Hset.
    repeat destruct Hset as [Hset|Hset];
      match type of Hset with
      | bind ?c _ = _ => destruct c as [r|] eqn:E; cbn [bind] in Hset; [|discriminate]
      end;
      injection Hset as <-; cbn;
      first [apply chart_format_value_stored in E
            |apply string_allow_empty_stored in E];
      repeat (apply andb_true_iff; split); assumption.
Qed.
End ScreenReaderSectionStored.

Lemma dict_get_agree (names : list string) (d d' : dict) (k : string)
    (default : PyVal) :
  agree_on names d d' -> In k names -> dict_get d k default = dict_get d' k default.
Proof. intros A I. unfold dict_get. now rewrite (A k I). Qed.

Ltac in_names := simpl; repeat (first [left; reflexivity | right]).

Section ScreenReaderSectionKeys.
Context {K : Constants}.
Import ScreenReaderSection.

(** X3. The constructor reads its seven keyword names and [from_dict] its
    seven camelCase keys, and nothing else: whatever else a dictionary
    holds is dropped without an error. *)
Theorem ScreenReaderSection_reads_only_its_keys (d d' : dict) :
  (agree_on ScreenReaderSection_internal_names d d' -> init d = init d') /\
  (agree_on ScreenReaderSection_external_names d d' -> from_dict d = from_dict d').
Proof.
  split; intros A.
  - rewrite !ScreenReaderSection_init_spec.
    now rewrite
      (dict_get_agree _ d d' "after_chart_format" _ A ltac:(in_names)),
      (dict_get_agree _ d d' "after_chart_formatter" _ A ltac:(in_names)),
      (dict_get_agree _ d d' "axis_range_date_format" _ A ltac:(in_names)),
      (dict_get_agree _ d d' "before_chart_format" _ A ltac:(in_names)),
      (dict_get_agree _ d d' "before_chart_formatter" _ A ltac:(in_names)),
      (dict_get_agree _ d d' "on_play_as_sound_click" _ A ltac:(in_names)),
      (dict_get_agree _ d d' "on_view_data_table_click" _ A ltac:(in_names)).
  - rewrite !ScreenReaderSection_from_dict_spec.
    now rewrite
      (dict_get_agree _ d d' "afterChartFormat" _ A ltac:(in_names)),
      (dict_get_agree _ d d' "afterChartFormatter" _ A ltac:(in_names)),
      (dict_get_agree _ d d' "axisRangeDateFormat" _ A ltac:(in_names)),
      (dict_get_agree _ d d' "beforeChartFormat" _ A ltac:(in_names)),
      (dict_get_agree _ d d' "beforeChartFormatter" _ A ltac:(in_names)),
      (dict_get_agree _ d d' "onPlayAsSoundClick" _ A ltac:(in_names)),
      (dict_get_agree _ d d' "onViewDataTableClick" _ A ltac:(in_names)).
Qed.

Lemma string_allow_empty_fixed (r : PyVal) :
  nonempty_text_or_None r = true -> validators.string r true = Ok r.
Proof.
  destruct r; try discriminate; auto.
  unfold validators.string. simpl. now intros ->.
Qed.

Lemma chart_format_value_fixed (r : PyVal) :
  text_or_None r = true -> chart_format_value r = Ok r.
Proof.
  destruct r; try discriminate; auto. intros _. apply chart_format_value_str.
Qed.

(** X4. Assigning to a field of a section the value it already holds
    changes nothing and does not raise. *)
Theorem ScreenReaderSection_reassign (self : t) :
  ScreenReaderSection_stored self = true ->
  set_after_chart_format self (after_chart_format self) = Ok self /\
  set_after_chart_formatter self (after_chart_formatter self) = Ok self /\
  set_axis_range_date_format self (axis_range_date_format self) = Ok self /\
  set_before_chart_format self (before_chart_format self) = Ok self /\
  set_before_chart_formatter self (before_chart_formatter self) = Ok self /\
  set_on_play_as_sound_click self (on_play_as_sound_click self) = Ok self /\
  set_on_view_data_table_click self (on_view_data_table_click self) = Ok self.
Proof.
  unfold ScreenReaderSection_stored. intros S.
  repeat (apply andb_true_iff in S as [S ?]).
  unfold set_after_chart_format, set_after_chart_formatter,
    set_axis_range_date_format, set_before_chart_format,
    set_before_chart_formatter, set_on_play_as_sound_click,
    set_on_view_data_table_click.
  rewrite !chart_format_value_fixed, !string_allow_empty_fixed by assumption.
  destruct self. repeat split.
Qed.
End ScreenReaderSectionKeys.

(** A section built with an empty [after_chart_format], then assigned [0]
    as its [after_chart_formatter]. *)
Lemma ScreenReaderSection_stored_invariant_witness :
  exists self self',
    ScreenReaderSection.init (K := sample_constants)
      [("after_chart_format", VStr "")] = Ok self /\
    ScreenReaderSection.set_after_chart_formatter self (VInt 0) = Ok self' /\
    ScreenReaderSection_stored self = true /\
    ScreenReaderSection_stored self' = true.
Proof.
  eexists. eexists.
  split; [vm_compute; reflexivity|].
  split; [vm_compute; reflexivity|].
  match goal with
  | |- ScreenReaderSection_stored ?s = _ /\ ScreenReaderSection_stored ?s' = _ =>
      pose proof (@ScreenReaderSection_stored_invariant sample_constants
                    [("after_chart_format", VStr "")] s s' (VInt 0)) as [H1 H2]
  end.
  split; [apply H1; reflexivity|].
  apply H2; [apply H1; reflexivity|]. right. left. reflexivity.
Defined.

(** A dictionary with an unknown key beside a formatter. *)
Lemma ScreenReaderSection_reads_only_its_keys_witness :
  ScreenReaderSection.init (K := sample_constants)
    [("title", VInt 7); ("after_chart_formatter", VStr "f")] =
  ScreenReaderSection.init (K := sample_constants)
    [("after_chart_formatter", VStr "f")] /\
  ScreenReaderSection.from_dict (K := sample_constants)
    [("after_chart_formatter", VInt 7); ("afterChartFormatter", VStr "f")] =
  ScreenReaderSection.from_dict (K := sample_constants)
    [("afterChartFormatter", VStr "f")].
Proof.
  split.
  - apply (@ScreenReaderSection_reads_only_its_keys sample_constants).
    intros k I. simpl in I.
    repeat destruct I as [<-|I]; try reflexivity. destruct I.
  - apply (@ScreenReaderSection_reads_only_its_keys sample_constants).
    intros k I. simpl in I.
    repeat destruct I as [<-|I]; try reflexivity. destruct I.
Defined.

Lemma ScreenReaderSection_reassign_witness :
  let self := ScreenReaderSection.mk (VStr "") VNone (VStr "%Y") VNone
                                     (VStr "f") VNone VNone in
  ScreenReaderSection.set_after_chart_format self (VStr "") = Ok self /\
  ScreenReaderSection.set_before_chart_formatter self (VStr "f") = Ok self.
Proof.
  intros self.
  pose proof (ScreenReaderSection_reassign self eq_refl) as (H1 & _ & _ & _ & H5 & _).
  split; assumption.
Defined.

(** ** AnnotationPoint: what the constructor and the setters keep *)

Section AnnotationPointStored.
Context {RT : Runtime}.
Import AnnotationPoint.

Lemma numeric_stored (v r : PyVal) (m : option Z) :
  validators.numeric v true m = Ok r -> number_or_None r = true.
Proof.
  intros H. apply numeric_shape in H as [->|H]; [reflexivity|].
  unfold number_or_None. now rewrite H, orb_true_r.
Qed.

Lemma axis_value_stored (v r : PyVal) :
  axis_value v = Ok r -> axis_reference r = true.
Proof.
  unfold axis_value.
  destruct (is_None v || eq_empty_str v); [now intros [= <-]|].
  destruct (validators.integer v) as [r'|e] eqn:I; simpl.
  - intros [= <-]. apply integer_shape in I as [n [->|[-> _]]]; reflexivity.
  - destruct (is_ValueError e) eqn:V; simpl; rewrite ?V; [|discriminate].
    destruct (validators.string v false) as [r'|e'] eqn:S; simpl.
    + intros [= <-].
      destruct (string_shape _ _ _ S) as [[? _]|[-> [St T]]]; [discriminate|].
      destruct v; try discriminate. exact T.
    + destruct (is_ValueError e'); discriminate.
Qed.

Lemma AnnotationPoint_init_fields (kwargs : dict) (p : t) :
  init kwargs = Ok p ->
  validators.numeric (dict_get kwargs "x" VNone) true None = Ok (x p) /\
  axis_value (dict_get kwargs "x_axis" VNone) = Ok (x_axis p) /\
  validators.numeric (dict_get kwargs "y" VNone) true None = Ok (y p) /\
  axis_value (dict_get kwargs "y_axis" VNone) = Ok (y_axis p).
Proof.
  rewrite AnnotationPoint_init_spec.
  destruct (validators.numeric (dict_get kwargs "x" VNone) true None)
    as [a|]; [|discriminate]; cbn [bind].
  destruct (axis_value (dict_get kwargs "x_axis" VNone))
    as [b|]; [|discriminate]; cbn [bind].
  destruct (validators.numeric (dict_get kwargs "y" VNone) true None)
    as [c|]; [|discriminate]; cbn [bind].
  destruct (axis_value (dict_get kwargs "y_axis" VNone))
    as [d|]; [|discriminate]; cbn [bind].
  intros [= <-]. auto.
Qed.

(** X5. Every point the constructor builds holds [None] or a number in
    [x] and [y], and [None], an integer index or an id that is not empty
    in [x_axis] and [y_axis] (never a float, never text in [x] or [y]);
    every setter that succeeds keeps it so. *)
Theorem AnnotationPoint_stored_invariant (kwargs : dict) (p p' : t)
    (value : PyVal) :
  (init kwargs = Ok p -> AnnotationPoint_stored p = true) /\
  (AnnotationPoint_stored p = true ->
   (set_x p value = Ok p' \/ set_x_axis p value = Ok p' \/
    set_y p value = Ok p' \/ set_y_axis p value = Ok p') ->
   AnnotationPoint_stored p' = true).
Proof.
  unfold AnnotationPoint_stored. split.
  - intros H. apply AnnotationPoint_init_fields in H as (A & B & Cc & D).
    apply numeric_stored in A, Cc. apply axis_value_stored in B, D.
    now rewrite A, B, Cc, D.
  - intros S. repeat (apply andb_true_iff in S as [S ?]).
    unfold set_x, set_x_axis, set_y, set_y_axis. intros Hset.
    repeat destruct Hset as [Hset|Hset];
      match type of Hset with
      | bind ?c _ = _ => destruct c as [r|] eqn:E; cbn [bind] in Hset; [|discriminate]
      end;
      injection Hset as <-; cbn;
      first [apply numeric_stored in E | apply axis_value_stored in E];
      repeat (apply andb_true_iff; split); assumption.
Qed.

(** X6. The constructor reads [x], [x_axis], [y] and [y_axis], and
    [from_dict] reads [x], [xAxis], [y] and [yAxis]; any other key of the
    dictionary is dropped without an error. *)
Theorem AnnotationPoint_reads_only_its_keys (d d' : dict) :
  (agree_on AnnotationPoint_internal_names d d' -> init d = init d') /\
  (agree_on AnnotationPoint_external_names d d' -> from_dict d = from_dict d').
Proof.
  split; intros A.
  - rewrite !AnnotationPoint_init_spec.
    now rewrite
      (dict_get_agree _ d d' "x" _ A ltac:(in_names)),
      (dict_get_agree _ d d' "x_axis" _ A ltac:(in_names)),
      (dict_get_agree _ d d' "y" _ A ltac:(in_names)),
      (dict_get_agree _ d d' "y_axis" _ A ltac:(in_names)).
  - rewrite !AnnotationPoint_from_dict_spec.
    now rewrite
      (dict_get_agree _ d d' "x" _ A ltac:(in_names)),
      (dict_get_agree _ d d' "xAxis" _ A ltac:(in_names)),
      (dict_get_agree _ d d' "y" _ A ltac:(in_names)),
      (dict_get_agree _ d d' "yAxis" _ A ltac:(in_names)).
Qed.

(** X7. An axis given as a float that is a whole number is stored as the
    integer index, and so is text that is not empty and reads as a whole
    number: neither is stored as an id.  Empty text is stored as [None],
    whatever the runtime makes of it. *)
Theorem axis_whole_number_is_index (self : t) (s : string) (f g : float)
    (z w : Z) :
  (float_to_int f = Some z ->
   set_x_axis self (VFloat f) = Ok (mk (x self) (VInt z) (y self) (y_axis self)) /\
   set_y_axis self (VFloat f) = Ok (mk (x self) (x_axis self) (y self) (VInt z))) /\
  (String.eqb s "" = false -> float_ s = Some g -> float_to_int g = Some w ->
   set_x_axis self (VStr s) = Ok (mk (x self) (VInt w) (y self) (y_axis self)) /\
   set_y_axis self (VStr s) = Ok (mk (x self) (x_axis self) (y self) (VInt w))) /\
  set_x_axis self (VStr "") = Ok (mk (x self) VNone (y self) (y_axis self)) /\
  set_y_axis self (VStr "") = Ok (mk (x self) (x_axis self) (y self) VNone).
Proof.
  split; [|split; [|split; reflexivity]].
  - intros Z.
    assert (axis_value (VFloat f) = Ok (VInt z)) as A.
    { unfold axis_value, validators.integer. simpl. now rewrite Z. }
    unfold set_x_axis, set_y_axis. rewrite A. split; reflexivity.
  - intros E F Z.
    assert (axis_value (VStr s) = Ok (VInt w)) as A.
    { unfold axis_value, validators.integer. simpl.
      rewrite E, F. simpl. now rewrite Z. }
    unfold set_x_axis, set_y_axis. rewrite A. split; reflexivity.
Qed.

(** X8. Assigning to a field of a constructed point the value it already
    holds changes nothing and does not raise. *)
Theorem AnnotationPoint_reassign (kwargs : dict) (p : t) :
  init kwargs = Ok p ->
  set_x p (x p) = Ok p /\ set_x_axis p (x_axis p) = Ok p /\
  set_y p (y p) = Ok p /\ set_y_axis p (y_axis p) = Ok p.
Proof.
  intros H. apply AnnotationPoint_init_fields in H as (A & B & Cc & D).
  unfold set_x, set_x_axis, set_y, set_y_axis.
  rewrite (numeric_idem _ _ A), (axis_value_idem _ _ B),
          (numeric_idem _ _ Cc), (axis_value_idem _ _ D).
  destruct p. repeat split.
Qed.
End AnnotationPointStored.

Lemma AnnotationPoint_stored_invariant_witness :
  exists p p',
    AnnotationPoint.init (RT := sample_runtime)
      [("x", VStr "12"); ("x_axis", VStr "1")] = Ok p /\
    AnnotationPoint.set_y_axis (RT := sample_runtime) p (VInt 0) = Ok p' /\
    AnnotationPoint_stored p = true /\ AnnotationPoint_stored p' = true.
Proof.
  eexists. eexists.
  split; [vm_compute; reflexivity|].
  split; [vm_compute; reflexivity|].
  match goal with
  | |- AnnotationPoint_stored ?s = _ /\ AnnotationPoint_stored ?s' = _ =>
      pose proof (@AnnotationPoint_stored_invariant sample_runtime
                    [("x", VStr "12"); ("x_axis", VStr "1")] s s' (VInt 0)) as [H1 H2]
  end.
  split; [apply H1; reflexivity|].
  apply H2; [apply H1; reflexivity|]. right. right. right. reflexivity.
Defined.

Lemma AnnotationPoint_reads_only_its_keys_witness :
  AnnotationPoint.from_dict (RT := sample_runtime)
    [("x_axis", VInt 3); ("xAxis", VInt 1); ("id", VStr "p")] =
  AnnotationPoint.from_dict (RT := sample_runtime) [("xAxis", VInt 1)].
Proof.
  apply (@AnnotationPoint_reads_only_its_keys sample_runtime).
  intros k I. simpl in I.
  repeat destruct I as [<-|I]; try reflexivity. destruct I.
Defined.

(** The float [2.0], the text ['2'] and the empty text. *)
Lemma axis_whole_number_is_index_witness :
  let p := AnnotationPoint.mk VNone VNone VNone VNone in
  AnnotationPoint.set_x_axis (RT := sample_runtime) p (VFloat 2%float) =
    Ok (AnnotationPoint.mk VNone (VInt 2) VNone VNone) /\
  AnnotationPoint.set_y_axis (RT := sample_runtime) p (VStr "2") =
    Ok (AnnotationPoint.mk VNone VNone VNone (VInt 2)) /\
  AnnotationPoint.set_x_axis (RT := sample_runtime) p (VStr "") = Ok p.
Proof.
  intros p.
  pose proof (@axis_whole_number_is_index sample_runtime p "2" 2%float 2%float
                2%Z 2%Z) as (Hf & Hs & He & _).
  split; [apply Hf; reflexivity|].
  split; [apply Hs; reflexivity|].
  exact He.
Defined.

Lemma AnnotationPoint_reassign_witness :
  exists p,
    AnnotationPoint.init (RT := sample_runtime)
      [("x", VStr "12"); ("x_axis", VInt 1)] = Ok p /\
    AnnotationPoint.set_x (RT := sample_runtime) p (AnnotationPoint.x p) = Ok p.
Proof.
  eexists. split; [vm_compute; reflexivity|].
  apply (@AnnotationPoint_reassign sample_runtime
           [("x", VStr "12"); ("x_axis", VInt 1)]). reflexivity.
Defined.

(** ** BarData and WaterfallData *)

Lemma dict_lookup_remove_eq (d : dict) (k : string) :
  dict_lookup (dict_remove d k) k = None.
Proof.
  induction d as [|[k' v'] d IH]; simpl; auto.
  destruct (String.eqb k k') eqn:E; simpl; auto. now rewrite E.
Qed.

Lemma dict_without_lookup (names : list string) (d : dict) (k : string) :
  dict_lookup (dict_without d names) k =
  if existsb (String.eqb k) names then None else dict_lookup d k.
Proof.
  unfold dict_without. revert d.
  induction names as [|n names IH]; simpl; intros d; auto.
  rewrite IH. destruct (String.eqb k n) eqn:E; simpl.
  - apply String.eqb_eq in E; subst n.
    rewrite dict_lookup_remove_eq. now destruct (existsb _ names).
  - rewrite dict_lookup_remove_neq by assumption. reflexivity.
Qed.

Section BarDataStored.
Context {RT : Runtime} {K : Constants} {C : Collaborators}.
Import BarData.

Lemma check_minimum_stored (v r : PyVal) :
  is_number v = true ->
  validators.check_minimum v (Some 0%Z) = Ok r -> nonnegative_or_None r = true.
Proof.
  unfold validators.check_minimum, nonnegative_or_None. intros N.
  destruct (validators.lt_int v 0) eqn:L; [discriminate|].
  intros [= <-]. now rewrite N, L, orb_true_r.
Qed.

Lemma numeric_minimum_stored (v r : PyVal) :
  validators.numeric v true (Some 0%Z) = Ok r -> nonnegative_or_None r = true.
Proof.
  unfold validators.numeric.
  destruct v; try discriminate; try (now apply check_minimum_stored).
  - now intros [= <-].
  - destruct (float_ s); [|discriminate]. now apply check_minimum_stored.
Qed.

Lemma dash_style_value_stored (v r : PyVal) :
  dash_style_value v = Ok r ->
  one_of_or_None SUPPORTED_DASH_STYLE_VALUES r = true.
Proof.
  unfold dash_style_value.
  destruct (truthy v); simpl; [|now intros [= <-]].
  destruct (validators.string v false) as [w|]; simpl; [|discriminate].
  destruct w; try discriminate.
  destruct (existsb (String.eqb s) SUPPORTED_DASH_STYLE_VALUES) eqn:E;
    [|discriminate].
  intros [= <-]. exact E.
Qed.

Lemma BarData_init_fields (kwargs : dict) (self : t) :
  init kwargs = Ok self ->
  border_color_value (dict_get kwargs "border_color" VNone) = Ok (border_color self) /\
  validators.numeric (dict_get kwargs "border_width" VNone) true (Some 0%Z) =
    Ok (border_width self) /\
  dash_style_value (dict_get kwargs "dash_style" VNone) = Ok (dash_style self) /\
  validators.numeric (dict_get kwargs "point_width" VNone) true None =
    Ok (point_width self) /\
  CartesianData_init
    (dict_remove (dict_remove (dict_remove (dict_remove kwargs
       "border_color") "border_width") "dash_style") "point_width") =
    Ok (base self).
Proof.
  rewrite BarData_init_spec.
  destruct (border_color_value _) as [a|]; [|discriminate]; cbn [bind].
  destruct (validators.numeric _ _ (Some _)) as [b|]; [|discriminate]; cbn [bind].
  destruct (dash_style_value _) as [c|]; [|discriminate]; cbn [bind].
  destruct (validators.numeric _ _ None) as [d|]; [|discriminate]; cbn [bind].
  destruct (CartesianData_init _) as [e|]; [|discriminate]; cbn [bind].
  intros [= <-]. auto.
Qed.

(** X9. A bar point holds [None] or a number that is not negative as its
    [border_width], [None] or one of the supported names as its
    [dash_style], and [None] or a number as its [point_width]: the
    constructor establishes it, and the three setters store nothing
    else. *)
Theorem BarData_stored_invariant (kwargs : dict) (self self' : t)
    (value : PyVal) :
  (init kwargs = Ok self ->
   nonnegative_or_None (border_width self) = true /\
   one_of_or_None SUPPORTED_DASH_STYLE_VALUES (dash_style self) = true /\
   number_or_None (point_width self) = true) /\
  (set_border_width self value = Ok self' ->
   nonnegative_or_None (border_width self') = true) /\
  (set_dash_style self value = Ok self' ->
   one_of_or_None SUPPORTED_DASH_STYLE_VALUES (dash_style self') = true) /\
  (set_point_width self value = Ok self' ->
   number_or_None (point_width self') = true).
Proof.
  split; [|split; [|split]].
  - intros H. apply BarData_init_fields in H as (_ & B & D & P & _).
    split; [eapply numeric_minimum_stored; eauto|].
    split; [eapply dash_style_value_stored; eauto|].
    eapply numeric_stored; eauto.
  - unfold set_border_width.
    destruct (validators.numeric _ _ _) as [r|] eqn:E; [|discriminate].
    intros [= <-]. now apply numeric_minimum_stored in E.
  - unfold set_dash_style.
    destruct (dash_style_value _) as [r|] eqn:E; [|discriminate].
    intros [= <-]. now apply dash_style_value_stored in E.
  - unfold set_point_width.
    destruct (validators.numeric _ _ _) as [r|] eqn:E; [|discriminate].
    intros [= <-]. now apply numeric_stored in E.
Qed.

(** X10. What the constructor of a bar point hands to
    [CartesianData.__init__]: the keyword arguments without the four bar
    names, every other one as it was given. *)
Theorem BarData_init_forwards (kwargs : dict) (self : t) :
  init kwargs = Ok self ->
  CartesianData_init
    (dict_without kwargs
       ["border_color"; "border_width"; "dash_style"; "point_width"]) =
    Ok (base self) /\
  forall k,
    dict_lookup
      (dict_without kwargs
         ["border_color"; "border_width"; "dash_style"; "point_width"]) k =
    if existsb (String.eqb k)
         ["border_color"; "border_width"; "dash_style"; "point_width"]
    then None else dict_lookup kwargs k.
Proof.
  intros H. apply BarData_init_fields in H as (_ & _ & _ & _ & B).
  split; [exact B|]. intros k. apply dict_without_lookup.
Qed.

(** X11. The [border_color] setter tries its cases in a fixed order: a
    falsy value is [None]; a Gradient or Pattern instance is kept; a dict
    with ['linearGradient'] goes to the Gradient decoders whatever else it
    holds; then ['linear_gradient'], ['patternOptions'] and
    ['pattern_options'] in this order; any other dict is refused. *)
Theorem border_color_dispatch (d : dict) (value : PyVal) :
  (truthy value = false -> border_color_value value = Ok VNone) /\
  (truthy value = true -> is_Gradient_or_Pattern value = true ->
   border_color_value value = Ok value) /\
  (has_key d "linearGradient" = true ->
   border_color_value (VDict d) =
   except_ValueError (Gradient_from_json (VDict d)) (Gradient_from_dict d)) /\
  (has_key d "linearGradient" = false -> has_key d "linear_gradient" = true ->
   border_color_value (VDict d) = Gradient_init d) /\
  (has_key d "linearGradient" = false -> has_key d "linear_gradient" = false ->
   has_key d "patternOptions" = true ->
   border_color_value (VDict d) =
   except_ValueError (Pattern_from_json (VDict d)) (Pattern_from_dict d)) /\
  (has_key d "linearGradient" = false -> has_key d "linear_gradient" = false ->
   has_key d "patternOptions" = false -> has_key d "pattern_options" = true ->
   border_color_value (VDict d) = Pattern_init d) /\
  (has_key d "linearGradient" = false -> has_key d "linear_gradient" = false ->
   has_key d "patternOptions" = false -> has_key d "pattern_options" = false ->
   border_color_value (VDict d) =
   match d with [] => Ok VNone | _ => Raise HighchartsValueError end).
Proof.
  unfold border_color_value.
  split; [intros ->; reflexivity|].
  split; [intros -> ->; reflexivity|].
  simpl.
  split; [intros H1; rewrite H1; destruct d; [discriminate|reflexivity]|].
  split; [intros H1 H2; rewrite H1, H2; destruct d; [discriminate|reflexivity]|].
  split; [intros H1 H2 H3; rewrite H1, H2, H3;
          destruct d; [discriminate|reflexivity]|].
  split; [intros H1 H2 H3 H4; rewrite H1, H2, H3, H4;
          destruct d; [discriminate|reflexivity]|].
  intros H1 H2 H3 H4; rewrite H1, H2, H3, H4. now destruct d.
Qed.

(** X12. No colour text is stored by the [border_color] setter unless it
    holds one of the two camelCase key names: empty text is [None], any
    other such text raises [HighchartsValueError]. *)
Theorem border_color_refuses_text (self : t) (s : string) :
  str_contains "linearGradient" s = false ->
  str_contains "patternOptions" s = false ->
  set_border_color self (VStr s) =
  if String.eqb s ""
  then Ok (mk VNone (border_width self) (dash_style self) (point_width self)
              (base self))
  else Raise HighchartsValueError.
Proof.
  intros H1 H2. unfold set_border_color.
  rewrite border_color_text by assumption.
  now destruct (String.eqb s "").
Qed.
End BarDataStored.

Lemma BarData_stored_invariant_witness :
  exists self,
    BarData.init (RT := sample_runtime) (K := sample_constants)
      (C := sample_collaborators)
      [("border_width", VInt 2); ("dash_style", VStr "Dot"); ("x", VInt 1)] = Ok self /\
    BarData.border_width self = VInt 2 /\
    nonnegative_or_None (BarData.border_width self) = true /\
    one_of_or_None (SUPPORTED_DASH_STYLE_VALUES (Constants := sample_constants))
      (BarData.dash_style self) = true.
Proof.
  eexists. split; [vm_compute; reflexivity|]. split; [reflexivity|].
  match goal with
  | |- nonnegative_or_None (BarData.border_width ?s) = _ /\ _ =>
      pose proof (@BarData_stored_invariant sample_runtime sample_constants
                    sample_collaborators
                    [("border_width", VInt 2); ("dash_style", VStr "Dot"); ("x", VInt 1)]
                    s s VNone) as [H _]
  end.
  destruct (H eq_refl) as (H1 & H2 & _). split; assumption.
Defined.

Lemma BarData_init_forwards_witness :
  exists self,
    BarData.init (RT := sample_runtime) (K := sample_constants)
      (C := sample_collaborators)
      [("border_width", VInt 2); ("x", VInt 1)] = Ok self /\
    BarData.base self = [("_x", VInt 1); ("_y", VNone)] /\
    CartesianData_init (Collaborators := sample_collaborators)
      (dict_without [("border_width", VInt 2); ("x", VInt 1)]
         ["border_color"; "border_width"; "dash_style"; "point_width"]) =
    Ok (BarData.base self).
Proof.
  eexists. split; [vm_compute; reflexivity|]. split; [reflexivity|].
  apply (@BarData_init_forwards sample_runtime sample_constants
           sample_collaborators [("border_width", VInt 2); ("x", VInt 1)]).
  reflexivity.
Defined.

Lemma border_color_dispatch_witness :
  BarData.border_color_value (C := sample_collaborators)
    (VDict [("linear_gradient", VInt 1); ("linearGradient", VInt 2)]) =
  Ok (VObj "Gradient" [("linear_gradient", VInt 1); ("linearGradient", VInt 2)]) /\
  BarData.border_color_value (C := sample_collaborators)
    (VDict [("pattern_options", VInt 1)]) =
  Ok (VObj "Pattern" [("pattern_options", VInt 1)]).
Proof.
  pose proof (@border_color_dispatch sample_collaborators
                [("linear_gradient", VInt 1); ("linearGradient", VInt 2)] VNone)
    as (_ & _ & H & _).
  pose proof (@border_color_dispatch sample_collaborators
                [("pattern_options", VInt 1)] VNone)
    as (_ & _ & _ & _ & _ & H' & _).
  split.
  - rewrite H; reflexivity.
  - rewrite H'; reflexivity.
Defined.

Lemma border_color_refuses_text_witness :
  BarData.set_border_color (C := sample_collaborators)
    (BarData.mk VNone VNone VNone VNone []) (VStr "red") =
  Raise HighchartsValueError.
Proof.
  apply (@border_color_refuses_text sample_collaborators
           (BarData.mk VNone VNone VNone VNone []) "red"); reflexivity.
Defined.

Section WaterfallDataFacts.
Context {C : Collaborators}.
Import WaterfallData.

Lemma WaterfallData_init_spec (kwargs : dict) :
  init kwargs =
  (b <- CartesianData_init (dict_without kwargs ["is_intermediate_sum"; "is_sum"]) ;;
   Ok (mk (flag_value (dict_get kwargs "is_intermediate_sum" VNone))
          (flag_value (dict_get kwargs "is_sum" VNone)) b)).
Proof.
  unfold init, dict_pop, set_is_intermediate_sum, set_is_sum. cbn [bind].
  rewrite !dict_get_remove_neq by reflexivity. reflexivity.
Qed.

Lemma flag_value_shape (v : PyVal) : flag_or_None (flag_value v) = true.
Proof. unfold flag_value. now destruct (is_None v). Qed.

Lemma flag_value_idem (v : PyVal) : flag_value (flag_value v) = flag_value v.
Proof. unfold flag_value. destruct (is_None v); reflexivity. Qed.

(** X13. The two flags of a waterfall point never make its construction
    fail: the constructor raises exactly when [CartesianData.__init__]
    does, on the keyword arguments without the two flag names; a flag is
    held as [None] or as the truth value of what was given, and storing
    what is held again changes nothing. *)
Theorem WaterfallData_flags (kwargs : dict) (value : PyVal) :
  raises (init kwargs) =
    raises (CartesianData_init
              (dict_without kwargs ["is_intermediate_sum"; "is_sum"])) /\
  (forall self, init kwargs = Ok self ->
     is_intermediate_sum self =
       flag_value (dict_get kwargs "is_intermediate_sum" VNone) /\
     is_sum self = flag_value (dict_get kwargs "is_sum" VNone) /\
     flag_or_None (is_intermediate_sum self) = true /\
     flag_or_None (is_sum self) = true /\
     set_is_sum self (is_sum self) = Ok self /\
     set_is_intermediate_sum self (is_intermediate_sum self) = Ok self) /\
  flag_value value = (if is_None value then VNone else VBool (truthy value)).
Proof.
  rewrite WaterfallData_init_spec.
  destruct (CartesianData_init _) as [b|e]; cbn [bind raises].
  - split; [reflexivity|]. split; [|reflexivity].
    intros self [= <-]. cbn. unfold set_is_sum, set_is_intermediate_sum. cbn.
    rewrite !flag_value_shape, !flag_value_idem. repeat split.
  - split; [reflexivity|]. split; [discriminate|reflexivity].
Qed.
End WaterfallDataFacts.

(** ** The tables of keyword arguments *)

Lemma pop_entries_keys_from (table : list (string * string * PyVal))
    (as_dict kwargs : dict) :
  NoDup (dict_keys kwargs ++ internal_names table)%list ->
  dict_keys (pop_entries table as_dict kwargs) =
  (dict_keys kwargs ++ internal_names table)%list.
Proof.
  revert as_dict kwargs.
  induction table as [|[[i e] d] table IH]; simpl; intros as_dict kwargs ND.
  - now rewrite app_nil_r.
  - assert (dict_keys (dict_set kwargs i (dict_get as_dict e d)) =
            (dict_keys kwargs ++ [i])%list) as E.
    { rewrite dict_keys_set. unfold has_key.
      destruct (dict_lookup kwargs i) eqn:L; auto.
      apply dict_lookup_In in L.
      apply NoDup_remove_2 in ND. exfalso. apply ND.
      apply in_or_app. left. change i with (fst (i, p)). now apply in_map. }
    rewrite IH; rewrite E, <- app_assoc; auto.
Qed.

Lemma decodes_by_table (table : list (string * string * PyVal)) :
  nodupb (internal_names table) = true ->
  nodupb (external_names table) = true ->
  decodes_by (fun as_dict => pop_entries table as_dict []) table.
Proof.
  intros Hi He as_dict. split.
  - apply (pop_entries_keys_from table as_dict []). simpl. now apply nodupb_sound.
  - intros i e d. now apply pop_entries_lookup.
Qed.

(** X14. The decoders of the four point classes of [series/data/bar.py]
    build exactly the keyword names of their displays, each from its
    external key or [None]; no name is read or written twice, and a key
    the display does not name is dropped. *)
Theorem data_point_kwargs_decode :
  decodes_by BarData_get_kwargs_from_dict BarData_kwargs_table /\
  decodes_by WaterfallData_get_kwargs_from_dict WaterfallData_kwargs_table /\
  decodes_by WindBarbData._get_kwargs_from_dict WindBarbData.kwargs_table /\
  decodes_by XRangeData_get_kwargs_from_dict XRangeData_kwargs_table.
Proof.
  repeat split; apply decodes_by_table; vm_compute; reflexivity.
Qed.

(** X15. Likewise the decoders of the series classes of [series/bar.py]. *)
Theorem bar_series_kwargs_decode :
  decodes_by BaseBarSeries_get_kwargs_from_dict BaseBarSeries_kwargs_table /\
  decodes_by WaterfallSeries_get_kwargs_from_dict WaterfallSeries_kwargs_table /\
  decodes_by WindBarbSeries_get_kwargs_from_dict WindBarbSeries_kwargs_table /\
  decodes_by XRangeSeries_get_kwargs_from_dict XRangeSeries_kwargs_table.
Proof.
  repeat split; apply decodes_by_table; vm_compute; reflexivity.
Qed.

(** X16. Likewise the decoder of [DependencyWheelSeries], whose every
    default is [None]. *)
Theorem dependency_wheel_kwargs_decode :
  decodes_by DependencyWheelSeries_get_kwargs_from_dict
             DependencyWheelSeries_kwargs_table /\
  forall i e d, In (i, e, d) DependencyWheelSeries_kwargs_table -> d = VNone.
Proof.
  split; [apply decodes_by_table; vm_compute; reflexivity|].
  intros i e d I. cbv [DependencyWheelSeries_kwargs_table] in I.
  repeat (destruct I as [[= <- <- <-]|I]; [reflexivity|]). destruct I.
Qed.

Lemma same_on_incl (table sub : list (string * string * PyVal))
    (sup : list (string * string * PyVal)) :
  table = sub ->
  nodupb (internal_names sub) = true -> nodupb (external_names sub) = true ->
  nodupb (internal_names sup) = true -> nodupb (external_names sup) = true ->
  incl sub sup ->
  same_on table (fun as_dict => pop_entries sub as_dict [])
                (fun as_dict => pop_entries sup as_dict []).
Proof.
  intros -> H1 H2 H3 H4 I as_dict i e d M.
  rewrite (pop_entries_lookup sub as_dict i e d) by assumption.
  rewrite (pop_entries_lookup sup as_dict i e d); auto.
Qed.

Lemma incl_found_in (sub sup : list (string * string * PyVal)) :
  map (found_in sup) sub = map Some sub -> incl sub sup.
Proof.
  induction sub as [|x sub IH]; simpl; intros H a I; [destruct I|].
  injection H as Hx H. destruct I as [<-|I]; [|now apply IH].
  unfold found_in in Hx. now apply nth_error_In in Hx.
Qed.

(** X17. A series class decodes every option of the class it extends as
    that class does: [BarSeries] agrees with [BaseBarSeries] on all its
    names, [WaterfallSeries] with [BarSeries], and [XRangeSeries] with
    [BaseBarSeries], whatever the dictionary. *)
Theorem series_decoders_extend :
  same_on BaseBarSeries_kwargs_table
    BaseBarSeries_get_kwargs_from_dict BarSeries._get_kwargs_from_dict /\
  same_on BarSeries.kwargs_table
    BarSeries._get_kwargs_from_dict WaterfallSeries_get_kwargs_from_dict /\
  same_on BaseBarSeries_kwargs_table
    BaseBarSeries_get_kwargs_from_dict XRangeSeries_get_kwargs_from_dict.
Proof.
  split; [|split]; apply same_on_incl;
    try reflexivity; try (vm_compute; reflexivity);
    apply incl_found_in; vm_compute; reflexivity.
Qed.

Lemma camel_named_spec (table : list (string * string * PyVal)) :
  camel_named table = true ->
  forall i e d, In (i, e, d) table -> snake_to_camel i = e.
Proof.
  unfold camel_named. intros H i e d I.
  rewrite forallb_forall in H. apply H in I. now apply String.eqb_eq in I.
Qed.

(** X18. In every series decoder the external key of an option is the
    camelCase form of its keyword name; in the point decoders too, but
    for [label_rank], which is read from ['labelrank']. *)
Theorem external_names_are_camel_case (i e : string) (d : PyVal) :
  (In (i, e, d)
      (BaseBarSeries_kwargs_table ++ BarSeries.kwargs_table ++
       WaterfallSeries_kwargs_table ++ WindBarbSeries_kwargs_table ++
       XRangeSeries_kwargs_table ++ DependencyWheelSeries_kwargs_table)%list ->
   snake_to_camel i = e) /\
  (In (i, e, d)
      (BarData_kwargs_table ++ WaterfallData_kwargs_table ++
       WindBarbData.kwargs_table ++ XRangeData_kwargs_table)%list ->
   (i = "label_rank" /\ e = "labelrank") \/
   (i <> "label_rank" /\ snake_to_camel i = e)).
Proof.
  split.
  - apply camel_named_spec. vm_compute. reflexivity.
  - intros I.
    assert (forallb
              (fun x => (String.eqb (fst (fst x)) "label_rank" &&
                         String.eqb (snd (fst x)) "labelrank") ||
                        (negb (String.eqb (fst (fst x)) "label_rank") &&
                         String.eqb (snake_to_camel (fst (fst x))) (snd (fst x))))
              (BarData_kwargs_table ++ WaterfallData_kwargs_table ++
               WindBarbData.kwargs_table ++ XRangeData_kwargs_table)%list = true)
      as H by (vm_compute; reflexivity).
    rewrite forallb_forall in H. apply H in I. simpl in I.
    apply orb_true_iff in I as [I|I]; apply andb_true_iff in I as [I1 I2].
    + left. split; now apply String.eqb_eq.
    + right. split; [|now apply String.eqb_eq].
      apply negb_true_iff in I1. now apply String.eqb_neq.
Qed.

Lemma WaterfallData_flags_witness :
  exists self,
    WaterfallData.init (C := sample_collaborators)
      [("is_sum", VInt 1); ("is_intermediate_sum", VStr ""); ("x", VInt 3)] = Ok self /\
    WaterfallData.is_sum self = VBool true /\
    WaterfallData.is_intermediate_sum self = VBool false.
Proof.
  eexists. split; [vm_compute; reflexivity|].
  pose proof (@WaterfallData_flags sample_collaborators
                [("is_sum", VInt 1); ("is_intermediate_sum", VStr ""); ("x", VInt 3)]
                VNone) as (_ & H & _).
  destruct (H _ eq_refl) as (H1 & H2 & _).
  split; [exact (eq_trans H2 eq_refl) | exact (eq_trans H1 eq_refl)].
Defined.

Lemma external_names_are_camel_case_witness :
  snake_to_camel "skip_keyboard_navigation" = "skipKeyboardNavigation".
Proof.
  apply (external_names_are_camel_case
           "skip_keyboard_navigation" "skipKeyboardNavigation" VNone).
  apply in_or_app. right. apply in_or_app. left. in_table.
Defined.

(** ** Collections of points *)

Lemma collect_first_error (body : PyVal -> result PyVal) (items : list PyVal)
    (e : exn) :
  collect body items = Raise e <->
  exists n item,
    nth_error items n = Some item /\ body item = Raise e /\
    forall m earlier, (m < n)%nat -> nth_error items m = Some earlier ->
                      raises (body earlier) = false.
Proof.
  revert e. induction items as [|i items IH]; intros e; simpl.
  - split; [discriminate|]. intros (n & item & H & _). destruct n; discriminate.
  - destruct (body i) as [o|e0] eqn:B; simpl.
    + destruct (collect body items) as [rest|e1] eqn:Cc; simpl.
      * split; [discriminate|].
        intros (n & item & H & R & E). destruct n as [|n]; simpl in H.
        -- injection H as <-. congruence.
        -- assert (Ok rest = Raise e) as X; [|discriminate X].
           apply IH. exists n, item. repeat split; auto.
           intros m earlier L N. apply (E (S m) earlier); [lia|exact N].
      * split.
        -- intros [= <-]. destruct (proj1 (IH e1) eq_refl) as (n & item & H & R & E).
           exists (S n), item. repeat split; auto.
           intros [|m] earlier L N; simpl in N.
           ++ injection N as <-. now rewrite B.
           ++ apply (E m earlier); [lia|exact N].
        -- intros (n & item & H & R & E). destruct n as [|n]; simpl in H.
           ++ injection H as <-. congruence.
           ++ f_equal. assert (Raise e1 = @Raise (list PyVal) e) as X; [|congruence].
              apply IH. exists n, item. repeat split; auto.
              intros m earlier L N. apply (E (S m) earlier); [lia|exact N].
    + split.
      * intros [= <-]. exists 0%nat, i. repeat split; auto.
        intros m earlier L. lia.
      * intros (n & item & H & R & E). destruct n as [|n]; simpl in H.
        -- injection H as <-. congruence.
        -- specialize (E 0%nat i ltac:(lia) eq_refl). rewrite B in E. discriminate.
Qed.

Lemma collect_instances (body : PyVal -> result PyVal) (items : list PyVal) :
  Forall (fun item => body item = Ok item) items -> collect body items = Ok items.
Proof.
  induction 1 as [|i items H _ IH]; simpl; auto. now rewrite H, IH.
Qed.

Section Collections.
Context {RT : Runtime} {C : Collaborators}.

(** X19. [from_setter] keeps the slots: the list it returns has one object
    per member, the n-th object is what the n-th member is coerced to,
    and a member that is an instance of the class is the object itself. *)
Theorem from_setter_keeps_slots (items out : list PyVal) (n : nat)
    (item : PyVal) :
  nth_error items n = Some item ->
  (WindBarbData.from_setter (VList items) = Ok out ->
   List.length out = List.length items /\
   exists as_obj, nth_error out n = Some as_obj /\
     WindBarbData.coerce item = Ok as_obj /\
     (checkers.is_type item "WindBarbData" = true -> as_obj = item)) /\
  (XRangeData.from_setter (VList items) = Ok out ->
   List.length out = List.length items /\
   exists as_obj, nth_error out n = Some as_obj /\
     XRangeData.coerce item = Ok as_obj /\
     (checkers.is_type item "XRangeData" = true -> as_obj = item)).
Proof.
  intros N. unfold WindBarbData.from_setter, XRangeData.from_setter.
  rewrite !from_setter_with_list. split; intros H.
  - split; [now apply collect_length in H|].
    destruct (collect_nth _ _ _ _ _ H N) as (o & B & O).
    exists o. repeat split; auto.
    intros T. unfold WindBarbData.coerce in B. rewrite T in B. congruence.
  - split; [now apply collect_length in H|].
    destruct (collect_nth _ _ _ _ _ H N) as (o & B & O).
    exists o. repeat split; auto.
    intros T. unfold XRangeData.coerce in B. rewrite T in B. congruence.
Qed.

(** X20. [from_setter] raises what the first member that cannot be coerced
    raises; no list is returned then. *)
Theorem from_setter_first_error (items : list PyVal) (e : exn) :
  (WindBarbData.from_setter (VList items) = Raise e <->
   exists n item,
     nth_error items n = Some item /\ WindBarbData.coerce item = Raise e /\
     forall m earlier, (m < n)%nat -> nth_error items m = Some earlier ->
                       raises (WindBarbData.coerce earlier) = false) /\
  (XRangeData.from_setter (VList items) = Raise e <->
   exists n item,
     nth_error items n = Some item /\ XRangeData.coerce item = Raise e /\
     forall m earlier, (m < n)%nat -> nth_error items m = Some earlier ->
                       raises (XRangeData.coerce earlier) = false).
Proof.
  unfold WindBarbData.from_setter, XRangeData.from_setter.
  rewrite !from_setter_with_list. split; apply collect_first_error.
Qed.

Lemma collect_first_raises (body : PyVal -> result PyVal) (item : PyVal)
    (items : list PyVal) (e : exn) :
  body item = Raise e -> collect body (item :: items) = Raise e.
Proof. intros H. simpl. now rewrite H. Qed.

(** X21. What is given in place of a list: a falsy value gives the empty
    list; a truthy value that cannot be iterated is taken as the only
    member, so a bare number is refused; a dict is iterated over its
    keys, so a lone dict is refused instead of being read as one point;
    and [XRangeData] takes no member that is a sequence. *)
Theorem from_setter_of_non_list (value : PyVal) (d : dict) (z : Z)
    (l : list PyVal) :
  (truthy value = false ->
   WindBarbData.from_setter value = Ok [] /\ XRangeData.from_setter value = Ok []) /\
  (truthy value = true -> checkers.is_iterable value = false ->
   WindBarbData.from_setter value =
     (as_obj <- WindBarbData.coerce value ;; Ok [as_obj]) /\
   XRangeData.from_setter value =
     (as_obj <- XRangeData.coerce value ;; Ok [as_obj])) /\
  (z <> 0%Z ->
   WindBarbData.from_setter (VInt z) = Raise HighchartsValueError /\
   XRangeData.from_setter (VInt z) = Raise HighchartsValueError) /\
  (d <> [] -> (forall k, In k (dict_keys d) -> json_dict k = false) ->
   WindBarbData.from_setter (VDict d) = Raise HighchartsValueError /\
   XRangeData.from_setter (VDict d) = Raise HighchartsValueError) /\
  XRangeData.coerce (VList l) = Raise HighchartsValueError.
Proof.
  unfold WindBarbData.from_setter, XRangeData.from_setter, from_setter_with.
  split; [intros ->; auto|].
  split.
  { intros -> ->. cbn [negb collect].
    destruct (WindBarbData.coerce value), (XRangeData.coerce value); auto. }
  split.
  { intros N. cbn. destruct (Z.eqb z 0) eqn:E; [apply Z.eqb_eq in E; contradiction|].
    auto. }
  split; [|reflexivity].
  intros N J. destruct d as [|[k v] d]; [contradiction|]. cbn [truthy negb iterate
    checkers.is_iterable dict_keys map fst].
  assert (json_dict k = false) as Jk by (apply J; now left).
  split; apply collect_first_raises.
  - unfold WindBarbData.coerce. cbn. now rewrite Jk.
  - unfold XRangeData.coerce. cbn. now rewrite Jk.
Qed.

Lemma WindBarbData_init_fields (kwargs : dict) (obj : PyVal) :
  WindBarbData.init kwargs = Ok obj ->
  exists direction value b,
    obj = VObj "WindBarbData" (("_direction", direction) :: ("_value", value) :: b) /\
    validators.numeric (dict_get kwargs "direction" VNone) true None = Ok direction /\
    validators.numeric (dict_get kwargs "value" VNone) true None = Ok value /\
    CartesianData_init (dict_without kwargs ["direction"; "value"]) = Ok b.
Proof.
  rewrite WindBarbData_init_spec.
  destruct (validators.numeric (dict_get kwargs "direction" VNone) true None)
    as [a|] eqn:A; [|discriminate]; cbn [bind].
  destruct (validators.numeric (dict_get kwargs "value" VNone) true None)
    as [b|] eqn:B; [|discriminate]; cbn [bind].
  destruct (CartesianData_init _) as [c|] eqn:E; [|discriminate]; cbn [bind].
  intros [= <-]. exists a, b, c. auto.
Qed.

(** X22. A wind barb point the constructor builds is an instance of the
    class holding [None] or a number as its [direction] and its [value],
    with the other keyword arguments handed to [CartesianData.__init__];
    [from_setter] and the [data] setter of the series keep a list of such
    points as it is. *)
Theorem WindBarbData_points_pass_through (kwargs : dict) (obj : PyVal)
    (items : list PyVal) :
  WindBarbData.init kwargs = Ok obj ->
  Forall (fun item => checkers.is_type item "WindBarbData" = true) items ->
  (exists direction value b,
     obj = VObj "WindBarbData"
             (("_direction", direction) :: ("_value", value) :: b) /\
     number_or_None direction = true /\ number_or_None value = true /\
     CartesianData_init (dict_without kwargs ["direction"; "value"]) = Ok b) /\
  WindBarbData.from_setter (VList (obj :: items)) = Ok (obj :: items) /\
  WindBarbSeries.set_data (VList (obj :: items)) = Ok (VList (obj :: items)).
Proof.
  intros H F. apply WindBarbData_init_fields in H as (a & b & c & -> & A & B & E).
  split.
  { exists a, b, c. repeat split; eauto using numeric_stored. }
  assert (WindBarbData.from_setter
            (VList (VObj "WindBarbData" (("_direction", a) :: ("_value", b) :: c)
                    :: items)) =
          Ok (VObj "WindBarbData" (("_direction", a) :: ("_value", b) :: c) :: items))
    as S.
  { unfold WindBarbData.from_setter. rewrite from_setter_with_list.
    apply collect_instances. constructor; [reflexivity|].
    eapply Forall_impl; [|exact F].
    intros item T. unfold WindBarbData.coerce. now rewrite T. }
  split; [exact S|].
  unfold WindBarbSeries.set_data. cbn [truthy negb]. now rewrite S.
Qed.

(** X23. [XRangeData.from_setter] and the [data] setter of [XRangeSeries]
    keep a list of [XRangeData] instances as it is. *)
Theorem XRangeData_points_pass_through (item : PyVal) (items : list PyVal) :
  Forall (fun item => checkers.is_type item "XRangeData" = true) (item :: items) ->
  XRangeData.from_setter (VList (item :: items)) = Ok (item :: items) /\
  XRangeSeries.set_data (VList (item :: items)) = Ok (VList (item :: items)).
Proof.
  intros F.
  assert (XRangeData.from_setter (VList (item :: items)) = Ok (item :: items)) as S.
  { unfold XRangeData.from_setter. rewrite from_setter_with_list.
    apply collect_instances. eapply Forall_impl; [|exact F].
    intros i T. unfold XRangeData.coerce. now rewrite T. }
  split; [exact S|].
  unfold XRangeSeries.set_data. cbn [truthy negb]. now rewrite S.
Qed.
End Collections.

(** A list of a length-3 member and an instance. *)
Lemma from_setter_keeps_slots_witness :
  let point := VObj "WindBarbData" [("_direction", VInt 90); ("_value", VInt 5)] in
  exists out,
    WindBarbData.from_setter (RT := sample_runtime) (C := sample_collaborators)
      (VList [VList [VInt 1; VInt 7; VInt 180]; point]) = Ok out /\
    nth_error out 1 = Some point.
Proof.
  intros point. eexists. split; [vm_compute; reflexivity|].
  match goal with
  | |- nth_error ?o 1 = _ =>
      destruct (@from_setter_keeps_slots sample_runtime sample_collaborators
                  [VList [VInt 1; VInt 7; VInt 180]; point] o 1 point eq_refl)
        as [H _]
  end.
  destruct (H eq_refl) as (_ & as_obj & N & _ & I).
  rewrite N. f_equal. apply I. reflexivity.
Defined.

(** A bare number and a lone dict. *)
Lemma from_setter_of_non_list_witness :
  WindBarbData.from_setter (RT := sample_runtime) (C := sample_collaborators)
    (VInt 5) = Raise HighchartsValueError /\
  XRangeData.from_setter (RT := sample_runtime) (C := sample_collaborators)
    (VDict [("x", VInt 1); ("x2", VInt 2)]) = Raise HighchartsValueError.
Proof.
  pose proof (@from_setter_of_non_list sample_runtime sample_collaborators
                VNone [("x", VInt 1); ("x2", VInt 2)] 5%Z [])
    as (_ & _ & H & H' & _).
  split.
  - apply H. discriminate.
  - apply H'; [discriminate|]. intros k _. reflexivity.
Defined.

Lemma WindBarbData_points_pass_through_witness :
  exists obj,
    WindBarbData.init (RT := sample_runtime) (C := sample_collaborators)
      [("direction", VStr "90"); ("value", VInt 5); ("x", VInt 0)] = Ok obj /\
    WindBarbSeries.set_data (RT := sample_runtime) (C := sample_collaborators)
      (VList [obj]) = Ok (VList [obj]).
Proof.
  eexists. split; [vm_compute; reflexivity|].
  apply (@WindBarbData_points_pass_through sample_runtime sample_collaborators
           [("direction", VStr "90"); ("value", VInt 5); ("x", VInt 0)]);
    [reflexivity|constructor].
Defined.

Lemma XRangeData_points_pass_through_witness :
  XRangeSeries.set_data (RT := sample_runtime) (C := sample_collaborators)
    (VList [VObj "XRangeData" [("_x", VInt 0); ("_x2", VInt 4)]]) =
  Ok (VList [VObj "XRangeData" [("_x", VInt 0); ("_x2", VInt 4)]]).
Proof.
  apply (@XRangeData_points_pass_through sample_runtime sample_collaborators).
  repeat constructor.
Defined.

(** * Decoding, and the attributes that hold None *)

(** ** Decoding an external dictionary *)

Section Decoding.
Context {K : Constants}.
Import ScreenReaderSection.

(** [from_dict] in closed form. *)
Lemma ScreenReaderSection_from_dict_closed (as_dict : dict) :
  from_dict as_dict =
  if forallb text_or_empty
       (external_values ScreenReaderSection_kwargs_table as_dict)
  then
    Ok (mk (chart_format_stored
              (dict_get as_dict "afterChartFormat" (VStr DEFAULT_AFTER_CHART_FORMAT)))
           (text_stored (dict_get as_dict "afterChartFormatter" VNone))
           (text_stored
              (dict_get as_dict "axisRangeDateFormat"
                        (VStr DEFAULT_AXIS_RANGE_DATE_FORMAT)))
           (chart_format_stored
              (dict_get as_dict "beforeChartFormat" (VStr DEFAULT_BEFORE_CHART_FORMAT)))
           (text_stored (dict_get as_dict "beforeChartFormatter" VNone))
           (text_stored (dict_get as_dict "onPlayAsSoundClick" VNone))
           (text_stored (dict_get as_dict "onViewDataTableClick" VNone)))
  else Raise CannotCoerceError.
Proof.
  rewrite ScreenReaderSection_from_dict_spec, ScreenReaderSection_init_literal.
  rewrite !string_allow_empty_closed, !chart_format_value_closed.
  unfold external_values, ScreenReaderSection_kwargs_table. cbn [map fst snd forallb].
  repeat match goal with
  | |- context [text_or_empty ?v] => destruct (text_or_empty v); cbn [bind andb]
  end; reflexivity.
Qed.

(** [from_dict] is the constructor on the renamed keys. *)
Lemma ScreenReaderSection_from_dict_renames (as_dict kwargs : dict) :
  renamed_by ScreenReaderSection_kwargs_table as_dict kwargs ->
  from_dict as_dict = init kwargs.
Proof.
  intros R.
  rewrite ScreenReaderSection_from_dict_spec, ScreenReaderSection_init_literal,
    ScreenReaderSection_init_spec.
  now rewrite
    (R "after_chart_format" "afterChartFormat" _ ltac:(in_names)),
    (R "after_chart_formatter" "afterChartFormatter" _ ltac:(in_names)),
    (R "axis_range_date_format" "axisRangeDateFormat" _ ltac:(in_names)),
    (R "before_chart_format" "beforeChartFormat" _ ltac:(in_names)),
    (R "before_chart_formatter" "beforeChartFormatter" _ ltac:(in_names)),
    (R "on_play_as_sound_click" "onPlayAsSoundClick" _ ltac:(in_names)),
    (R "on_view_data_table_click" "onViewDataTableClick" _ ltac:(in_names)).
Qed.

Lemma chart_format_stored_text (s : string) :
  chart_format_stored (VStr s) = VStr s.
Proof.
  unfold chart_format_stored. simpl.
  destruct (String.eqb s "") eqn:E; simpl; auto.
  apply String.eqb_eq in E. now subst.
Qed.

(** C8, as the code has it.  Decoding an external dictionary renames each
    known camelCase key to its snake_case name and takes the schema
    default for an absent key.  [BarSeries._get_kwargs_from_dict] builds
    exactly the keyword names of its display, each from its external key
    or its default (['#ffffff'] for [borderColor], [0] for
    [borderRadius], [True] for [grouping]).
    [ScreenReaderSection.from_dict] is the constructor called on any
    keyword arguments that hold under each snake_case name what the
    dictionary holds under its camelCase key, the default standing in for
    an absent key; it raises [CannotCoerceError] exactly when one of the
    seven values it reads is neither text nor falsy, and otherwise yields
    the entity whose fields are these values normalised; so on a
    dictionary without ['afterChartFormat'] it either raises or yields an
    entity whose [after_chart_format] is [DEFAULT_AFTER_CHART_FORMAT]. *)
Theorem from_dict_renames_and_defaults (as_dict : dict) :
  (dict_keys (BarSeries._get_kwargs_from_dict as_dict) =
     internal_names BarSeries.kwargs_table /\
   forall i e d, In (i, e, d) BarSeries.kwargs_table ->
     dict_lookup (BarSeries._get_kwargs_from_dict as_dict) i =
     Some (dict_get as_dict e d)) /\
  (dict_lookup as_dict "borderColor" = None ->
     dict_lookup (BarSeries._get_kwargs_from_dict as_dict) "border_color" =
     Some (VStr "#ffffff")) /\
  (dict_lookup as_dict "borderRadius" = None ->
     dict_lookup (BarSeries._get_kwargs_from_dict as_dict) "border_radius" =
     Some (VInt 0)) /\
  (dict_lookup as_dict "grouping" = None ->
     dict_lookup (BarSeries._get_kwargs_from_dict as_dict) "grouping" =
     Some (VBool true)) /\
  (forall kwargs,
     renamed_by ScreenReaderSection_kwargs_table as_dict kwargs ->
     from_dict as_dict = init kwargs) /\
  from_dict as_dict =
    (if forallb text_or_empty
          (external_values ScreenReaderSection_kwargs_table as_dict)
     then
       Ok (mk (chart_format_stored
                 (dict_get as_dict "afterChartFormat"
                           (VStr DEFAULT_AFTER_CHART_FORMAT)))
              (text_stored (dict_get as_dict "afterChartFormatter" VNone))
              (text_stored
                 (dict_get as_dict "axisRangeDateFormat"
                           (VStr DEFAULT_AXIS_RANGE_DATE_FORMAT)))
              (chart_format_stored
                 (dict_get as_dict "beforeChartFormat"
                           (VStr DEFAULT_BEFORE_CHART_FORMAT)))
              (text_stored (dict_get as_dict "beforeChartFormatter" VNone))
              (text_stored (dict_get as_dict "onPlayAsSoundClick" VNone))
              (text_stored (dict_get as_dict "onViewDataTableClick" VNone)))
     else Raise CannotCoerceError) /\
  (dict_lookup as_dict "afterChartFormat" = None ->
     if forallb text_or_empty
          (external_values ScreenReaderSection_kwargs_table as_dict)
     then exists self, from_dict as_dict = Ok self /\
            after_chart_format self = VStr DEFAULT_AFTER_CHART_FORMAT
     else from_dict as_dict = Raise CannotCoerceError).
Proof.
  assert (nodupb (internal_names BarSeries.kwargs_table) = true) as Ni
    by (vm_compute; reflexivity).
  assert (nodupb (external_names BarSeries.kwargs_table) = true) as Ne
    by (vm_compute; reflexivity).
  split; [exact (decodes_by_table BarSeries.kwargs_table Ni Ne as_dict)|].
  clear Ni Ne.
  split; [intros H|].
  { rewrite (BarSeries_kwargs as_dict "border_color" "borderColor" (VStr "#ffffff"))
      by in_table.
    unfold dict_get. now rewrite H. }
  split; [intros H|].
  { rewrite (BarSeries_kwargs as_dict "border_radius" "borderRadius" (VInt 0))
      by in_table.
    unfold dict_get. now rewrite H. }
  split; [intros H|].
  { rewrite (BarSeries_kwargs as_dict "grouping" "grouping" (VBool true))
      by in_table.
    unfold dict_get. now rewrite H. }
  split; [intros kwargs; apply ScreenReaderSection_from_dict_renames|].
  split; [apply ScreenReaderSection_from_dict_closed|].
  intros H. rewrite ScreenReaderSection_from_dict_closed.
  destruct (forallb text_or_empty _); [|reflexivity].
  eexists. split; [reflexivity|].
  cbn [after_chart_format]. unfold dict_get. rewrite H.
  apply chart_format_stored_text.
Qed.
End Decoding.

(** A dictionary with a formatter, an empty format and a key that no
    class reads. *)
Lemma from_dict_renames_and_defaults_witness :
  let as_dict := [("afterChartFormatter", VStr "function () {}");
                  ("beforeChartFormat", VStr ""); ("title", VInt 3)] in
  dict_lookup (BarSeries._get_kwargs_from_dict as_dict) "border_color" =
    Some (VStr "#ffffff") /\
  ScreenReaderSection.from_dict (K := sample_constants) as_dict =
    Ok (ScreenReaderSection.mk (VStr "{endOfChartMarker}") (VStr "function () {}")
          (VStr "%Y-%m-%d %H:%M:%S") (VStr "") VNone VNone VNone) /\
  ScreenReaderSection.from_dict (K := sample_constants) as_dict =
    ScreenReaderSection.init (K := sample_constants)
      [("before_chart_format", VStr "");
       ("after_chart_formatter", VStr "function () {}")] /\
  exists self,
    ScreenReaderSection.from_dict (K := sample_constants) as_dict = Ok self /\
    ScreenReaderSection.after_chart_format self = VStr "{endOfChartMarker}".
Proof.
  intros as_dict.
  pose proof (@from_dict_renames_and_defaults sample_constants as_dict)
    as (_ & Hb & _ & _ & Hr & Hc & Hd).
  split; [apply Hb; reflexivity|].
  split; [exact (eq_trans Hc eq_refl)|].
  split.
  - apply Hr. intros i e d I. simpl in I.
    repeat (destruct I as [[= <- <- <-]|I]; [reflexivity|]). destruct I.
  - exact (Hd eq_refl).
Defined.

(** C8, as the claim has it, fails: a dictionary without
    ['afterChartFormat'] whose formatter is a number yields no entity. *)
Lemma from_dict_without_afterChartFormat_raises :
  dict_lookup [("afterChartFormatter", VInt 5)] "afterChartFormat" = None /\
  ScreenReaderSection.from_dict (K := sample_constants)
    [("afterChartFormatter", VInt 5)] = Raise CannotCoerceError.
Proof. split; vm_compute; reflexivity. Qed.

(** ** None and the untouched attribute *)

Lemma dict_update_lookup_absent (src dst : dict) (k : string) :
  dict_lookup src k = None ->
  dict_lookup (dict_update dst src) k = dict_lookup dst k.
Proof.
  unfold dict_update. revert dst.
  induction src as [|[k1 v1] src IH]; simpl; intros dst H; auto.
  destruct (String.eqb k k1) eqn:E; [discriminate|].
  rewrite IH by assumption. now apply dict_lookup_set_neq.
Qed.

Lemma trim_dict_lookup_not_None (d : dict) (k : string) (v : PyVal) :
  dict_lookup (HighchartsMeta.trim_dict d) k = Some v -> is_None v = false.
Proof.
  intros H. apply dict_lookup_In in H. eapply trim_dict_not_None; eauto.
Qed.

Lemma keep_Some (v : PyVal) :
  keep (Some v) = if is_None v then None else Some v.
Proof. reflexivity. Qed.

Ltac bind_cases H :=
  repeat match type of H with
  | context [bind ?c _] =>
      lazymatch c with
      | bind _ _ => fail
      | _ => destruct c eqn:?; cbn [bind] in H; [|discriminate H]
      end
  end.

(** What [H] says once the value read is [None] by [L]. *)
Ltac read_None H L :=
  rewrite L in H;
  match type of H with
  | ?l = Ok _ => let l' := eval cbv in l in change l with l' in H
  end;
  congruence.

Section Unset.
Context {RT : Runtime} {K : Constants} {C : Collaborators}.

Lemma WaterfallData_untrimmed_NoDup (self : WaterfallData.t) :
  NoDup (dict_keys (WaterfallData.untrimmed self)).
Proof.
  unfold WaterfallData.untrimmed. apply dict_update_NoDup.
  apply dict_literal_NoDup.
Qed.

Lemma BarData_to_dict_own (self : BarData.t) (k : string) :
  dict_lookup (BarData.parent_as_dict self) k = None ->
  dict_lookup (BarData.to_dict self) k =
  keep (dict_lookup (BarData.own_untrimmed self) k).
Proof.
  intros H. unfold BarData.to_dict.
  rewrite trim_dict_lookup by apply BarData_untrimmed_NoDup.
  unfold BarData.untrimmed. now rewrite dict_update_lookup_absent.
Qed.

Lemma WaterfallData_to_dict_own (self : WaterfallData.t) (k : string) :
  dict_lookup (WaterfallData.parent_as_dict self) k = None ->
  dict_lookup (WaterfallData.to_dict self) k =
  keep (dict_lookup (WaterfallData.own_untrimmed self) k).
Proof.
  intros H. unfold WaterfallData.to_dict.
  rewrite trim_dict_lookup by apply WaterfallData_untrimmed_NoDup.
  unfold WaterfallData.untrimmed. now rewrite dict_update_lookup_absent.
Qed.

Lemma BarData_None_is_unset (a : attribute BarData.t) :
  In a BarData_attributes -> None_is_unset BarData.init BarData.to_dict a.
Proof.
  intros I.
  assert (forall kwargs self,
            BarData.init kwargs = Ok self ->
            dict_lookup kwargs (keyword a) = None -> fget a self = VNone) as U.
  { intros kwargs self H L.
    apply BarData_init_fields in H as (H1 & H2 & H3 & H4 & _).
    unfold dict_get in H1, H2, H3, H4.
    simpl in I. repeat destruct I as [<-|I]; try destruct I; simpl in L |- *;
      first [read_None H1 L | read_None H2 L | read_None H3 L | read_None H4 L]. }
  split; [exact U|]. split.
  - intros self. simpl in I.
    repeat destruct I as [<-|I]; try destruct I; eexists; split; reflexivity.
  - intros kwargs self self' H L S. specialize (U kwargs self H L).
    assert (self' = self) as ->; [|auto].
    simpl in I. repeat destruct I as [<-|I]; try destruct I;
      simpl in U, S; injection S as <-; destruct self; simpl in *; now subst.
Qed.

Lemma WaterfallData_None_is_unset (a : attribute WaterfallData.t) :
  In a WaterfallData_attributes ->
  None_is_unset WaterfallData.init WaterfallData.to_dict a.
Proof.
  intros I.
  assert (forall kwargs self,
            WaterfallData.init kwargs = Ok self ->
            dict_lookup kwargs (keyword a) = None -> fget a self = VNone) as U.
  { intros kwargs self H L. rewrite WaterfallData_init_spec in H.
    bind_cases H. injection H as <-. unfold dict_get.
    simpl in I. repeat destruct I as [<-|I]; try destruct I; simpl in L |- *;
      now rewrite L. }
  split; [exact U|]. split.
  - intros self. simpl in I.
    repeat destruct I as [<-|I]; try destruct I; eexists; split; reflexivity.
  - intros kwargs self self' H L S. specialize (U kwargs self H L).
    assert (self' = self) as ->; [|auto].
    simpl in I. repeat destruct I as [<-|I]; try destruct I;
      simpl in U, S; injection S as <-; destruct self; simpl in *; now subst.
Qed.

Lemma AnnotationPoint_None_is_unset (a : attribute AnnotationPoint.t) :
  In a AnnotationPoint_attributes ->
  None_is_unset AnnotationPoint.init AnnotationPoint.to_dict a.
Proof.
  intros I.
  assert (forall kwargs self,
            AnnotationPoint.init kwargs = Ok self ->
            dict_lookup kwargs (keyword a) = None -> fget a self = VNone) as U.
  { intros kwargs self H L.
    apply AnnotationPoint_init_fields in H as (H1 & H2 & H3 & H4).
    unfold dict_get in H1, H2, H3, H4.
    simpl in I. repeat destruct I as [<-|I]; try destruct I; simpl in L |- *;
      first [read_None H1 L | read_None H2 L | read_None H3 L | read_None H4 L]. }
  split; [exact U|]. split.
  - intros self. simpl in I.
    repeat destruct I as [<-|I]; try destruct I; eexists; split; reflexivity.
  - intros kwargs self self' H L S. specialize (U kwargs self H L).
    assert (self' = self) as ->; [|auto].
    simpl in I. repeat destruct I as [<-|I]; try destruct I;
      simpl in U, S; injection S as <-; destruct self; simpl in *; now subst.
Qed.

Lemma ScreenReaderSection_None_is_unset (a : attribute ScreenReaderSection.t) :
  In a ScreenReaderSection_attributes ->
  None_is_unset ScreenReaderSection.init ScreenReaderSection.to_json a.
Proof.
  intros I.
  assert (forall kwargs self,
            ScreenReaderSection.init kwargs = Ok self ->
            dict_lookup kwargs (keyword a) = None -> fget a self = VNone) as U.
  { intros kwargs self H L. rewrite ScreenReaderSection_init_closed in H.
    destruct (forallb _ _); [|discriminate]. injection H as <-.
    unfold dict_get.
    simpl in I. repeat destruct I as [<-|I]; try destruct I; simpl in L |- *;
      now rewrite L. }
  split; [exact U|]. split.
  - intros self. simpl in I.
    repeat destruct I as [<-|I]; try destruct I; eexists; split; reflexivity.
  - intros kwargs self self' H L S. specialize (U kwargs self H L).
    assert (self' = self) as ->; [|auto].
    simpl in I. repeat destruct I as [<-|I]; try destruct I;
      simpl in U, S; injection S as <-; destruct self; simpl in *; now subst.
Qed.

(** C4, as the code has it.  For every attribute of [BarData],
    [WaterfallData], [AnnotationPoint] and [ScreenReaderSection] whose
    default is [None]: the constructor stores [None] when the attribute
    is not given, the setter stores [None] for [None] and does not raise,
    and assigning [None] to an entity built without the attribute gives
    that entity back, so the two export the same.  [None] is not exported
    as an explicit null: the trimmed exports [BarData.to_dict],
    [WaterfallData.to_dict] and [ScreenReaderSection.to_json] hold no
    [None], and hold the key of an attribute exactly when the attribute
    is not [None] (the [CartesianData] part of a point not writing that
    key itself). *)
Theorem None_assignment_is_unset :
  (forall a, In a BarData_attributes ->
     None_is_unset BarData.init BarData.to_dict a /\
     exported_unless_None BarData.to_dict BarData.parent_as_dict a) /\
  (forall a, In a WaterfallData_attributes ->
     None_is_unset WaterfallData.init WaterfallData.to_dict a /\
     exported_unless_None WaterfallData.to_dict WaterfallData.parent_as_dict a) /\
  (forall a, In a ScreenReaderSection_attributes ->
     None_is_unset ScreenReaderSection.init ScreenReaderSection.to_json a /\
     exported_unless_None ScreenReaderSection.to_json (fun _ => []) a) /\
  (forall a, In a AnnotationPoint_attributes ->
     None_is_unset AnnotationPoint.init AnnotationPoint.to_dict a) /\
  exports_no_None BarData.to_dict /\
  exports_no_None WaterfallData.to_dict /\
  exports_no_None ScreenReaderSection.to_json.
Proof.
  split; [intros a I; split; [now apply BarData_None_is_unset|]|].
  { intros self P. rewrite BarData_to_dict_own by assumption.
    simpl in I. repeat destruct I as [<-|I]; try destruct I; apply keep_Some. }
  split; [intros a I; split; [now apply WaterfallData_None_is_unset|]|].
  { intros self P. rewrite WaterfallData_to_dict_own by assumption.
    simpl in I. repeat destruct I as [<-|I]; try destruct I; apply keep_Some. }
  split; [intros a I; split; [now apply ScreenReaderSection_None_is_unset|]|].
  { intros self _. rewrite to_json_lookup.
    simpl in I. repeat destruct I as [<-|I]; try destruct I; apply keep_Some. }
  split; [intros a I; now apply AnnotationPoint_None_is_unset|].
  split; [|split]; intros self k v; apply trim_dict_lookup_not_None.
Qed.
End Unset.

(** A bar point built without a [border_color] and with a [border_width],
    and a section built without arguments. *)
Lemma None_assignment_is_unset_witness :
  let kwargs := [("x", VInt 1); ("y", VInt 2); ("border_width", VInt 3)] in
  let point := BarData.mk VNone (VInt 3) VNone VNone
                 [("_x", VInt 1); ("_y", VInt 2)] in
  let section :=
    ScreenReaderSection.mk (VStr "{endOfChartMarker}") VNone
      (VStr "%Y-%m-%d %H:%M:%S")
      (VStr (DEFAULT_BEFORE_CHART_FORMAT (Constants := sample_constants)))
      VNone VNone VNone in
  BarData.init (RT := sample_runtime) (K := sample_constants)
    (C := sample_collaborators) kwargs = Ok point /\
  BarData.set_border_color (C := sample_collaborators) point VNone = Ok point /\
  dict_lookup (BarData.to_dict (C := sample_collaborators) point) "borderColor" =
    None /\
  dict_lookup (BarData.to_dict (C := sample_collaborators) point) "borderWidth" =
    Some (VInt 3) /\
  ScreenReaderSection.init (K := sample_constants) [] = Ok section /\
  ScreenReaderSection.set_after_chart_formatter section VNone = Ok section /\
  dict_lookup (ScreenReaderSection.to_json section) "afterChartFormatter" = None.
Proof.
  intros kwargs point section.
  pose proof (@None_assignment_is_unset sample_runtime sample_constants
                sample_collaborators) as (HB & _ & HS & _).
  destruct (HB _ (or_introl eq_refl)) as [(_ & U2 & U3) E1].
  destruct (HB _ (or_intror (or_introl eq_refl))) as [_ E2].
  destruct (HS _ (or_introl eq_refl)) as [(_ & V2 & V3) E3].
  assert (BarData.init (RT := sample_runtime) (K := sample_constants)
            (C := sample_collaborators) kwargs = Ok point) as I
    by (vm_compute; reflexivity).
  split; [exact I|].
  split.
  { destruct (U2 point) as (point' & S & _).
    destruct (U3 kwargs point point' I eq_refl S) as [E _].
    rewrite E in S. exact S. }
  split; [exact (eq_trans (E1 point eq_refl) eq_refl)|].
  split; [exact (eq_trans (E2 point eq_refl) eq_refl)|].
  assert (ScreenReaderSection.init (K := sample_constants) [] = Ok section) as J
    by (vm_compute; reflexivity).
  split; [exact J|].
  split.
  { destruct (V2 section) as (section' & S & _).
    destruct (V3 [] section section' J eq_refl S) as [E _].
    rewrite E in S. exact S. }
  exact (eq_trans (E3 section eq_refl) eq_refl).
Defined.

(** C4, as the claim has it, fails: a [BarData] whose [border_color] was
    assigned [None] is the one whose [border_color] was never assigned,
    and its export holds no [borderColor] key. *)
Lemma None_assignment_not_distinguished :
  exists untouched assigned,
    BarData.init (RT := sample_runtime) (K := sample_constants)
      (C := sample_collaborators) [("x", VInt 1); ("y", VInt 2)] = Ok untouched /\
    BarData.set_border_color (C := sample_collaborators) untouched VNone = Ok assigned /\
    BarData.to_dict (C := sample_collaborators) assigned =
    BarData.to_dict (C := sample_collaborators) untouched /\
    BarData.to_dict (C := sample_collaborators) assigned =
    [("x", VInt 1); ("y", VInt 2)].
Proof.
  eexists. eexists.
  split; [vm_compute; reflexivity|].
  split; [vm_compute; reflexivity|].
  split; vm_compute; reflexivity.
Qed.

